(* ===== verification/_CoqProject ===== *)
-Q . S2P
Prelude.v
JsValue.v
ObjectId.v
Json.v
Store.v
Upload.v
Controller.v
Client.v
ProductList.v
AddProduct.v
Scanner.v
