(* ===== verification/Prelude.v ===== *)
(** * A verification development for the seller product pages of Grocery-Store

    The repository is a small e-commerce application.  Its verified part is
    the seller-facing product management feature, three source files:

    - [src/server/controllers/productController.js]: six Express request
      handlers, [addProduct], [productList], [productById], [changeStock],
      [deleteProduct] and [updateProduct].  Each handler reads the request,
      calls the image host (Cloudinary, [cloudinary.uploader.upload]) and the
      document store (the Mongoose model [Product]: [create], [find],
      [findById], [findByIdAndUpdate], [findByIdAndDelete]), and answers
      with a JSON envelope [{success, message, ...}].  Every exception is
      caught, logged with [console.log] and turned into
      [{success: false, message: error.message}].
    - [src/client/src/pages/seller/ProductList.jsx]: the product table with
      the stock toggle, the delete button and the edit modal, each issuing a
      request to the controller and refetching the product list.
    - [src/client/src/pages/seller/AddProduct.jsx]: the product form, its
      submission as a multipart request, and the barcode scanner (camera
      stream, decoder, external product lookup).

    ** How the files model the program

    - [Prelude] (this file): the result type of fallible code, the
      exception-state monad [exn] in which the handlers run (external state
      survives an exception, as in JavaScript), its notation in [exn_scope],
      the invariant ([exn_keeps]) and preorder ([exn_steps]) reasoning over
      it, the hint databases [gs], [exn] and [exn_rw], and the list lemmas
      the components share.
    - [JsValue]: JavaScript values ([jval], objects as stdpp [gmap]s with
      string keys), truthiness, property read and strict-mode property write,
      object spread, [String.prototype.split] on a newline and
      [String.prototype.replace] with a string pattern, the JSON body axios
      sends, and the error values ([js_error]) with their [message].
    - [ObjectId]: the 24-hex-digit rendering of document identifiers and the
      cast Mongoose applies to an identifier coming from a request.
    - [Json]: [JSON.stringify] and [JSON.parse] (built-ins, modelled from
      their specification): the interface [JsonCodec] the form relies on,
      and its instance [js_json], a printer and a parser of JSON text.
    - [Store]: the [Product] collection as Mongoose treats it: documents in
      a [gmap N obj] keyed by their ObjectId, the insertion order that
      [find({})] returns, the identifier counter with its 96-bit wrap-around,
      and the five model operations used by the controller.  The schema
      (server/models/Product.js, outside [src/]) is an interface, the class
      [ProductSchema]: its defaults and its validators.
    - [Upload]: the image host as an interface (class [MediaHost]) and
      [Promise.all] over the uploads of one request, with the completion
      order of the concurrent uploads an explicit schedule.
    - [Controller]: the six handlers, composed from the above exactly as the
      source composes them.
    - [Client]: the browser beside the server: a page's [world] pairs the
      server state with the page's React state; [on_srv] lifts a request,
      [on_ui] a state update.
    - [ProductList] (Module [ListPage]): the product table and its edit
      modal: every handler ([toggleStock], [deleteProduct],
      [updateProduct], the inputs and buttons) as a step of [dispatch] over
      the world, the requests going through the Express routes (outside
      [src/], modelled from the spec) to the controller.
    - [AddProduct] (Module [EntryForm]): the entry form's [useState] hooks,
      the four image slots as a sparse array (holes, [undefined], files),
      [onSubmitHandler] building the multipart payload that multer turns
      into the request [Controller.addProduct] handles, the reset on
      success, [handleBarcodeLookup] and the confirm dialog, every handler a
      step of [dispatch_form].
    - [Scanner] (Module [Scanner]): the camera half of AddProduct.jsx as a
      step relation: Start and Stop, a camera request granted or refused, a
      decoded barcode, the unmount and the form's own events, each followed
      by React's render, effect cleanup and effect ([commit]); the state
      keeps the pending [getUserMedia] requests, the live tracks, the
      decode loops and the [stream] value each closure captured.

    ** What is proved

    The properties are about the code under [src/]; the models of the
    libraries it calls carry their own lemmas, which the properties use.

    - [Controller]: a successful [addProduct] appends exactly one document
      whose image list holds one URL per attached file in file order (the
      [i]-th URL is the one the upload of the [i]-th file answered, stated
      with [Upload.upload_log], the host's answers in completion order),
      for every host and every completion order; a failed add stores
      nothing; a failed upload answers the first failure to complete,
      stores nothing and leaves the successful uploads on the host.  An
      update without images keeps every image list; an update with images
      replaces it with the new URLs in file order; an update whose upload
      fails changes no document; an update of an absent identifier answers
      "Product not found" after its images were uploaded, which stay
      hosted.  [changeStock] sets [inStock] of the stored document to the
      value sent and nothing else; [deleteProduct] without an identifier
      answers "Product ID is required"; and the divergence the model shows:
      deleting an absent identifier answers [success: true].
    - [Upload]: for every completion order of the concurrent uploads (a
      permutation of the files) a successful [Promise.all] yields one URL
      per file; for a host whose answers do not depend on its state, it is
      equivalent to uploading the files one after the other.
    - [ProductList]: no sequence of clicks and keystrokes on the list page
      changes a product's images; the stock toggle, delete and edit buttons
      do what they show, through the router and the controller; saving a
      product deleted meanwhile keeps the modal open.
    - [AddProduct]: a valid submission adds exactly the product the form
      shows and resets it; a failed upload keeps the form; a submission
      never sends more than four images; the form's fields keep their
      types, so building [productData] never throws and the payload is a
      JSON record; the barcode lookup fills the form or leaves it as it
      was; and "No, Save Directly" after a lookup never submits (the lookup
      empties the required price inputs).
    - [Scanner]: the invariant of the scanner (streams the closures can see
      were granted before, requests not answered are fresh, a running
      decode loop means a mounted, scanning page whose current stream is
      live and not among the stale values) holds in every reachable state,
      by induction on the steps; from it: an idle scanner runs no decode
      loop, and one click on Stop brings a scanning scanner back to idle
      with the held stream released.  It also shows the camera leaks of the
      code: a successful decode, an unmount while scanning, and a
      permission granted after Stop each leave a stream live, the last
      with a misleading "Camera access denied" toast; and from every idle
      state, Start, Stop, Start and two grants run two decode loops at once.
    - The models of the libraries: [Store] keeps its well-formedness
      invariant and refines an abstract collection; [ObjectId] renders and
      casts identifiers back; [Json] parses the text printed for a record
      of plain values back to the record, within the fuel it is given.

    ** Bounds, schedules and fuel

    Identifiers are natural numbers below [2^96] (12 bytes, as a BSON
    ObjectId), generated by a counter that wraps modulo [2^96]; a wrapped
    counter that hits a stored identifier makes [create] fail with the
    duplicate-key error, as the database does.  The completion order of the
    uploads is an argument of the handlers (a list of file indices): the
    theorems quantify over every permutation, which covers every
    interleaving of the upload completions.  The scanner's events are
    interleaved freely by its step relation (the camera's answers may come
    in any order and at any time).  The only bounded recursion is the JSON
    parser's: [js_parse] allows twice the length of the text plus one steps,
    enough because every nested value and every array element consumes at
    least one character, and each array element is read once more by
    [parse_items] before [parse_value] reads it: a value of [l] characters
    needs at most [2 * l + 1] steps ([parse_fuel_step], by induction on the
    fuel with the lemma that every parse consumes input).  Every
    other recursion is structural.

    ** Not modelled

    Authentication and routing (the handlers are called directly with the
    request); the HTTP transport (multer's parsing of multipart bodies is
    modelled from its documentation in [EntryForm.add_request]); the
    casting of field values to the schema's types; ObjectIds given as
    12-character byte strings; the rendering of the React pages (only their
    state and handlers matter); the console and toast output beyond the log
    of messages and the list of toasts; the zxing frame loop (a decode event
    is a result) and its [reset] method, which is assumed to exist on the
    reader; the asynchronous halves of [handleBarcodeLookup], which run
    atomically; numbers with a fraction or an exponent and non-ASCII text
    in JSON.  The controller takes [JSON.parse] as a parameter: its
    theorems hold for every parser.  Mongoose's strict mode, which drops
    the properties a schema does not declare, is not modelled: the model
    stores every top-level property of a created or updated document. *)

From stdpp Require Export base gmap strings list fin_maps pretty.
#[global] Set Warnings "-register-all".

(** ** Results of fallible code *)

Inductive result (E A : Type) : Type :=
| Ok (a : A)
| Err (e : E).
Arguments Ok {E A} a.
Arguments Err {E A} e.

#[export] Instance result_ret E : MRet (result E) := λ A a, Ok a.
#[export] Instance result_bind E : MBind (result E) :=
  λ A B f r, match r with Ok a => f a | Err e => Err e end.
#[export] Instance result_fmap E : FMap (result E) :=
  λ A B f r, match r with Ok a => Ok (f a) | Err e => Err e end.

Definition is_ok {E A} (r : result E A) : bool :=
  match r with Ok _ => true | Err _ => false end.

(** A result with its value forgotten: success or the error. *)
Definition res_void {E A} (r : result E A) : result E unit := (λ _, tt) <$> r.

(** ** The exception-state monad

    A handler runs against an external state [S] (the database, the image
    host, the log).  An exception aborts the rest of the handler but keeps
    every change already made to [S]: JavaScript has no rollback. *)

Definition exn (S E A : Type) : Type := S → result E A * S.

Definition exn_ret {S E A} (a : A) : exn S E A := λ s, (Ok a, s).
Definition exn_bind {S E A B} (c : exn S E A) (k : A → exn S E B) : exn S E B :=
  λ s, match c s with
       | (Ok a, s') => k a s'
       | (Err e, s') => (Err e, s')
       end.
Definition exn_throw {S E A} (e : E) : exn S E A := λ s, (Err e, s).
Definition exn_catch {S E A} (c : exn S E A) (h : E → exn S E A) : exn S E A :=
  λ s, match c s with
       | (Ok a, s') => (Ok a, s')
       | (Err e, s') => h e s'
       end.
Definition exn_lift {S E A} (r : result E A) : exn S E A :=
  λ s, (r, s).
Definition exn_gets {S E A} (f : S → A) : exn S E A := λ s, (Ok (f s), s).
Definition exn_modify {S E} (f : S → S) : exn S E unit := λ s, (Ok tt, f s).

Declare Scope exn_scope.
Delimit Scope exn_scope with exn.
Notation "x <- c ;; k" := (exn_bind c (λ x, k))
  (at level 100, c at next level, right associativity) : exn_scope.
Notation "c ;;; k" := (exn_bind c (λ _, k))
  (at level 100, right associativity) : exn_scope.

(** ** Hint databases *)

Create HintDb gs discriminated.
Create HintDb exn discriminated.
Create Rewrite HintDb exn_rw.

(** A state predicate kept by a computation, whether it returns or throws. *)
Definition exn_keeps {S E A} (P : S → Prop) (c : exn S E A) : Prop :=
  ∀ s, P s → P (c s).2.

Section exn_laws.
  Context {S E A B : Type}.

Lemma exn_bind_ok (c : exn S E A) (k : A → exn S E B) s a s' :
    c s = (Ok a, s') → exn_bind c k s = k a s'.
  Proof. intros Hc. unfold exn_bind. by rewrite Hc. Qed.

Lemma exn_bind_err (c : exn S E A) (k : A → exn S E B) s e s' :
    c s = (Err e, s') → exn_bind c k s = (Err e, s').
  Proof. intros Hc. unfold exn_bind. by rewrite Hc. Qed.

Lemma exn_catch_ok (c : exn S E A) h s a s' :
    c s = (Ok a, s') → exn_catch c h s = (Ok a, s').
  Proof. intros Hc. unfold exn_catch. by rewrite Hc. Qed.

Lemma exn_catch_err (c : exn S E A) h s e s' :
    c s = (Err e, s') → exn_catch c h s = h e s'.
  Proof. intros Hc. unfold exn_catch. by rewrite Hc. Qed.

Lemma exn_bind_ret_l (a : A) (k : A → exn S E B) s :
    exn_bind (exn_ret a) k s = k a s.
  Proof. reflexivity. Qed.

Lemma exn_bind_assoc {C} (c : exn S E A) (k : A → exn S E B) (k' : B → exn S E C) s :
    exn_bind (exn_bind c k) k' s = exn_bind c (λ a, exn_bind (k a) k') s.
  Proof. unfold exn_bind. by destruct (c s) as [[] ?]. Qed.

Lemma exn_keeps_bind P (c : exn S E A) (k : A → exn S E B) :
    exn_keeps P c → (∀ a, exn_keeps P (k a)) → exn_keeps P (exn_bind c k).
  Proof.
    intros Hc Hk s Hs. unfold exn_bind.
    specialize (Hc s Hs). destruct (c s) as [[a|e] s']; simpl in *; auto.
    by apply Hk.
  Qed.

Lemma exn_keeps_catch P (c : exn S E A) h :
    exn_keeps P c → (∀ e, exn_keeps P (h e)) → exn_keeps P (exn_catch c h).
  Proof.
    intros Hc Hh s Hs. unfold exn_catch.
    specialize (Hc s Hs). destruct (c s) as [[a|e] s']; simpl in *; auto.
    by apply Hh.
  Qed.

Lemma exn_keeps_ret P (a : A) : exn_keeps P (@exn_ret S E A a).
  Proof. by intros s. Qed.

Lemma exn_keeps_throw P (e : E) : exn_keeps P (@exn_throw S E A e).
  Proof. by intros s. Qed.

Lemma exn_keeps_lift P (r : result E A) : exn_keeps P (@exn_lift S E A r).
  Proof. by intros s. Qed.

Lemma exn_keeps_gets P (f : S → A) : exn_keeps P (@exn_gets S E A f).
  Proof. by intros s. Qed.
End exn_laws.

#[export] Hint Rewrite @exn_bind_ret_l @exn_bind_assoc : exn_rw.
#[export] Hint Resolve exn_keeps_bind exn_keeps_catch exn_keeps_ret
  exn_keeps_throw exn_keeps_lift exn_keeps_gets : exn.

(** A relation between the state before and after a computation, whether
    it returns or throws.  For a preorder it composes through binds and
    catches like [exn_keeps]. *)
Definition exn_steps {S E A} (R : relation S) (c : exn S E A) : Prop :=
  ∀ s, R s (c s).2.

Section exn_steps.
  Context {S E A B : Type} (R : relation S) `{!PreOrder R}.

Lemma exn_steps_bind (c : exn S E A) (k : A → exn S E B) :
    exn_steps R c → (∀ a, exn_steps R (k a)) → exn_steps R (exn_bind c k).
  Proof.
    intros Hc Hk s. unfold exn_bind. specialize (Hc s).
    destruct (c s) as [[a|e] s']; simpl in *; [|done].
    by etrans; [|apply Hk].
  Qed.

Lemma exn_steps_catch (c : exn S E A) h :
    exn_steps R c → (∀ e, exn_steps R (h e)) → exn_steps R (exn_catch c h).
  Proof.
    intros Hc Hh s. unfold exn_catch. specialize (Hc s).
    destruct (c s) as [[a|e] s']; simpl in *; [done|].
    by etrans; [|apply Hh].
  Qed.

Lemma exn_steps_ret (a : A) : exn_steps R (@exn_ret S E A a).
  Proof. intros s. simpl. reflexivity. Qed.

Lemma exn_steps_throw (e : E) : exn_steps R (@exn_throw S E A e).
  Proof. intros s. simpl. reflexivity. Qed.

Lemma exn_steps_lift (r : result E A) : exn_steps R (@exn_lift S E A r).
  Proof. intros s. simpl. reflexivity. Qed.

Lemma exn_steps_gets (f : S → A) : exn_steps R (@exn_gets S E A f).
  Proof. intros s. simpl. reflexivity. Qed.

Lemma exn_steps_lift_bind (r : result E A) (k : A → exn S E B) :
    (∀ a, r = Ok a → exn_steps R (k a)) → exn_steps R (exn_bind (exn_lift r) k).
  Proof. intros Hk s. unfold exn_bind, exn_lift. destruct r as [a|e]; [by apply Hk|done]. Qed.

Lemma exn_steps_mono (R' : relation S) (c : exn S E A) :
    (∀ s s', R s s' → R' s s') → exn_steps R c → exn_steps R' c.
  Proof. intros HR Hc s. apply HR, Hc. Qed.
End exn_steps.

(** Prove [exn_steps R c] by descending through [c]'s binds and catches. *)
Ltac steps_tac :=
  repeat (first [ apply exn_steps_lift_bind; [exact _|intros ? ?]
                | apply exn_steps_bind; [exact _| |intros ?]
                | apply exn_steps_catch; [exact _| |intros ?]
                | apply exn_steps_ret; exact _ | apply exn_steps_throw; exact _
                | apply exn_steps_lift; exact _ | apply exn_steps_gets; exact _
                | match goal with |- exn_steps _ (if ?b then _ else _) => destruct b end
                | match goal with |- exn_steps _ (match ?x with _ => _ end) => destruct x end ]).

(** ** Tactics *)

(** Run a computation step by step: rewrite with the equation of the
    first bound computation, named [H]. *)
Ltac step_exn H :=
  first [ rewrite (exn_bind_ok _ _ _ _ _ H)
        | rewrite (exn_bind_err _ _ _ _ _ H)
        | rewrite (exn_catch_ok _ _ _ _ _ H)
        | rewrite (exn_catch_err _ _ _ _ _ H) ].

(** Prove that a computation keeps a state predicate, descending through
    its binds and catches. *)
Ltac keeps_tac :=
  repeat (first [ apply exn_keeps_bind; [| intros ?]
                | apply exn_keeps_catch; [| intros ?]
                | apply exn_keeps_ret | apply exn_keeps_throw
                | apply exn_keeps_lift | apply exn_keeps_gets
                | match goal with |- exn_keeps _ (match ?x with _ => _ end) => destruct x end ]).

(** Decide a closed proposition by evaluating its decision procedure. *)
Ltac decide_vm := apply (bool_decide_unpack _); vm_compute; exact I.

(** ** Shared list lemmas *)

Section lists.
  Context {A : Type}.

  (** A permutation of [seq 0 n] holds every index below [n] exactly once. *)
Lemma perm_seq_elem (ord : list nat) n i :
    ord ≡ₚ seq 0 n → i ∈ ord ↔ i < n.
  Proof. intros Hp. rewrite Hp, elem_of_seq. lia. Qed.

Lemma perm_seq_NoDup (ord : list nat) n : ord ≡ₚ seq 0 n → NoDup ord.
  Proof. intros Hp. rewrite Hp. apply NoDup_seq. Qed.

Lemma lookup_replicate_None_iff n (i : nat) :
    (replicate n (@None A)) !! i = Some None ↔ i < n.
  Proof. rewrite lookup_replicate. naive_solver. Qed.
Lemma Forall2_cons_l_iff {B} (P : A → B → Prop) x l k :
    Forall2 P (x :: l) k ↔ ∃ y k', P x y ∧ Forall2 P l k' ∧ k = y :: k'.
  Proof. split; [apply Forall2_cons_inv_l|]. intros (y & k' & ? & ? & ->). by constructor. Qed.

Lemma omap_seq_S {B} (f : nat → option B) k n :
    omap f (seq (S k) n) = omap (λ i, f (S i)) (seq k n).
  Proof.
    revert k. induction n as [|n IH]; intros k; [done|]. simpl.
    destruct (f (S k)); simpl; [f_equal|]; apply IH.
  Qed.

  (** Visiting the indices of a list in order visits its elements. *)
Lemma omap_lookup_seq {B} (g : A → option B) (l : list A) :
    omap (λ i, l !! i ≫= g) (seq 0 (length l)) = omap g l.
  Proof.
    induction l as [|x l IH]; [done|]. simpl.
    destruct (g x); simpl; [f_equal|];
      (etransitivity; [apply (omap_seq_S (λ i, (x :: l) !! i ≫= g) 0 (length l))|]; apply IH).
  Qed.
End lists.

#[export] Hint Resolve perm_seq_NoDup : gs.
