(* ===== verification/JsValue.v ===== *)
(** * JavaScript values, objects and strings

    The values the handlers and the pages pass around: request bodies,
    parsed JSON, stored documents and response envelopes.  An object is a
    stdpp [gmap] from property names to values (property order is not
    observable by the code modelled here).  The file also holds the
    JavaScript operations the source applies to them: truthiness ([!x],
    [a || b]), property read and strict-mode property write, object spread
    ([{...o, k: v}]), [String(v)] as [JSON.parse] applies it to its
    argument, [String.prototype.split] on one character and
    [String.prototype.replace] with a string pattern, and the errors the
    code catches, with their [message]. *)

From S2P Require Import Prelude.
From Stdlib Require Import Ascii.
Local Open Scope string_scope.

Inductive jval : Type :=
| JUndefined
| JNull
| JBool (b : bool)
| JNum (z : Z)
| JStr (s : string)
| JArr (vs : list jval)
| JObj (fs : gmap string jval).

Abbreviation obj := (gmap string jval).

(** ** Truthiness: [!v] is [negb (truthy v)] *)

Definition truthy (v : jval) : bool :=
  match v with
  | JUndefined | JNull => false
  | JBool b => b
  | JNum z => negb (Z.eqb z 0)
  | JStr s => negb (String.eqb s "")
  | JArr _ | JObj _ => true
  end.

(** [a || b] *)
Definition js_or (a b : jval) : jval := if truthy a then a else b.

(** ** Errors and their [message] *)

Inductive js_error : Type :=
| SyntaxError (msg : string)
| TypeError (msg : string)
| CastError (value : string)
| ValidationError (msg : string)
| DuplicateKeyError (key : string)
| ObjectParameterError
| UploadError (msg : string)
| AxiosError (msg : string).

Definition message (e : js_error) : string :=
  match e with
  | SyntaxError m | TypeError m | ValidationError m | UploadError m | AxiosError m => m
  | CastError v => "Cast to ObjectId failed for value " ++ v ++ " at path _id for model Product"
  | DuplicateKeyError k => "E11000 duplicate key error collection: products index: _id_ dup key: " ++ k
  | ObjectParameterError => "Parameter update to findOneAndUpdate() must be an object"
  end.

Abbreviation jres := (result js_error).

(** ** Property access *)

(** [o.k] on an object: a missing property reads as [undefined]. *)
Definition get_prop (o : obj) (k : string) : jval :=
  default JUndefined (o !! k).

(** [v.k = x] in strict mode (ES modules are strict): an object gets the
    property; writing to [undefined] or [null] throws, and so does creating
    a property on a primitive.  An array takes the property as an expando
    that no later use of the value reads, so the array is unchanged. *)
Definition set_prop (v : jval) (k : string) (x : jval) : jres jval :=
  match v with
  | JObj o => Ok (JObj (<[k := x]> o))
  | JArr _ => Ok v
  | JUndefined => Err (TypeError ("Cannot set properties of undefined (setting " ++ k ++ ")"))
  | JNull => Err (TypeError ("Cannot set properties of null (setting " ++ k ++ ")"))
  | _ => Err (TypeError ("Cannot create property " ++ k ++ " on a primitive"))
  end.

(** [v.k] on any value.  Reading a property of [undefined] or [null]
    throws.  The properties the pages read ([_id], [inStock], [image],
    [name], ...) are own properties of objects only, so on any other value
    they read as [undefined]. *)
Definition read_prop (v : jval) (k : string) : jres jval :=
  match v with
  | JObj o => Ok (get_prop o k)
  | JUndefined => Err (TypeError ("Cannot read properties of undefined (reading '" ++ k ++ "')"))
  | JNull => Err (TypeError ("Cannot read properties of null (reading '" ++ k ++ "')"))
  | _ => Ok JUndefined
  end.

(** [v[i]]: an array's element or a string's character, [undefined] past
    the end. *)
Definition read_index (v : jval) (i : nat) : jres jval :=
  match v with
  | JArr vs => Ok (default JUndefined (vs !! i))
  | JStr s => Ok (default JUndefined ((λ c, JStr (String c "")) <$> String.get i s))
  | JUndefined => Err (TypeError ("Cannot read properties of undefined (reading '" ++ pretty i ++ "')"))
  | JNull => Err (TypeError ("Cannot read properties of null (reading '" ++ pretty i ++ "')"))
  | _ => Ok JUndefined
  end.

Definition is_undefined (v : jval) : bool :=
  match v with JUndefined => true | _ => false end.

(** [JSON.parse(JSON.stringify(o))] on an object whose properties hold
    primitives: the properties holding [undefined] are dropped, the others
    pass unchanged.  This is what a request body goes through between
    axios and [express.json()]. *)
Definition wire (o : obj) : obj := filter (λ kv, is_undefined kv.2 = false) o.

(** ** Object spread [{...v}] *)

Fixpoint index_props {A} (f : A → jval) (i : nat) (l : list A) : obj :=
  match l with
  | [] => ∅
  | x :: l' => <[pretty i := f x]> (index_props f (S i) l')
  end.

Definition spread (v : jval) : obj :=
  match v with
  | JObj o => o
  | JArr vs => index_props id 0 vs
  | JStr s => index_props (λ c, JStr (String c "")) 0 (String.list_ascii_of_string s)
  | _ => ∅
  end.

(** ** [String(v)], the coercion [JSON.parse] applies to its argument *)

Fixpoint to_js_string (v : jval) : string :=
  match v with
  | JUndefined => "undefined"
  | JNull => "null"
  | JBool b => if b then "true" else "false"
  | JNum z => pretty z
  | JStr s => s
  | JArr vs =>
      (fix go (l : list jval) : string :=
         match l with
         | [] => ""
         | [x] => match x with JUndefined | JNull => "" | _ => to_js_string x end
         | x :: l' => (match x with JUndefined | JNull => "" | _ => to_js_string x end)
                        ++ "," ++ go l'
         end) vs
  | JObj _ => "[object Object]"
  end.

(** ** [s.split(c)] and [l.join(c)] for a one-character separator *)

Fixpoint split_on (c : ascii) (s : string) : list string :=
  match s with
  | EmptyString => [""]
  | String a s' =>
      let rest := split_on c s' in
      if decide (a = c) then "" :: rest
      else match rest with
           | [] => [String a ""]
           | x :: xs => String a x :: xs
           end
  end.

Fixpoint join_on (c : ascii) (l : list string) : string :=
  match l with
  | [] => ""
  | [x] => x
  | x :: l' => x ++ String c (join_on c l')
  end.

(** ** [s.startsWith(p)] and [s.replace(p, r)] with a string pattern:
    the first occurrence only. *)

Fixpoint starts_with (p s : string) : bool :=
  match p, s with
  | EmptyString, _ => true
  | String a p', String b s' => bool_decide (a = b) && starts_with p' s'
  | String _ _, EmptyString => false
  end.

Fixpoint replace_first (p r s : string) : string :=
  if starts_with p s then r ++ String.substring (String.length p) (String.length s - String.length p) s
  else match s with
       | EmptyString => s
       | String a s' => String a (replace_first p r s')
       end.

Definition newline : ascii := "010"%char.

(** [s.includes(c)] for one character. *)
Fixpoint has_char (c : ascii) (s : string) : bool :=
  match s with
  | EmptyString => false
  | String a s' => bool_decide (a = c) || has_char c s'
  end.

(** ** Lemmas on the string operations *)

Section strings.
  Context (c : ascii).

Lemma split_on_nonempty s : split_on c s ≠ [].
  Proof.
    induction s as [|a s IH]; simpl; [done|].
    case_decide; [done|]. by destruct (split_on c s).
  Qed.

Lemma join_split_on s : join_on c (split_on c s) = s.
  Proof.
    induction s as [|a s IH]; simpl; [done|].
    pose proof (split_on_nonempty s) as Hne.
    destruct (split_on c s) as [|x [|y l]] eqn:E; [done| |];
      case_decide; subst; simpl in *; by rewrite ?IH.
  Qed.

Lemma split_on_no_char s : has_char c s = false → split_on c s = [s].
  Proof.
    induction s as [|a s IH]; simpl; [done|].
    intros [Ha Hs]%orb_false_iff. rewrite IH by done.
    by rewrite decide_False by (intros ->; by rewrite bool_decide_true in Ha).
  Qed.

Lemma split_on_app x t :
    has_char c x = false → split_on c (x ++ String c t) = x :: split_on c t.
  Proof.
    induction x as [|a x IH]; simpl; intros Hx.
    - by rewrite decide_True.
    - apply orb_false_iff in Hx as [Ha Hx]. rewrite IH by done.
      by rewrite decide_False by (intros ->; by rewrite bool_decide_true in Ha).
  Qed.

  (** The round trip of [split] and [join]: a non-empty list of lines none
      of which holds the separator. *)
Lemma split_join_on l :
    l ≠ [] → Forall (λ x, has_char c x = false) l → split_on c (join_on c l) = l.
  Proof.
    induction l as [|x [|y l] IH]; intros Hne Hall; [done| |].
    - inversion Hall; subst. by apply split_on_no_char.
    - inversion Hall as [|? ? Hx Hrest]; subst. simpl.
      rewrite split_on_app by done. f_equal. by apply IH.
  Qed.
End strings.

Lemma starts_with_app p t : starts_with p (p ++ t) = true.
Proof.
  induction p as [|a p IH]; simpl; [done|].
  by rewrite bool_decide_true, IH.
Qed.

Lemma substring_0_length t : String.substring 0 (String.length t) t = t.
Proof. induction t as [|a t IH]; simpl; by rewrite ?IH. Qed.

Lemma string_length_app p t :
  String.length (p ++ t) = String.length p + String.length t.
Proof. induction p; simpl; by f_equal. Qed.

Lemma substring_app p t :
  String.substring (String.length p) (String.length (p ++ t) - String.length p) (p ++ t) = t.
Proof.
  rewrite string_length_app, Nat.add_comm, Nat.add_sub.
  induction p as [|a p IH]; simpl; [apply substring_0_length | done].
Qed.

(** Replacing a prefix pattern removes exactly that prefix. *)
Lemma replace_first_prefix p r t : replace_first p r (p ++ t) = r ++ t.
Proof.
  destruct p as [|a p]; simpl.
  - destruct t; simpl; by rewrite ?substring_0_length.
  - rewrite bool_decide_true, starts_with_app by done; simpl.
    by rewrite substring_app.
Qed.

(** ** Reading the properties of an object literal *)

Lemma get_prop_insert_eq (o : obj) k v : get_prop (<[k := v]> o) k = v.
Proof. unfold get_prop. by rewrite lookup_insert_eq. Qed.

Lemma get_prop_insert_ne (o : obj) k k' v : k ≠ k' → get_prop (<[k := v]> o) k' = get_prop o k'.
Proof. intros Hk. unfold get_prop. by rewrite lookup_insert_ne. Qed.

Lemma get_prop_empty k : get_prop ∅ k = JUndefined.
Proof. done. Qed.

(** Read the properties of object literals: [get_prop] through [<[_:=_]>]. *)
Ltac get_prop_simpl :=
  repeat first [ rewrite get_prop_insert_eq
               | rewrite get_prop_insert_ne by discriminate
               | rewrite get_prop_empty ].

Lemma wire_empty : wire ∅ = ∅.
Proof. apply map_filter_empty. Qed.

Lemma wire_insert_def (o : obj) k v : is_undefined v = false → wire (<[k := v]> o) = <[k := v]> (wire o).
Proof. intros Hv. unfold wire. by rewrite map_filter_insert_True. Qed.

(** Copying a property [o.g] of [o] into [m] and sending [m] over the wire
    gives back, merged over [o], nothing [o] did not hold. *)
Lemma wire_copy_union (o m : obj) g :
  wire m ∪ o = o → wire (<[g := get_prop o g]> m) ∪ o = o.
Proof.
  intros Hm. apply map_eq. intros j. pose proof (f_equal (.!! j) Hm) as Hj. simpl in Hj.
  rewrite lookup_union in Hj |- *. unfold wire in *. rewrite map_lookup_filter in Hj |- *.
  destruct (decide (j = g)) as [->|Hne]; [|by rewrite lookup_insert_ne].
  rewrite lookup_insert_eq. unfold get_prop. simpl.
  destruct (o !! g) as [x|]; simpl; [|done].
  destruct (is_undefined x); simpl; by rewrite ?option_guard_True, ?option_guard_False.
Qed.

Lemma wire_empty_union (o : obj) : wire ∅ ∪ o = o.
Proof. by rewrite wire_empty, map_empty_union. Qed.
