(* ===== verification/ObjectId.v ===== *)
(** * Document identifiers

    A stored product's [_id] is a 12-byte BSON ObjectId, a number below
    [2^96], which reaches the client as 24 lower-case hexadecimal digits
    and comes back in [req.body.id] or [req.params.id].  Before
    [findById], [findByIdAndUpdate] and [findByIdAndDelete] query the
    collection, Mongoose casts that value: 24 hexadecimal digits (either
    case) give the identifier, [undefined] and [null] match no document,
    and any other value throws a [CastError].  This file holds the
    rendering, the parser, the cast and the round trip between them. *)

From S2P Require Import Prelude JsValue.
From Stdlib Require Import Ascii.
Local Open Scope N_scope.

Definition oid_bound : N := 2 ^ 96.

(** ** Rendering: 24 hexadecimal digits, most significant first *)

Definition hex_digit (d : N) : ascii :=
  if decide (d < 10) then ascii_of_N (48 + d) else ascii_of_N (87 + d).

Fixpoint render_go (k : nat) (n : N) (acc : string) : string :=
  match k with
  | O => acc
  | S k' => render_go k' (n / 16) (String (hex_digit (n mod 16)) acc)
  end.

Definition render_oid (n : N) : string := render_go 24 n "".
Arguments render_oid : simpl never.

(** ** Parsing *)

Definition hex_val (c : ascii) : option N :=
  let x := N_of_ascii c in
  if decide (48 <= x <= 57) then Some (x - 48)
  else if decide (97 <= x <= 102) then Some (x - 87)
  else if decide (65 <= x <= 70) then Some (x - 55)
  else None.

Fixpoint parse_hex (s : string) (acc : N) : option N :=
  match s with
  | EmptyString => Some acc
  | String c s' =>
      match hex_val c with
      | Some d => parse_hex s' (acc * 16 + d)
      | None => None
      end
  end.

Definition parse_oid (s : string) : option N :=
  if decide (String.length s = 24%nat) then parse_hex s 0 else None.

(** ** The cast of a request value to an identifier *)

Definition cast_oid (v : jval) : jres (option N) :=
  match v with
  | JUndefined | JNull => Ok None
  | JStr s =>
      match parse_oid s with
      | Some n => Ok (Some n)
      | None => Err (CastError s)
      end
  | _ => Err (CastError (to_js_string v))
  end.

(** ** The round trip *)

Lemma hex_val_digit d : d < 16 → hex_val (hex_digit d) = Some d.
Proof.
  intros Hd.
  assert (d = 0 ∨ d = 1 ∨ d = 2 ∨ d = 3 ∨ d = 4 ∨ d = 5 ∨ d = 6 ∨ d = 7 ∨
          d = 8 ∨ d = 9 ∨ d = 10 ∨ d = 11 ∨ d = 12 ∨ d = 13 ∨ d = 14 ∨ d = 15)
    as Hcases by lia.
  repeat destruct Hcases as [->|Hcases]; try reflexivity; subst; reflexivity.
Qed.

Lemma render_go_length k n acc :
  String.length (render_go k n acc) = (k + String.length acc)%nat.
Proof.
  revert n acc. induction k as [|k IH]; intros n acc; simpl; [done|].
  rewrite IH. simpl. lia.
Qed.

Lemma parse_hex_render_go k n acc a :
  parse_hex (render_go k n acc) a = parse_hex acc (a * 16 ^ N.of_nat k + n mod 16 ^ N.of_nat k).
Proof.
  revert n acc a. induction k as [|k IH]; intros n acc a.
  - simpl. f_equal. rewrite N.mod_1_r. lia.
  - simpl render_go. rewrite IH. simpl.
    rewrite hex_val_digit by (apply N.mod_lt; lia).
    f_equal.
    rewrite Nat2N.inj_succ, N.pow_succ_r', (N.Div0.mod_mul_r n 16 (16 ^ N.of_nat k)).
    generalize (16 ^ N.of_nat k) as X. intros X. lia.
Qed.

(** Parsing the 24 digits of an identifier below the bound. *)
Lemma render_oid_parses n : n < oid_bound → parse_oid (render_oid n) = Some n.
Proof.
  intros Hn. unfold parse_oid, render_oid.
  rewrite decide_True by (rewrite render_go_length; reflexivity).
  rewrite parse_hex_render_go. cbn [parse_hex]. apply (f_equal Some).
  rewrite N.mul_0_l, N.add_0_l.
  assert (E : 16 ^ N.of_nat 24 = oid_bound) by reflexivity.
  rewrite E. exact (N.mod_small n oid_bound Hn).
Qed.

(** Casting the rendering of an identifier gives the identifier back. *)
Lemma parse_render_oid n : n < oid_bound → parse_oid (render_oid n) = Some n.
Proof. exact (render_oid_parses n). Qed.

Lemma cast_render_oid n : n < oid_bound → cast_oid (JStr (render_oid n)) = Ok (Some n).
Proof. intros Hn. unfold cast_oid. by rewrite render_oid_parses. Qed.

Lemma render_oid_length n : String.length (render_oid n) = 24%nat.
Proof. unfold render_oid. by rewrite render_go_length. Qed.

Lemma render_oid_nonempty n : render_oid n ≠ "".
Proof. pose proof (render_oid_length n) as Hl. intros E. by rewrite E in Hl. Qed.

(** A rendered identifier is never the empty string, so [!id] is false. *)
Lemma truthy_render_oid n : truthy (JStr (render_oid n)) = true.
Proof.
  simpl. pose proof (render_oid_length n) as Hl.
  destruct (render_oid n); [discriminate|done].
Qed.

(** ** Bounds: a parsed identifier fits in 12 bytes *)

Lemma hex_val_lt c d : hex_val c = Some d → d < 16.
Proof.
  unfold hex_val. repeat case_decide; intros; simplify_eq; lia.
Qed.

Lemma parse_hex_lt s a n :
  parse_hex s a = Some n → n < (a + 1) * 16 ^ N.of_nat (String.length s).
Proof.
  revert a. induction s as [|c s IH]; intros a; simpl.
  - intros [= <-]. lia.
  - destruct (hex_val c) as [d|] eqn:Hc; [|done].
    intros Hp%IH. apply hex_val_lt in Hc.
    rewrite Nat2N.inj_succ, N.pow_succ_r'.
    generalize dependent (16 ^ N.of_nat (String.length s)). intros X HX. nia.
Qed.

(** The value of 24 hexadecimal digits. *)
Lemma parse_oid_fits s n : parse_oid s = Some n → n < oid_bound.
Proof.
  unfold parse_oid. case_decide as Hl; [|done].
  intros Hp%parse_hex_lt. rewrite Hl in Hp.
  assert (E : (0 + 1) * 16 ^ N.of_nat 24 = oid_bound) by reflexivity.
  by rewrite E in Hp.
Qed.

(** An identifier cast from 24 hexadecimal digits fits in 12 bytes. *)
Lemma parse_oid_lt s n : parse_oid s = Some n → n < oid_bound.
Proof. exact (parse_oid_fits s n). Qed.

Lemma cast_oid_lt v n : cast_oid v = Ok (Some n) → n < oid_bound.
Proof.
  destruct v; simpl; try discriminate.
  destruct (parse_oid s) eqn:Hp; intros [= <-]. by eapply parse_oid_fits.
Qed.

#[export] Hint Resolve render_oid_parses cast_render_oid cast_oid_lt : gs.

(** ** Witnesses *)

Lemma parse_render_oid_witness :
  (48879 < oid_bound)%N ∧ parse_oid (render_oid 48879) = Some 48879%N.
Proof.
  assert (H : (48879 < oid_bound)%N) by (vm_compute; reflexivity).
  split; [exact H | exact (parse_render_oid 48879 H)].
Defined.

Lemma parse_oid_lt_witness :
  parse_oid "65f0c0ffee0000000000beef" = Some 31549039604097520091975958255%N ∧
  (31549039604097520091975958255 < oid_bound)%N.
Proof.
  assert (H : parse_oid "65f0c0ffee0000000000beef" = Some 31549039604097520091975958255%N)
    by (vm_compute; reflexivity).
  split; [exact H | exact (parse_oid_lt _ _ H)].
Defined.
