(* ===== verification/Json.v ===== *)
(** * [JSON.stringify] and [JSON.parse]

    The entry form sends its metadata as [JSON.stringify(productData)] and
    the controller reads it back with [JSON.parse(req.body.productData)].
    Both are built-ins; this file states what the rest of the development
    relies on as an interface ([JsonCodec]): parsing the text of a record
    of plain values gives the record back.  A plain value is what the form
    puts in its metadata: [null], a boolean, an integer, a string, or an
    array of plain values; [undefined] and nested objects are not plain.

    The instance [js_json] writes and reads JSON text as the built-ins do
    ([print_value] escapes strings as [JSON.stringify], leaves out
    properties holding [undefined] and writes [undefined] in an array as
    [null]; [parse_value] accepts white space between tokens, the escapes
    of JSON strings, and keeps the last value of a repeated property), with
    the law proved by induction on the value.  Properties are written in
    the order of the map's keys; integers only.  The parser is bounded by
    fuel; the section [fuel] proves the bound [js_parse] uses is enough for
    every input. *)

From S2P Require Import Prelude JsValue.
From Stdlib Require Import Ascii DecimalN.

Fixpoint json_plain (v : jval) : bool :=
  match v with
  | JUndefined | JObj _ => false
  | JArr vs => forallb json_plain vs
  | _ => true
  end.

(** An object whose properties all hold plain values. *)
Definition json_record (o : obj) : Prop := map_Forall (λ _ v, json_plain v = true) o.

#[export] Instance json_record_dec o : Decision (json_record o).
Proof. unfold json_record. apply _. Defined.

Class JsonCodec := {
  json_stringify : jval → string;
  json_parse : string → jres jval;
  json_parse_stringify o : json_record o → json_parse (json_stringify (JObj o)) = Ok (JObj o)
}.

Lemma json_record_insert o k v :
  json_record o → json_plain v = true → json_record (<[k := v]> o).
Proof. intros Ho Hv. by apply map_Forall_insert_2. Qed.

Lemma json_record_empty : json_record ∅.
Proof. apply map_Forall_empty. Qed.

#[export] Hint Resolve json_record_insert json_record_empty : gs.

(** ** [JSON.stringify] *)

Section text.

Definition dquote : ascii := ascii_of_nat 34.
Definition bslash : ascii := ascii_of_nat 92.

  (** A hexadecimal digit, lower case as [JSON.stringify] writes it. *)
Definition hexd (n : nat) : ascii := ascii_of_nat (if n <? 10 then 48 + n else 87 + n).

  (** The escape [JSON.stringify] writes for one character of a string. *)
Definition escape (a : ascii) : list ascii :=
    let n := nat_of_ascii a in
    if n =? 34 then [bslash; dquote]
    else if n =? 92 then [bslash; bslash]
    else if n =? 8 then [bslash; "b"%char]
    else if n =? 12 then [bslash; "f"%char]
    else if n =? 10 then [bslash; "n"%char]
    else if n =? 13 then [bslash; "r"%char]
    else if n =? 9 then [bslash; "t"%char]
    else if n <? 32 then [bslash; "u"%char; "0"%char; "0"%char; hexd (n / 16); hexd (n mod 16)]
    else [a].

Definition quote (s : string) : list ascii :=
    dquote :: flat_map escape (String.list_ascii_of_string s) ++ [dquote].

Fixpoint print_uint (d : Decimal.uint) : list ascii :=
    match d with
    | Decimal.Nil => []
    | Decimal.D0 d => "0"%char :: print_uint d | Decimal.D1 d => "1"%char :: print_uint d
    | Decimal.D2 d => "2"%char :: print_uint d | Decimal.D3 d => "3"%char :: print_uint d
    | Decimal.D4 d => "4"%char :: print_uint d | Decimal.D5 d => "5"%char :: print_uint d
    | Decimal.D6 d => "6"%char :: print_uint d | Decimal.D7 d => "7"%char :: print_uint d
    | Decimal.D8 d => "8"%char :: print_uint d | Decimal.D9 d => "9"%char :: print_uint d
    end.

Definition print_int (z : Z) : list ascii :=
    (if bool_decide (z < 0)%Z then ["-"%char] else []) ++ print_uint (N.to_uint (Z.abs_N z)).

Fixpoint join (ls : list (list ascii)) : list ascii :=
    match ls with
    | [] => []
    | [l] => l
    | l :: ls' => l ++ ","%char :: join ls'
    end.

  (** [JSON.stringify(v)]: [undefined] in an array is written [null], a
      property holding [undefined] is left out; the properties come in the
      order of the map's keys. *)
Fixpoint print_value (v : jval) : list ascii :=
    match v with
    | JUndefined | JNull => ["n"%char; "u"%char; "l"%char; "l"%char]
    | JBool true => ["t"%char; "r"%char; "u"%char; "e"%char]
    | JBool false => ["f"%char; "a"%char; "l"%char; "s"%char; "e"%char]
    | JNum z => print_int z
    | JStr s => quote s
    | JArr vs => "["%char :: join (print_value <$> vs) ++ ["]"%char]
    | JObj fs =>
        "{"%char :: join ((λ kv, quote kv.1 ++ ":"%char :: kv.2) <$>
                      map_to_list (omap (λ v, match v with
                                              | JUndefined => None
                                              | _ => Some (print_value v)
                                              end) fs)) ++ ["}"%char]
    end.

Definition js_stringify (v : jval) : string := String.string_of_list_ascii (print_value v).

(** ** [JSON.parse] *)

Definition is_ws (a : ascii) : bool :=
    let n := nat_of_ascii a in (n =? 32) || (n =? 9) || (n =? 10) || (n =? 13).

Fixpoint skip_ws (s : list ascii) : list ascii :=
    match s with
    | a :: r => if is_ws a then skip_ws r else s
    | [] => []
    end.

Definition digit_of (a : ascii) : option nat :=
    let n := nat_of_ascii a in if (48 <=? n) && (n <=? 57) then Some (n - 48) else None.

Definition cons_digit (k : nat) (d : Decimal.uint) : Decimal.uint :=
    match k with
    | 0 => Decimal.D0 d | 1 => Decimal.D1 d | 2 => Decimal.D2 d | 3 => Decimal.D3 d
    | 4 => Decimal.D4 d | 5 => Decimal.D5 d | 6 => Decimal.D6 d | 7 => Decimal.D7 d
    | 8 => Decimal.D8 d | _ => Decimal.D9 d
    end.

  (** The longest run of decimal digits. *)
Fixpoint read_uint (s : list ascii) : Decimal.uint * list ascii :=
    match s with
    | a :: r =>
        match digit_of a with
        | Some k => let '(d, r') := read_uint r in (cons_digit k d, r')
        | None => (Decimal.Nil, s)
        end
    | [] => (Decimal.Nil, [])
    end.

#[export] Instance uint_eq_dec : EqDecision Decimal.uint.
Proof. solve_decision. Defined.

  (** An integer: an optional minus sign and digits without a leading
      zero.  A fraction or an exponent is left unread, so the enclosing
      value fails to parse. *)
Definition parse_number (s : list ascii) : option (jval * list ascii) :=
    let '(neg, s1) := match s with
                      | a :: r => if Ascii.eqb a "-"%char then (true, r) else (false, s)
                      | [] => (false, s)
                      end in
    let '(d, r) := read_uint s1 in
    if decide (d = Decimal.Nil) then None
    else if decide (Decimal.unorm d = d)
    then Some (JNum (if neg then (- Z.of_N (N.of_uint d))%Z else Z.of_N (N.of_uint d)), r)
    else None.

Definition hex_val (a : ascii) : option nat :=
    let n := nat_of_ascii a in
    if (48 <=? n) && (n <=? 57) then Some (n - 48)
    else if (97 <=? n) && (n <=? 102) then Some (n - 87)
    else if (65 <=? n) && (n <=? 70) then Some (n - 55)
    else None.

  (** [\uXXXX]; a code unit above 255 is not an ASCII character. *)
Definition hex4 (h1 h2 h3 h4 : ascii) : option ascii :=
    match hex_val h1, hex_val h2, hex_val h3, hex_val h4 with
    | Some a, Some b, Some c, Some d =>
        let n := ((a * 16 + b) * 16 + c) * 16 + d in
        if n <? 256 then Some (ascii_of_nat n) else None
    | _, _, _, _ => None
    end.

Definition simple_escape (e : ascii) : option ascii :=
    let n := nat_of_ascii e in
    if n =? 34 then Some dquote else if n =? 92 then Some bslash
    else if n =? 47 then Some "/"%char else if n =? 98 then Some (ascii_of_nat 8)
    else if n =? 102 then Some (ascii_of_nat 12) else if n =? 110 then Some (ascii_of_nat 10)
    else if n =? 114 then Some (ascii_of_nat 13) else if n =? 116 then Some (ascii_of_nat 9)
    else None.

  (** The characters of a string literal after its opening quote, up to
      and without its closing quote; a raw control character is an error. *)
Fixpoint read_chars (s : list ascii) : option (list ascii * list ascii) :=
    match s with
    | [] => None
    | a :: r =>
        if nat_of_ascii a =? 34 then Some ([], r)
        else if nat_of_ascii a =? 92 then
          match r with
          | e :: r' =>
              if Ascii.eqb e "u"%char then
                match r' with
                | h1 :: h2 :: h3 :: h4 :: r'' =>
                    c ← hex4 h1 h2 h3 h4; '(cs, rest) ← read_chars r''; Some (c :: cs, rest)
                | _ => None
                end
              else c ← simple_escape e; '(cs, rest) ← read_chars r'; Some (c :: cs, rest)
          | [] => None
          end
        else if nat_of_ascii a <? 32 then None
        else '(cs, rest) ← read_chars r; Some (a :: cs, rest)
    end.

  (** The literal [p] at the start of [s], and what follows it. *)
Fixpoint strip_prefix (p s : list ascii) : option (list ascii) :=
    match p, s with
    | [], _ => Some s
    | a :: p', b :: s' => if Ascii.eqb a b then strip_prefix p' s' else None
    | _ :: _, [] => None
    end.

  (** The punctuation [c], after white space, and what follows it. *)
Definition next_is (c : ascii) (s : list ascii) : option (list ascii) :=
    match skip_ws s with
    | b :: r => if Ascii.eqb b c then Some r else None
    | [] => None
    end.

  (** A value, the elements of an array after its first, and the members
      of an object after its brace; [n] bounds the steps.  A property given
      twice keeps its last value. *)
Fixpoint parse_value (n : nat) (s : list ascii) : option (jval * list ascii) :=
    match n with
    | O => None
    | S n' =>
        match skip_ws s with
        | [] => None
        | a :: r =>
            if Ascii.eqb a "n"%char then
              r' ← strip_prefix ["u"; "l"; "l"]%char r; Some (JNull, r')
            else if Ascii.eqb a "t"%char then
              r' ← strip_prefix ["r"; "u"; "e"]%char r; Some (JBool true, r')
            else if Ascii.eqb a "f"%char then
              r' ← strip_prefix ["a"; "l"; "s"; "e"]%char r; Some (JBool false, r')
            else if Ascii.eqb a "["%char then
              match skip_ws r with
              | b :: r' => if Ascii.eqb b "]"%char then Some (JArr [], r') else parse_items n' [] r
              | [] => None
              end
            else if Ascii.eqb a "{"%char then
              match skip_ws r with
              | b :: r' => if Ascii.eqb b "}"%char then Some (JObj ∅, r') else parse_members n' [] r
              | [] => None
              end
            else if Ascii.eqb a dquote then
              '(cs, r') ← read_chars r; Some (JStr (String.string_of_list_ascii cs), r')
            else parse_number (a :: r)
        end
    end
with parse_items (n : nat) (acc : list jval) (s : list ascii) : option (jval * list ascii) :=
    match n with
    | O => None
    | S n' =>
        match parse_value n' s with
        | Some (v, r) =>
            match next_is ","%char r with
            | Some r' => parse_items n' (acc ++ [v]) r'
            | None => r' ← next_is "]"%char r; Some (JArr (acc ++ [v]), r')
            end
        | None => None
        end
    end
with parse_members (n : nat) (acc : list (string * jval)) (s : list ascii)
    : option (jval * list ascii) :=
    match n with
    | O => None
    | S n' =>
        match skip_ws s with
        | a :: r =>
            if nat_of_ascii a =? 34 then
              match read_chars r with
              | Some (k, r1) =>
                  match next_is ":"%char r1 with
                  | Some r2 =>
                      match parse_value n' r2 with
                      | Some (v, r3) =>
                          let acc' := acc ++ [(String.string_of_list_ascii k, v)] in
                          match next_is ","%char r3 with
                          | Some r4 => parse_members n' acc' r4
                          | None => r4 ← next_is "}"%char r3; Some (JObj (list_to_map (reverse acc')), r4)
                          end
                      | None => None
                      end
                  | None => None
                  end
              | None => None
              end
            else None
        | [] => None
        end
    end.

  (** [JSON.parse(s)]: one value and nothing but white space after it,
      read within [n] steps. *)
Definition js_parse_fuel (n : nat) (s : string) : jres jval :=
    let l := String.list_ascii_of_string s in
    match parse_value n l with
    | Some (v, r) => if decide (skip_ws r = []) then Ok v
                     else Err (SyntaxError "Unexpected non-whitespace character after JSON")
    | None => Err (SyntaxError "Unexpected token in JSON")
    end.

  (** [JSON.parse(s)], with twice the length of the text plus one steps. *)
Definition js_parse (s : string) : jres jval :=
    js_parse_fuel (S (2 * length (String.list_ascii_of_string s))) s.
End text.

(** ** The round trip of the text *)

Section roundtrip.

  (** What may follow a value inside a text [JSON.stringify] wrote: the
      end, a comma, or a closing bracket or brace. *)
Definition delim (rest : list ascii) : Prop :=
    match rest with
    | [] => True
    | a :: _ => a = ","%char ∨ a = "]"%char ∨ a = "}"%char
    end.

Lemma delim_digit rest : delim rest → match rest with a :: _ => digit_of a = None | [] => True end.
  Proof. destruct rest as [|a r]; [done|]. by intros [->|[->| ->]]. Qed.

Lemma read_uint_print d rest :
    match rest with a :: _ => digit_of a = None | [] => True end →
    read_uint (print_uint d ++ rest) = (d, rest).
  Proof.
    intros Hr. induction d; simpl; rewrite ?IHd; try done.
    destruct rest as [|a r]; simpl; [done|]. by rewrite Hr.
  Qed.

Lemma print_uint_digits d : Forall (λ a, digit_of a ≠ None) (print_uint d).
  Proof. induction d; simpl; constructor; done. Qed.

Lemma to_uint_not_nil n : N.to_uint n ≠ Decimal.Nil.
  Proof. intros E. pose proof (DecimalN.Unsigned.of_to n) as Hn. rewrite E in Hn. simpl in Hn. subst. done. Qed.

Lemma unorm_to_uint n : Decimal.unorm (N.to_uint n) = N.to_uint n.
  Proof. by rewrite <- DecimalN.Unsigned.to_of, DecimalN.Unsigned.of_to. Qed.

Lemma parse_number_print z rest : delim rest → parse_number (print_int z ++ rest) = Some (JNum z, rest).
  Proof.
    intros Hr%delim_digit. unfold parse_number, print_int.
    pose proof (to_uint_not_nil (Z.abs_N z)) as Hnil.
    pose proof (print_uint_digits (N.to_uint (Z.abs_N z))) as Hd.
    pose proof (read_uint_print (N.to_uint (Z.abs_N z)) rest Hr) as Hread.
    assert (Hz : Z.of_N (Z.abs_N z) = Z.abs z) by lia.
    destruct (print_uint (N.to_uint (Z.abs_N z))) as [|a l] eqn:Ep.
    { destruct (N.to_uint (Z.abs_N z)); done. }
    cbn [app] in Hread. case_bool_decide; rewrite <- app_assoc; cbn [app].
    - rewrite Ascii.eqb_refl. lazy beta iota zeta. rewrite Hread. lazy beta iota zeta.
      rewrite decide_False by done. rewrite decide_True by apply unorm_to_uint.
      rewrite DecimalN.Unsigned.of_to, Hz. do 3 f_equal. lia.
    - assert (Ascii.eqb a "-"%char = false) as ->.
      { apply Ascii.eqb_neq. intros ->. apply Forall_cons_1 in Hd as [Hd _]. done. }
      lazy beta iota zeta. rewrite Hread. lazy beta iota zeta.
      rewrite decide_False by done. rewrite decide_True by apply unorm_to_uint.
      rewrite DecimalN.Unsigned.of_to, Hz. do 3 f_equal. lia.
  Qed.

Lemma hex_val_hexd k : k < 16 → hex_val (hexd k) = Some k.
  Proof. intros Hk. do 16 (destruct k as [|k]; [reflexivity|]). lia. Qed.

Lemma ascii_of_code a n : nat_of_ascii a = n → a = ascii_of_nat n.
  Proof. intros <-. by rewrite ascii_nat_embedding. Qed.

Lemma read_chars_unicode h1 h2 h3 h4 r :
    read_chars (bslash :: "u"%char :: h1 :: h2 :: h3 :: h4 :: r) =
      c ← hex4 h1 h2 h3 h4; '(cs, rest) ← read_chars r; Some (c :: cs, rest).
  Proof. reflexivity. Qed.

  (** Reading back the escape of one character. *)
Lemma read_chars_escape a t :
    read_chars (escape a ++ t) = '(cs, r) ← read_chars t; Some (a :: cs, r).
  Proof.
    unfold escape. pose proof (nat_ascii_bounded a) as Hb.
    destruct (Nat.eqb_spec (nat_of_ascii a) 34) as [E|];
      [rewrite (ascii_of_code _ _ E); reflexivity|].
    destruct (Nat.eqb_spec (nat_of_ascii a) 92) as [E|];
      [rewrite (ascii_of_code _ _ E); reflexivity|].
    destruct (Nat.eqb_spec (nat_of_ascii a) 8) as [E|];
      [rewrite (ascii_of_code _ _ E); reflexivity|].
    destruct (Nat.eqb_spec (nat_of_ascii a) 12) as [E|];
      [rewrite (ascii_of_code _ _ E); reflexivity|].
    destruct (Nat.eqb_spec (nat_of_ascii a) 10) as [E|];
      [rewrite (ascii_of_code _ _ E); reflexivity|].
    destruct (Nat.eqb_spec (nat_of_ascii a) 13) as [E|];
      [rewrite (ascii_of_code _ _ E); reflexivity|].
    destruct (Nat.eqb_spec (nat_of_ascii a) 9) as [E|];
      [rewrite (ascii_of_code _ _ E); reflexivity|].
    destruct (Nat.ltb_spec (nat_of_ascii a) 32) as [Hlt|Hge].
    - cbn [app]. rewrite read_chars_unicode. unfold hex4.
      rewrite !hex_val_hexd
        by first [apply Nat.mod_upper_bound; lia | apply Nat.Div0.div_lt_upper_bound; lia].
      pose proof (Nat.div_mod_eq (nat_of_ascii a) 16).
      change (hex_val "0"%char) with (Some 0). lazy beta iota zeta.
      replace (((0 * 16 + 0) * 16 + nat_of_ascii a / 16) * 16 + nat_of_ascii a mod 16)
        with (nat_of_ascii a) by lia.
      rewrite (proj2 (Nat.ltb_lt _ 256)) by lia. by rewrite ascii_nat_embedding.
    - cbn [app read_chars].
      repeat match goal with H : ?n ≠ ?m |- context [?n =? ?m] => rewrite (proj2 (Nat.eqb_neq n m) H) end.
      rewrite (proj2 (Nat.ltb_ge _ _) Hge). done.
  Qed.

Lemma read_chars_quote l rest :
    read_chars (flat_map escape l ++ dquote :: rest) = Some (l, rest).
  Proof.
    induction l as [|a l IH]; [reflexivity|].
    simpl flat_map. rewrite <- app_assoc, read_chars_escape, IH. reflexivity.
  Qed.

  (** The first character of a value's text opens the value: it is not
      white space and does not close an array or an object. *)
Definition opens (a : ascii) : Prop :=
    is_ws a = false ∧ Ascii.eqb a "]"%char = false ∧ Ascii.eqb a "}"%char = false.

Lemma digit_opens a : digit_of a ≠ None →
    opens a ∧ Ascii.eqb a "n"%char = false ∧ Ascii.eqb a "t"%char = false ∧
    Ascii.eqb a "f"%char = false ∧ Ascii.eqb a "["%char = false ∧ Ascii.eqb a "{"%char = false ∧
    Ascii.eqb a dquote = false ∧ Ascii.eqb a "-"%char = false.
  Proof.
    unfold digit_of, opens, is_ws. intros Hd.
    destruct (48 <=? nat_of_ascii a) eqn:H1, (nat_of_ascii a <=? 57) eqn:H2; try done.
    apply Nat.leb_le in H1, H2.
    assert (∀ c, nat_of_ascii c < 48 ∨ 57 < nat_of_ascii c → Ascii.eqb a c = false) as Hne.
    { intros c Hc. apply Ascii.eqb_neq. intros ->. lia. }
    repeat split; try (apply Hne; vm_compute; lia).
    repeat (apply orb_false_intro); apply Nat.eqb_neq; lia.
  Qed.

Lemma print_int_head z : ∃ a l, print_int z = a :: l ∧ (a = "-"%char ∨ digit_of a ≠ None).
  Proof.
    unfold print_int. pose proof (to_uint_not_nil (Z.abs_N z)) as Hnil.
    pose proof (print_uint_digits (N.to_uint (Z.abs_N z))) as Hd.
    case_bool_decide; [by eexists _, _; split; [reflexivity|left]|].
    destruct (print_uint (N.to_uint (Z.abs_N z))) as [|a l] eqn:Ep.
    - by destruct (N.to_uint (Z.abs_N z)).
    - exists a, l. split; [done|]. right. by apply Forall_cons_1 in Hd as [? _].
  Qed.

Lemma skip_ws_opens a r : is_ws a = false → skip_ws (a :: r) = a :: r.
  Proof. intros H. simpl. by rewrite H. Qed.

Lemma parse_value_number n z rest :
    delim rest → parse_value (S n) (print_int z ++ rest) = Some (JNum z, rest).
  Proof.
    intros Hr. rewrite <- (parse_number_print z rest Hr).
    destruct (print_int_head z) as (a & l & Ep & [->|Ha]); rewrite Ep; [reflexivity|].
    destruct (digit_opens a Ha) as ([Hws _] & Hn & Ht & Hf & Hb & Hc & Hq & _).
    simpl. rewrite Hws. simpl. by rewrite Hn, Ht, Hf, Hb, Hc, Hq.
  Qed.

Lemma print_value_head v : json_plain v = true → ∃ a l, print_value v = a :: l ∧ opens a.
  Proof.
    destruct v as [| |[]|z|s|vs|fs]; simpl; try done; try (intros _; by eexists _, _).
    intros _. destruct (print_int_head z) as (a & l & -> & [->|Ha]); [by eexists _, _|].
    exists a, l. split; [done|]. apply (digit_opens a Ha).
  Qed.

Lemma join_head vs : json_plain <$> vs ≠ [] → Forall (λ v, json_plain v = true) vs →
    ∃ a l, join (print_value <$> vs) = a :: l ∧ opens a.
  Proof.
    destruct vs as [|v [|v' vs]]; [done| |]; intros _ Hp; apply Forall_cons_1 in Hp as [Hv _];
      destruct (print_value_head v Hv) as (a & l & Ep & Ha); simpl; rewrite Ep;
      by eexists _, _.
  Qed.

Lemma next_is_here c r : is_ws c = false → next_is c (c :: r) = Some r.
  Proof. intros Hc. unfold next_is. rewrite skip_ws_opens by done. by rewrite Ascii.eqb_refl. Qed.

Lemma join_fmap_cons2 {A} (f : A → list ascii) x y l :
    join (f <$> x :: y :: l) = f x ++ ","%char :: join (f <$> y :: l).
  Proof. reflexivity. Qed.

  (** The elements of an array after its bracket, given that each element
      reads back. *)
Lemma parse_items_print vs n acc rest :
    Forall (λ v, ∀ n rest, length (print_value v) < n → delim rest →
                  parse_value n (print_value v ++ rest) = Some (v, rest)) vs →
    vs ≠ [] → S (length (join (print_value <$> vs))) < n →
    parse_items n acc (join (print_value <$> vs) ++ "]"%char :: rest) = Some (JArr (acc ++ vs), rest).
  Proof.
    revert n acc. induction vs as [|v vs IHvs]; intros n acc Hall Hne Hn; [done|].
    apply Forall_cons in Hall as [Hv Hall]. destruct n as [|n]; [lia|].
    destruct vs as [|v' vs].
    - simpl in *. rewrite Hv by first [lia | simpl; auto]. simpl. done.
    - rewrite join_fmap_cons2 in Hn |- *. rewrite app_length in Hn. cbn [length] in Hn.
      rewrite <- app_assoc. cbn [app parse_items]. rewrite Hv by first [lia | simpl; auto].
      rewrite next_is_here by reflexivity.
      rewrite IHvs by first [done | lia]. by rewrite <- app_assoc.
  Qed.

Lemma parse_value_string n str rest :
    parse_value (S n) (quote str ++ rest) = Some (JStr str, rest).
  Proof.
    unfold quote. rewrite <- app_comm_cons, <- app_assoc. simpl app at 2.
    cbn [parse_value]. rewrite skip_ws_opens by reflexivity. lazy beta iota.
    change (Ascii.eqb dquote dquote) with true. lazy beta iota.
    rewrite read_chars_quote. simpl. by rewrite String.string_of_list_ascii_of_string.
  Qed.

  (** Every plain value reads back from its text, whatever follows it. *)
Lemma parse_print_value v :
    json_plain v = true → ∀ n rest, length (print_value v) < n → delim rest →
    parse_value n (print_value v ++ rest) = Some (v, rest).
  Proof.
    revert v. fix IH 1. intros v Hv n rest Hn Hr. destruct n as [|n]; [lia|].
    destruct v as [| |[]|z|str|vs|fs]; simpl in Hv; try done.
    - by apply parse_value_number.
    - by apply parse_value_string.
    - assert (Hall : Forall (λ v, ∀ n rest, length (print_value v) < n → delim rest →
                        parse_value n (print_value v ++ rest) = Some (v, rest)) vs).
      { clear Hn Hr. induction vs as [|v vs IHvs]; constructor; simpl in Hv;
          apply andb_prop in Hv as [Hv1 Hv2]; [by apply IH|by apply IHvs]. }
      destruct vs as [|v0 vs']; [reflexivity|].
      destruct (print_value_head v0) as (a & l & Ea & Hws & Hb & _);
        [by apply andb_prop in Hv as [? _]|].
      assert (Hj : ∃ l', join (print_value <$> v0 :: vs') = a :: l').
      { destruct vs' as [|v1 vs'']; [by exists l; simpl; rewrite Ea|].
        rewrite join_fmap_cons2, Ea. by eexists. }
      destruct Hj as [l' Hj]. cbn [print_value length] in Hn. rewrite app_length in Hn.
      cbn [length] in Hn.
      cbn [print_value]. rewrite <- app_comm_cons, <- app_assoc. cbn [parse_value].
      rewrite skip_ws_opens by reflexivity. lazy beta iota.
      change (Ascii.eqb "["%char "n"%char) with false. change (Ascii.eqb "["%char "t"%char) with false.
      change (Ascii.eqb "["%char "f"%char) with false. change (Ascii.eqb "["%char "["%char) with true.
      lazy beta iota. rewrite Hj at 1. rewrite <- app_comm_cons, skip_ws_opens by done.
      lazy beta iota. rewrite Hb. change (["]"%char] ++ rest) with ("]"%char :: rest).
      rewrite parse_items_print; [done|done|done|]. lia.
  Qed.

  (** The text of one property. *)
Definition member (kv : string * jval) : list ascii := quote kv.1 ++ ":"%char :: print_value kv.2.

Lemma join_member_head kvs : kvs ≠ [] → ∃ l, join (member <$> kvs) = dquote :: l.
  Proof.
    destruct kvs as [|[k v] [|kv kvs]]; [done| |]; intros _; unfold member; simpl; by eexists.
  Qed.

Lemma member_text k v tail :
    member (k, v) ++ tail =
      dquote :: flat_map escape (String.list_ascii_of_string k) ++
        dquote :: ":"%char :: print_value v ++ tail.
  Proof. unfold member, quote. simpl. by rewrite <- !app_assoc. Qed.

  (** One property, then what follows it. *)
Lemma parse_members_step k v tail n acc :
    json_plain v = true → length (print_value v) < n → delim tail →
    parse_members (S n) acc (member (k, v) ++ tail) =
      match next_is ","%char tail with
      | Some r4 => parse_members n (acc ++ [(k, v)]) r4
      | None => r4 ← next_is "}"%char tail; Some (JObj (list_to_map (reverse (acc ++ [(k, v)]))), r4)
      end.
  Proof.
    intros Hv Hn Ht. rewrite member_text. cbn [parse_members].
    rewrite skip_ws_opens by reflexivity. lazy beta iota.
    change (nat_of_ascii dquote =? 34) with true. lazy beta iota.
    rewrite read_chars_quote. lazy beta iota. rewrite next_is_here by reflexivity. lazy beta iota.
    rewrite parse_print_value by done. lazy beta iota zeta.
    by rewrite String.string_of_list_ascii_of_string.
  Qed.

  (** The members of an object after its brace. *)
Lemma parse_members_print kvs n acc rest :
    Forall (λ kv, json_plain kv.2 = true) kvs → kvs ≠ [] →
    S (length (join (member <$> kvs))) < n →
    parse_members n acc (join (member <$> kvs) ++ "}"%char :: rest) =
      Some (JObj (list_to_map (reverse (acc ++ kvs))), rest).
  Proof.
    revert n acc. induction kvs as [|[k v] kvs IHkvs]; intros n acc Hall Hne Hn; [done|].
    apply Forall_cons in Hall as [Hv Hall]. simpl in Hv. destruct n as [|n]; [lia|].
    destruct kvs as [|kv kvs].
    - cbn [fmap list_fmap join] in Hn |- *. unfold member in Hn. rewrite app_length in Hn.
      cbn [length fst snd] in Hn. rewrite parse_members_step by first [lia | simpl; auto]. reflexivity.
    - rewrite join_fmap_cons2 in Hn |- *. rewrite !app_length in Hn. cbn [length] in Hn.
      unfold member in Hn at 1. rewrite app_length in Hn. cbn [length fst snd] in Hn.
      rewrite <- app_assoc, <- app_comm_cons, parse_members_step by first [lia | simpl; auto].
      rewrite next_is_here by reflexivity.
      rewrite IHkvs by first [done | lia]. by rewrite <- app_assoc.
  Qed.

  (** In a record no property is left out. *)
Lemma omap_print_record o :
    json_record o →
    omap (λ v, match v with JUndefined => None | _ => Some (print_value v) end) o =
      print_value <$> o.
  Proof.
    intros Ho. apply map_eq. intros k. rewrite lookup_omap, lookup_fmap.
    destruct (o !! k) as [v|] eqn:E; [|done]. simpl.
    apply Ho in E. by destruct v.
  Qed.

Lemma record_text o :
    json_record o →
    print_value (JObj o) = "{"%char :: join (member <$> map_to_list o) ++ ["}"%char].
  Proof.
    intros Ho. cbn [print_value]. rewrite omap_print_record, map_to_list_fmap by done.
    by rewrite <- list_fmap_compose.
  Qed.

Lemma parse_print_record o n rest :
    json_record o → length (print_value (JObj o)) < n → delim rest →
    parse_value n (print_value (JObj o) ++ rest) = Some (JObj o, rest).
  Proof.
    intros Ho Hn Hr. rewrite record_text in Hn |- * by done. destruct n as [|n]; [lia|].
    cbn [length] in Hn. rewrite app_length in Hn. cbn [length] in Hn.
    rewrite <- app_comm_cons, <- app_assoc. cbn [parse_value].
    rewrite skip_ws_opens by reflexivity. lazy beta iota.
    change (Ascii.eqb "{"%char "n"%char) with false. change (Ascii.eqb "{"%char "t"%char) with false.
    change (Ascii.eqb "{"%char "f"%char) with false. change (Ascii.eqb "{"%char "["%char) with false.
    change (Ascii.eqb "{"%char "{"%char) with true. lazy beta iota.
    destruct (map_to_list o) as [|kv kvs] eqn:El.
    - apply map_to_list_empty_iff in El as ->. reflexivity.
    - destruct (join_member_head (kv :: kvs)) as [l Hl]; [done|]. rewrite Hl at 1.
      rewrite <- app_comm_cons, skip_ws_opens by reflexivity. lazy beta iota.
      change (Ascii.eqb dquote "}"%char) with false. lazy beta iota.
      change (["}"%char] ++ rest) with ("}"%char :: rest).
      rewrite parse_members_print; [|rewrite <- El; apply Forall_forall; intros [k v] Hkv;
                                      apply elem_of_map_to_list in Hkv; exact (Ho k v Hkv)|done|lia].
      do 2 f_equal. rewrite <- El. simpl.
      rewrite (list_to_map_proper (reverse (map_to_list o)) (map_to_list o)).
      + f_equal. apply list_to_map_to_list.
      + rewrite reverse_Permutation. apply NoDup_fst_map_to_list.
      + apply reverse_Permutation.
  Qed.

  (** [JSON.parse(JSON.stringify(o))] gives back a record of plain values. *)
Lemma js_parse_stringify_record o : json_record o → js_parse (js_stringify (JObj o)) = Ok (JObj o).
  Proof.
    intros Ho. unfold js_parse, js_parse_fuel, js_stringify. rewrite String.list_ascii_of_string_of_list_ascii.
    pose proof (parse_print_record o (S (2 * length (print_value (JObj o)))) [] Ho ltac:(lia) I) as Hp.
    rewrite app_nil_r in Hp. cbv zeta. by rewrite Hp.
  Qed.
End roundtrip.

(** ** The parser's fuel

    Every call of the parser reads at least one character before it calls
    itself on the rest, and [parse_items] calls [parse_value] on its own
    input once; so a value of [l] characters needs at most [2 * l + 1]
    steps, the fuel [js_parse] gives. *)

Section fuel.

Lemma skip_ws_length s : length (skip_ws s) ≤ length s.
  Proof. induction s as [|a s IH]; simpl; [done|]. case_match; simpl; lia. Qed.

Lemma skip_ws_cons s a r : skip_ws s = a :: r → length r < length s.
  Proof. intros H. pose proof (skip_ws_length s) as L. rewrite H in L. simpl in L. lia. Qed.

Lemma strip_prefix_length p s r : strip_prefix p s = Some r → length r ≤ length s.
  Proof.
    revert s. induction p as [|a p IH]; intros [|b s] H; simpl in H; simplify_eq/=; try lia.
    case_match; [|done]. apply IH in H. lia.
  Qed.

Lemma next_is_length c s r : next_is c s = Some r → length r < length s.
  Proof.
    unfold next_is. destruct (skip_ws s) eqn:E; [done|].
    case_match; intros; simplify_eq. by eapply skip_ws_cons.
  Qed.

Lemma read_chars_length s cs r : read_chars s = Some (cs, r) → length r < length s.
  Proof.
    remember (length s) as n eqn:En. assert (length s ≤ n) as Hn by lia. clear En.
    revert s cs r Hn. induction n as [|n IH]; intros [|a s] cs r Hn; simpl; try done.
    - simpl in Hn. lia.
    - unfold mbind, option_bind. repeat case_match; intros; simplify_eq/=; try lia;
        match goal with H : read_chars _ = Some _ |- _ => apply IH in H end; simpl in *; lia.
  Qed.

Lemma read_uint_length s :
    length (read_uint s).2 ≤ length s ∧ ((read_uint s).1 ≠ Decimal.Nil → length (read_uint s).2 < length s).
  Proof.
    induction s as [|a s IH]; simpl; [split; [lia|done]|]. destruct (digit_of a); simpl; [|split; [lia|done]].
    destruct (read_uint s) as [d r]. simpl in *. split; [lia|intros _; lia].
  Qed.

Lemma parse_number_length s v r : parse_number s = Some (v, r) → length r < length s.
  Proof.
    unfold parse_number. repeat case_match; intros; simplify_eq;
      match goal with E : read_uint ?x = _ |- _ => pose proof (read_uint_length x) as L; rewrite E in L end;
      simpl in *; destruct L as [L1 L2]; try specialize (L2 ltac:(done)); lia.
  Qed.

(** The rest a parse leaves is shorter than its input. *)
Definition consumes (o : option (jval * list ascii)) (s : list ascii) : Prop :=
  ∀ v r, o = Some (v, r) → length r < length s.

Ltac lengths_of IHv IHi IHm :=
  repeat match goal with
  | H : skip_ws _ = _ :: _ |- _ => apply skip_ws_cons in H
  | H : strip_prefix _ _ = Some _ |- _ => apply strip_prefix_length in H
  | H : next_is _ _ = Some _ |- _ => apply next_is_length in H
  | H : read_chars _ = Some _ |- _ => apply read_chars_length in H
  | H : parse_number _ = Some _ |- _ => apply parse_number_length in H
  | H : parse_value _ _ = Some _ |- _ => apply IHv in H
  | H : parse_items _ _ _ = Some _ |- _ => apply IHi in H
  | H : parse_members _ _ _ = Some _ |- _ => apply IHm in H
  end; cbn [length] in *; lia.

Lemma parse_consumes n :
    (∀ s, consumes (parse_value n s) s) ∧ (∀ acc s, consumes (parse_items n acc s) s) ∧
    (∀ acc s, consumes (parse_members n acc s) s).
  Proof.
    unfold consumes. induction n as [|n (IHv & IHi & IHm)]; [done|].
    split_and!; intros ??; cbn [parse_value parse_items parse_members]; unfold mbind, option_bind;
      repeat case_match; intros; simplify_eq; lengths_of IHv IHi IHm.
  Qed.

Lemma parse_value_shorter n s v r : parse_value n s = Some (v, r) → length r < length s.
  Proof. apply parse_consumes. Qed.

(** One more step of fuel than the input's bound changes nothing. *)
Lemma parse_fuel_step n :
    (∀ s, 2 * length s < n → parse_value (S n) s = parse_value n s) ∧
    (∀ acc s, 2 * length s + 1 < n → parse_items (S n) acc s = parse_items n acc s) ∧
    (∀ acc s, 2 * length s + 1 < n → parse_members (S n) acc s = parse_members n acc s).
  Proof.
    induction n as [|n (IHv & IHi & IHm)]; [split_and!; intros; lia|].
    split_and!; intros.
    - cbn [parse_value]. destruct (skip_ws s) as [|a r] eqn:E; [done|].
      apply skip_ws_cons in E. lazy beta iota.
      rewrite (IHi [] r), (IHm [] r) by lia. done.
    - cbn [parse_items]. rewrite IHv by lia. destruct (parse_value n s) as [[v r]|] eqn:E; [|done].
      apply parse_value_shorter in E. destruct (next_is _ r) as [r'|] eqn:E'; [|done].
      apply next_is_length in E'. apply IHi. lia.
    - cbn [parse_members]. destruct (skip_ws s) as [|a r] eqn:E; [done|].
      apply skip_ws_cons in E. lazy beta iota. case_match; [|done]. destruct (read_chars r) as [[k r1]|] eqn:E1; [|done].
      apply read_chars_length in E1. destruct (next_is _ r1) as [r2|] eqn:E2; [|done].
      apply next_is_length in E2. rewrite IHv by lia.
      destruct (parse_value n r2) as [[v r3]|] eqn:E3; [|done]. apply parse_value_shorter in E3.
      destruct (next_is _ r3) as [r4|] eqn:E4; [|done]. apply next_is_length in E4. apply IHm. lia.
  Qed.
End fuel.

(** [JSON.parse] terminates within the steps [js_parse] gives it: for
    every input [l], [parse_value] with [2 * length l + 1] steps gives the
    answer it gives with any more. *)
Lemma parse_value_fuel_enough l k :
  parse_value (S (2 * length l) + k) l = parse_value (S (2 * length l)) l.
Proof.
  induction k as [|k IHk]; [by rewrite Nat.add_0_r|].
  rewrite Nat.add_succ_r, (proj1 (parse_fuel_step _)) by lia. done.
Qed.

Lemma js_parse_fuel_enough s k :
  js_parse_fuel (S (2 * length (String.list_ascii_of_string s)) + k) s = js_parse s.
Proof. unfold js_parse, js_parse_fuel. by rewrite parse_value_fuel_enough. Qed.

#[export] Instance js_json : JsonCodec := {|
  json_stringify := js_stringify;
  json_parse := js_parse;
  json_parse_stringify := js_parse_stringify_record
|}.
