(* ===== verification/Store.v ===== *)
(** * The [Product] collection behind the Mongoose model

    The controller reaches the database only through five calls on the
    model [Product] ([server/models/Product.js], outside [src/]):
    [Product.create(data)], [Product.find({})], [Product.findById(id)],
    [Product.findByIdAndUpdate(id, update, options)] and
    [Product.findByIdAndDelete(id)].  This file models the collection those
    calls act on and each call as a computation of the exception-state
    monad over it, from Mongoose's documented behaviour:

    - a stored document is its body (an [obj]) under its ObjectId; the
      [_id] property is added when a document is returned ([with_id]);
    - [find({})] returns the documents in insertion order, kept in [order];
    - a new identifier comes from a counter taken modulo [2^96]; a
      document whose data carries an [_id] keeps it; inserting an
      identifier that is already stored fails with the duplicate-key error;
    - the schema is an interface, the class [ProductSchema]: the defaults
      [create] adds and the validators that [create] and, with
      [runValidators], [findByIdAndUpdate] run;
    - an update sets the top-level properties it names (Mongoose wraps a
      plain update object in [$set]), never [_id], and drops properties
      whose value is [undefined].

    The invariant [wf_db] and its preservation by every call, the result of
    each call on every branch, and the refinement of an abstract collection
    (a list of identifier/document pairs in insertion order) are proved
    here. *)

From S2P Require Import Prelude JsValue ObjectId.

(** ** The schema, as the model sees it *)

Class ProductSchema := {
  schema_defaults : obj;
  validate_doc : obj → option string;
  validate_update : obj → option string
}.

(** ** The collection *)

Record db := mkDb {
  docs : gmap N obj;
  order : list N;
  next_oid : N
}.

Definition empty_db : db := mkDb ∅ [] 0%N.

Definition with_id (k : N) (d : obj) : obj := <["_id" := JStr (render_oid k)]> d.

Definition strip_undefined (u : obj) : obj :=
  filter (λ kv, is_undefined kv.2 = false) u.

(** The abstract collection: identifier/document pairs in the order
    [find({})] returns them. *)
Definition abs (s : db) : list (N * obj) :=
  omap (λ k, pair k <$> docs s !! k) (order s).

(** Well-formedness: the insertion order lists every stored identifier
    exactly once, and nothing else; every identifier fits in 12 bytes. *)
Definition wf_db (s : db) : Prop :=
  NoDup (order s) ∧ list_to_set (order s) = dom (docs s) ∧
  Forall (λ k, k < oid_bound)%N (order s).

Section model.
  Context `{!ProductSchema}.
  Local Open Scope exn_scope.

Definition check_valid (r : option string) : exn db js_error unit :=
    match r with
    | Some msg => exn_throw (ValidationError msg)
    | None => exn_ret tt
    end.

  (** The identifier of a new document: the one its data carries, cast,
      or the next value of the counter. *)
Definition new_key (data : obj) : exn db js_error N := λ s,
    match data !! "_id" with
    | None | Some JUndefined | Some JNull =>
        (Ok (next_oid s `mod` oid_bound)%N, mkDb (docs s) (order s) (next_oid s + 1)%N)
    | Some (JStr str) =>
        match parse_oid str with
        | Some k => (Ok k, s)
        | None => (Err (ValidationError ("Product validation failed: _id: " ++ message (CastError str))), s)
        end
    | Some v => (Err (ValidationError ("Product validation failed: _id: " ++ message (CastError (to_js_string v)))), s)
    end.

Definition insert_new (k : N) (d : obj) : exn db js_error obj := λ s,
    match docs s !! k with
    | Some _ => (Err (DuplicateKeyError (render_oid k)), s)
    | None => (Ok (with_id k d), mkDb (<[k := d]> (docs s)) (order s ++ [k]) (next_oid s))
    end.

  (** [Product.create(data)] *)
Definition create (data : obj) : exn db js_error obj :=
    k <- new_key data ;;
    let d := delete "_id" (data ∪ schema_defaults) in
    check_valid (validate_doc d) ;;;
    insert_new k d.

  (** [Product.find({})] *)
Definition find_all : exn db js_error (list obj) :=
    exn_gets (λ s, omap (λ k, with_id k <$> docs s !! k) (order s)).

  (** [Product.findById(id)] *)
Definition find_by_id (v : jval) : exn db js_error (option obj) :=
    ko <- exn_lift (cast_oid v) ;;
    exn_gets (λ s, ko ≫= λ k, with_id k <$> docs s !! k).

Definition update_doc (k : N) (u : obj) (return_new : bool) : exn db js_error (option obj) := λ s,
    match docs s !! k with
    | None => (Ok None, s)
    | Some d =>
        (Ok (Some (with_id k (if return_new then u ∪ d else d))),
         mkDb (<[k := u ∪ d]> (docs s)) (order s) (next_oid s))
    end.

  (** [Product.findByIdAndUpdate(id, update, {new, runValidators})]: the
      identifier is cast, the update validators run, then the document is
      found and changed. *)
Definition find_by_id_and_update (v : jval) (upd : obj) (return_new run_validators : bool)
    : exn db js_error (option obj) :=
    ko <- exn_lift (cast_oid v) ;;
    let u := strip_undefined (delete "_id" upd) in
    (if run_validators then check_valid (validate_update u) else exn_ret tt) ;;;
    match ko with
    | None => exn_ret None
    | Some k => update_doc k u return_new
    end.

Definition delete_doc (k : N) : exn db js_error (option obj) := λ s,
    match docs s !! k with
    | None => (Ok None, s)
    | Some d =>
        (Ok (Some (with_id k d)),
         mkDb (delete k (docs s)) (filter (λ k', k' ≠ k) (order s)) (next_oid s))
    end.

  (** [Product.findByIdAndDelete(id)] *)
Definition find_by_id_and_delete (v : jval) : exn db js_error (option obj) :=
    ko <- exn_lift (cast_oid v) ;;
    match ko with
    | None => exn_ret None
    | Some k => delete_doc k
    end.
End model.

(** ** Well-formedness is kept by every call *)

Section wf.
  Context `{!ProductSchema}.

Lemma wf_db_empty : wf_db empty_db.
  Proof. split_and!; [constructor | done | constructor]. Qed.

  (** A call that leaves the stored documents and their order alone. *)
Lemma wf_db_same_docs s s' :
    docs s' = docs s → order s' = order s → wf_db s → wf_db s'.
  Proof. intros Hd Ho. unfold wf_db. by rewrite Hd, Ho. Qed.

(** Replacing a stored document keeps the collection well formed. *)
Lemma wf_db_insert_present s k d d' n :
    docs s !! k = Some d → wf_db s → wf_db (mkDb (<[k := d']> (docs s)) (order s) n).
Proof.
  intros Hk (Hnd & Hset & Hb). unfold wf_db; cbn [docs order]. split_and!; [done| |done].
  rewrite dom_insert_L, <- Hset. apply elem_of_dom_2 in Hk. rewrite <- Hset in Hk. set_solver.
Qed.

Lemma new_key_spec data s r s' :
    new_key data s = (r, s') →
    docs s' = docs s ∧ order s' = order s ∧
    ∀ k, r = Ok k → (k < oid_bound)%N.
  Proof.
    unfold new_key. intros Hk.
    destruct (data !! "_id") as [[| | | |str| |]|]; simplify_eq/=;
      try (split_and!; [done|done|]; intros k [= <-]; apply N.mod_lt; discriminate).
    all: try (split_and!; [done|done|]; by intros k ?).
    destruct (parse_oid str) eqn:Hp; simplify_eq/=;
      split_and!; try done; intros k [= <-]; by eapply parse_oid_fits.
  Qed.

Lemma insert_new_wf k d : (k < oid_bound)%N → exn_keeps wf_db (insert_new k d).
  Proof.
    intros Hk s (Hnd & Hset & Hb). unfold insert_new.
    destruct (docs s !! k) eqn:Hl; unfold wf_db; cbn [fst snd order docs]; [by split_and!|].
    assert (k ∉ order s) as Hnot.
    { intros Hin. apply (elem_of_list_to_set (C:=gset N)) in Hin.
      rewrite Hset, elem_of_dom, Hl in Hin. by destruct Hin. }
    split_and!.
    - apply NoDup_app. split_and!; [done| |by apply NoDup_singleton].
      intros x Hx ->%list_elem_of_singleton. done.
    - rewrite list_to_set_app_L, dom_insert_L, Hset. set_solver.
    - apply Forall_app. by split; [|constructor].
  Qed.

Lemma create_wf data : exn_keeps wf_db (create data).
  Proof.
    intros s Hs. unfold create, exn_bind.
    destruct (new_key data s) as [r s1] eqn:Hk.
    apply new_key_spec in Hk as (Hd & Ho & Hlt).
    assert (wf_db s1) as Hs1 by (by eapply wf_db_same_docs).
    destruct r as [k|e]; simpl; [|done].
    destruct (validate_doc _); simpl; [done|].
    by apply insert_new_wf; [apply Hlt|].
  Qed.

Lemma update_doc_wf k u b : exn_keeps wf_db (update_doc k u b).
  Proof.
    intros s (Hnd & Hset & Hb). unfold update_doc.
    destruct (docs s !! k) eqn:Hl; unfold wf_db; cbn [fst snd order docs]; [|by split_and!].
    split_and!; [done| |done].
    rewrite dom_insert_L, <- Hset.
    assert (k ∈ (list_to_set (order s) : gset N)) by (rewrite Hset, elem_of_dom; eauto).
    set_solver.
  Qed.

Lemma delete_doc_wf k : exn_keeps wf_db (delete_doc k).
  Proof.
    intros s (Hnd & Hset & Hb). unfold delete_doc.
    destruct (docs s !! k) eqn:Hl; unfold wf_db; cbn [fst snd order docs]; [|by split_and!].
    split_and!.
    - by apply NoDup_filter.
    - apply set_eq. intros x.
      rewrite elem_of_list_to_set, list_elem_of_filter, dom_delete_L,
        elem_of_difference, <- Hset, elem_of_list_to_set, elem_of_singleton.
      naive_solver.
    - rewrite Forall_forall in Hb |- *. intros x [_ Hx]%list_elem_of_filter. auto.
  Qed.

Lemma check_valid_wf r : exn_keeps wf_db (check_valid r).
  Proof. destruct r as [msg|]; by intros st. Qed.

Lemma find_all_wf : exn_keeps wf_db find_all.
  Proof. by intros s. Qed.

Lemma find_by_id_wf v : exn_keeps wf_db (find_by_id v).
  Proof. unfold find_by_id. keeps_tac. Qed.

Lemma find_by_id_and_update_wf v u b1 b2 :
    exn_keeps wf_db (find_by_id_and_update v u b1 b2).
  Proof. unfold find_by_id_and_update. keeps_tac; auto using check_valid_wf, update_doc_wf. Qed.

Lemma find_by_id_and_delete_wf v : exn_keeps wf_db (find_by_id_and_delete v).
  Proof. unfold find_by_id_and_delete. keeps_tac; auto using delete_doc_wf. Qed.
End wf.

#[export] Hint Resolve create_wf find_all_wf find_by_id_wf find_by_id_and_update_wf
  find_by_id_and_delete_wf : gs.

(** ** Refinement of the abstract collection *)

(** The abstract operations: append a new pair, change the document of one
    identifier, remove one identifier. *)
Definition abs_update (k : N) (u : obj) (c : list (N * obj)) : list (N * obj) :=
  (λ kd, if decide (kd.1 = k) then (kd.1, u ∪ kd.2) else kd) <$> c.

Definition abs_delete (k : N) (c : list (N * obj)) : list (N * obj) :=
  filter (λ kd, kd.1 ≠ k) c.

Section refinement.
  Context `{!ProductSchema}.

Let view (m : gmap N obj) (l : list N) : list (N * obj) :=
    omap (λ k, pair k <$> m !! k) l.

Lemma view_insert_fresh (m : gmap N obj) l k d :
    k ∉ l → view (<[k := d]> m) l = view m l.
  Proof.
    induction l as [|k' l IH]; intros Hk; [done|]. simpl.
    apply not_elem_of_cons in Hk as [Hne Hk].
    rewrite lookup_insert_ne by congruence. by rewrite IH.
  Qed.

Lemma view_insert_present (m : gmap N obj) l k u d :
    m !! k = Some d → view (<[k := u ∪ d]> m) l = abs_update k u (view m l).
  Proof.
    intros Hk. induction l as [|k' l IH]; [done|]. simpl.
    destruct (decide (k = k')) as [<-|Hne].
    - rewrite lookup_insert_eq, Hk. simpl. rewrite decide_True by done. by f_equal.
    - rewrite lookup_insert_ne by done.
      destruct (m !! k') eqn:E; simpl; rewrite IH; [|done].
      by rewrite decide_False by congruence.
  Qed.

Lemma view_delete (m : gmap N obj) l k :
    view (delete k m) (filter (λ k', k' ≠ k) l) = abs_delete k (view m l).
  Proof.
    induction l as [|k' l IH]; [done|]. simpl. unfold abs_delete in *.
    destruct (decide (k' = k)) as [->|Hne].
    - rewrite filter_cons_False by naive_solver.
      destruct (m !! k); simpl; [|done].
      by rewrite filter_cons_False by naive_solver.
    - rewrite filter_cons_True by done. simpl.
      rewrite lookup_delete_ne by congruence.
      destruct (m !! k'); simpl; rewrite IH; [|done].
      by rewrite filter_cons_True by done.
  Qed.

  (** [create] appends the new document at the end of the collection. *)
Lemma insert_new_abs k d s doc s' :
    wf_db s → insert_new k d s = (Ok doc, s') →
    abs s' = abs s ++ [(k, d)] ∧ doc = with_id k d.
  Proof.
    intros (_ & Hset & _). unfold insert_new.
    destruct (docs s !! k) eqn:Hl; intros; simplify_eq/=. split; [|done].
    unfold abs; simpl. rewrite omap_app. simpl. rewrite lookup_insert_eq. simpl.
    f_equal. apply view_insert_fresh.
    intros Hin. apply (elem_of_list_to_set (C:=gset N)) in Hin.
    rewrite Hset, elem_of_dom, Hl in Hin. by destruct Hin.
  Qed.

Lemma update_doc_abs k u b s r s' :
    update_doc k u b s = (Ok (Some r), s') →
    is_Some (docs s !! k) ∧ abs s' = abs_update k u (abs s).
  Proof.
    unfold update_doc. destruct (docs s !! k) eqn:Hl; intros; simplify_eq/=.
    split; [done|]. by apply view_insert_present.
  Qed.

Lemma delete_doc_abs k s r s' :
    delete_doc k s = (Ok (Some r), s') → is_Some (docs s !! k) ∧ abs s' = abs_delete k (abs s).
  Proof.
    unfold delete_doc. destruct (docs s !! k) eqn:Hl; intros; simplify_eq/=.
    split; [done|]. apply view_delete.
  Qed.

  (** A call that finds nothing changes nothing. *)
Lemma update_doc_absent k u b s r s' :
    docs s !! k = None → update_doc k u b s = (r, s') → r = Ok None ∧ s' = s.
  Proof. unfold update_doc. intros ->. by intros [= <- <-]. Qed.

Lemma delete_doc_absent k s r s' :
    docs s !! k = None → delete_doc k s = (r, s') → r = Ok None ∧ s' = s.
  Proof. unfold delete_doc. intros ->. by intros [= <- <-]. Qed.

Lemma find_all_abs s :
    find_all s = (Ok ((λ kd, with_id kd.1 kd.2) <$> abs s), s).
  Proof.
    unfold find_all, exn_gets, abs. do 2 f_equal.
    generalize (order s). intros l.
    induction l as [|k l IH]; [done|]. simpl.
    destruct (docs s !! k); simpl; [f_equal|]; exact IH.
  Qed.
  (** The collection after an update in place, or a deletion, of [k]. *)
Lemma abs_insert_present s k u d n :
    docs s !! k = Some d →
    abs (mkDb (<[k := u ∪ d]> (docs s)) (order s) n) = abs_update k u (abs s).
  Proof. intros Hk. by apply view_insert_present. Qed.

Lemma abs_delete_present s k n :
    abs (mkDb (delete k (docs s)) (filter (λ k', k' ≠ k) (order s)) n) = abs_delete k (abs s).
  Proof. apply view_delete. Qed.

Lemma abs_update_lookup c i k u d :
    c !! i = Some (k, d) → abs_update k u c !! i = Some (k, u ∪ d).
  Proof. intros Hi. unfold abs_update. rewrite list_lookup_fmap, Hi. simpl. by rewrite decide_True. Qed.

  (** Every pair of the collection is a stored document, under an
      identifier that fits in 12 bytes. *)
Lemma abs_lookup s i k d :
    wf_db s → abs s !! i = Some (k, d) → docs s !! k = Some d ∧ (k < oid_bound)%N.
  Proof.
    intros (_ & _ & Hb) Hi. apply list_elem_of_lookup_2 in Hi.
    apply list_elem_of_omap in Hi as (k' & Hk' & Hl).
    destruct (docs s !! k') eqn:E; simplify_eq/=. split; [done|].
    by eapply Forall_forall in Hb.
  Qed.

End refinement.

(** ** The calls, branch by branch *)

(** [keeps_prop p s s']: every document of [s'] was in [s], with the same
    value of the property [p]. *)
Definition keeps_prop (p : string) (s s' : db) : Prop :=
  ∀ k d', docs s' !! k = Some d' → ∃ d, docs s !! k = Some d ∧ d' !! p = d !! p.

Lemma keeps_prop_refl p s : keeps_prop p s s.
Proof. intros k d' H. eauto. Qed.

Lemma keeps_prop_trans p s1 s2 s3 : keeps_prop p s1 s2 → keeps_prop p s2 s3 → keeps_prop p s1 s3.
Proof.
  intros H12 H23 k d3 (d2 & Hd2 & E2)%H23. destruct (H12 _ _ Hd2) as (d1 & Hd1 & E1).
  exists d1. split; [done|]. by rewrite E2.
Qed.

#[export] Hint Resolve keeps_prop_refl : gs.

Section specs.
  Context `{!ProductSchema}.

  (** A [create] whose data names no [_id] stores the document under the
      next value of the counter. *)
Lemma create_fresh data s :
    data !! "_id" = None →
    docs s !! (next_oid s `mod` oid_bound)%N = None →
    validate_doc (delete "_id" (data ∪ schema_defaults)) = None →
    let k := (next_oid s `mod` oid_bound)%N in
    let d := delete "_id" (data ∪ schema_defaults) in
    create data s = (Ok (with_id k d), mkDb (<[k := d]> (docs s)) (order s ++ [k]) (next_oid s + 1)%N).
  Proof.
    intros Hid Hfree Hval. unfold create, new_key, exn_bind. rewrite Hid. simpl.
    rewrite Hval. simpl. unfold insert_new. simpl. by rewrite Hfree.
  Qed.

  (** A failed [create] stores nothing. *)
Lemma create_err_abs data s e s' :
    create data s = (Err e, s') → docs s' = docs s ∧ order s' = order s.
  Proof.
    unfold create, exn_bind. destruct (new_key data s) as [r s1] eqn:Hk.
    apply new_key_spec in Hk as (Hd & Ho & _).
    destruct r as [k|e']; [|by intros [= _ <-]].
    destruct (validate_doc _); simpl; [by intros [= _ <-]|].
    unfold insert_new. destruct (docs s1 !! k); simpl; [by intros [= _ <-]|done].
  Qed.

  (** Changing a document twice in the same way changes it once; only the
      document returned by the second call can differ (with [new: false]
      it is the document after the first call). *)
Lemma abs_insert_fresh s k d n :
    wf_db s → docs s !! k = None →
    abs (mkDb (<[k := d]> (docs s)) (order s ++ [k]) n) = abs s ++ [(k, d)].
  Proof.
    intros Hwf Hfree.
    destruct (insert_new_abs k d s (with_id k d) (mkDb (<[k := d]> (docs s)) (order s ++ [k]) (next_oid s)))
      as [Habs _]; [done| |exact Habs].
    unfold insert_new. by rewrite Hfree.
  Qed.

  (** The properties an update does not name are left as they were. *)
Lemma strip_delete_None upd p : upd !! p = None → strip_undefined (delete "_id" upd) !! p = None.
  Proof. intros Hp. apply map_lookup_filter_None_2. left. apply lookup_delete_None. by right. Qed.

Lemma update_doc_untouched k0 u b s p :
    u !! p = None → keeps_prop p s (update_doc k0 u b s).2.
  Proof.
    intros Hu k d'. unfold update_doc. destruct (docs s !! k0) as [d0|] eqn:Hk0; simpl; [|eauto].
    destruct (decide (k = k0)) as [->|Hne].
    - rewrite lookup_insert_eq. intros [= <-]. exists d0. split; [done|]. by apply lookup_union_r.
    - rewrite lookup_insert_ne by congruence. eauto.
  Qed.

Lemma find_by_id_and_update_untouched v upd b1 b2 s p :
    upd !! p = None → keeps_prop p s (find_by_id_and_update v upd b1 b2 s).2.
  Proof.
    intros Hp. pose proof (strip_delete_None upd p Hp) as Hu.
    unfold find_by_id_and_update, exn_bind, exn_lift.
    destruct (cast_oid v) as [[k0|]|e]; simpl; [|destruct b2|apply keeps_prop_refl].
    - destruct b2; [destruct (validate_update (strip_undefined (delete "_id" upd))); simpl;
                    [apply keeps_prop_refl|]|]; by apply update_doc_untouched.
    - destruct (validate_update (strip_undefined (delete "_id" upd))); simpl; apply keeps_prop_refl.
    - apply keeps_prop_refl.
  Qed.

  (** A deletion keeps every property of the documents it leaves. *)
Lemma find_by_id_and_delete_untouched v s p : keeps_prop p s (find_by_id_and_delete v s).2.
  Proof.
    unfold find_by_id_and_delete, exn_bind, exn_lift.
    destruct (cast_oid v) as [[k0|]|e]; simpl; try apply keeps_prop_refl.
    unfold delete_doc. destruct (docs s !! k0); simpl; [|apply keeps_prop_refl].
    intros k d' Hk. cbn [docs] in Hk. apply lookup_delete_Some in Hk as [_ Hk]. eauto.
  Qed.

  (** The update [{p: v}] of one defined property. *)
Lemma strip_delete_single p v :
    p ≠ "_id" → is_undefined v = false → strip_undefined (delete "_id" (<[p := v]> ∅)) = <[p := v]> ∅.
  Proof.
    intros Hp Hv. rewrite delete_insert_ne by done. rewrite delete_empty.
    unfold strip_undefined. rewrite map_filter_insert_True by done. by rewrite map_filter_empty.
  Qed.

(** A body that went through JSON holds no [undefined]. *)
Lemma strip_undefined_wire o : strip_undefined (wire o) = wire o.
  Proof. unfold strip_undefined, wire. by apply map_filter_filter_r. Qed.

Lemma update_one p v (d : obj) : <[p := v]> ∅ ∪ d = <[p := v]> d.
  Proof. by rewrite insert_empty, <- insert_union_singleton_l. Qed.

  (** An update of a stored document, its validators passing. *)
Lemma find_by_id_and_update_hit k d upd (b1 b2 : bool) s :
    (k < oid_bound)%N → docs s !! k = Some d →
    (if b2 then validate_update (strip_undefined (delete "_id" upd)) else None) = None →
    let u := strip_undefined (delete "_id" upd) in
    find_by_id_and_update (JStr (render_oid k)) upd b1 b2 s =
      (Ok (Some (with_id k (if b1 then u ∪ d else d))), mkDb (<[k := u ∪ d]> (docs s)) (order s) (next_oid s)).
  Proof.
    intros Hk Hd Hv. unfold find_by_id_and_update, exn_bind, exn_lift.
    rewrite cast_render_oid by done. simpl.
    destruct b2; [rewrite Hv|]; simpl; unfold update_doc; by rewrite Hd.
  Qed.

  (** An update of an identifier that is not stored changes nothing. *)
Lemma find_by_id_and_update_miss k upd (b1 b2 : bool) s :
    (k < oid_bound)%N → docs s !! k = None →
    (if b2 then validate_update (strip_undefined (delete "_id" upd)) else None) = None →
    find_by_id_and_update (JStr (render_oid k)) upd b1 b2 s = (Ok None, s).
  Proof.
    intros Hk Hd Hv. unfold find_by_id_and_update, exn_bind, exn_lift.
    rewrite cast_render_oid by done. simpl.
    destruct b2; [rewrite Hv|]; simpl; unfold update_doc; by rewrite Hd.
  Qed.

Lemma find_by_id_and_delete_absent k s :
    (k < oid_bound)%N → docs s !! k = None →
    find_by_id_and_delete (JStr (render_oid k)) s = (Ok None, s).
  Proof.
    intros Hk Hl. unfold find_by_id_and_delete, exn_bind, exn_lift.
    rewrite cast_render_oid by done. simpl. unfold delete_doc. by rewrite Hl.
  Qed.
End specs.

(** ** The model's contract *)

(** In a well-formed collection, every stored identifier is listed. *)
Lemma abs_stored s k : wf_db s → is_Some (docs s !! k) → k ∈ (abs s).*1.
Proof.
  intros (_ & Hset & _) [d Hd]. apply list_elem_of_fmap. exists (k, d). split; [done|].
  apply list_elem_of_omap. exists k. split; [|by rewrite Hd].
  apply (elem_of_list_to_set (C:=gset N)). rewrite Hset, elem_of_dom. by eexists.
Qed.

Section contract.
  Context `{!ProductSchema}.

  (** Every call on the collection keeps it well formed: each
      identifier listed once in insertion order, nothing else listed, and
      every identifier below [2^96]. *)
Theorem store_calls_keep_wf data v upd b1 b2 :
    exn_keeps wf_db (create data) ∧ exn_keeps wf_db find_all ∧
    exn_keeps wf_db (find_by_id v) ∧ exn_keeps wf_db (find_by_id_and_update v upd b1 b2) ∧
    exn_keeps wf_db (find_by_id_and_delete v).
  Proof. split_and!; eauto with gs. Qed.

  (** A successful [create] appends one pair to the abstract
      collection: a fresh identifier and the data with the schema's
      defaults, without [_id]. *)
Theorem create_refines data s doc s' :
    wf_db s → create data s = (Ok doc, s') →
    ∃ k, abs s' = abs s ++ [(k, delete "_id" (data ∪ schema_defaults))] ∧
         doc = with_id k (delete "_id" (data ∪ schema_defaults)) ∧
         (k < oid_bound)%N ∧ k ∉ (abs s).*1.
  Proof.
    intros Hwf. unfold create, exn_bind.
    destruct (new_key data s) as [[k|e] s1] eqn:Hk; [|done].
    apply new_key_spec in Hk as (Hd & Ho & Hlt).
    assert (wf_db s1) as Hwf1 by (by eapply wf_db_same_docs).
    destruct (validate_doc _); simpl; [done|].
    intros Hins. pose proof Hins as Hins'. unfold insert_new in Hins'.
    destruct (docs s1 !! k) eqn:Hfree; [done|].
    apply insert_new_abs in Hins as [Habs ->]; [|done].
    exists k. unfold abs in *. rewrite Hd, Ho in *. split_and!; [done|done|by apply Hlt|].
    intros ([k' d] & [= ->] & Hin)%list_elem_of_fmap.
    apply list_elem_of_omap in Hin as (k'' & _ & Hl).
    destruct (docs s !! k'') eqn:E; simplify_eq/=; congruence.
  Qed.

  (** A successful update changes, in the abstract collection, the
      document of one stored identifier to the update over it. *)
Theorem find_by_id_and_update_refines v upd b1 b2 s r s' :
    wf_db s → find_by_id_and_update v upd b1 b2 s = (Ok (Some r), s') →
    ∃ k, k ∈ (abs s).*1 ∧ abs s' = abs_update k (strip_undefined (delete "_id" upd)) (abs s).
  Proof.
    intros Hwf. unfold find_by_id_and_update, exn_bind, exn_lift, exn_ret.
    destruct (cast_oid v) as [[k|]|e]; simpl; [|destruct b2|done].
    - destruct b2; [destruct (validate_update (strip_undefined (delete "_id" upd))); simpl; [done|]|];
        intros Hu; exists k; apply update_doc_abs in Hu as [? ?]; by split; [apply abs_stored|].
    - by destruct (validate_update (strip_undefined (delete "_id" upd))).
    - done.
  Qed.

  (** A successful delete removes one stored identifier from the abstract
      collection. *)
Theorem find_by_id_and_delete_refines v s r s' :
    wf_db s → find_by_id_and_delete v s = (Ok (Some r), s') →
    ∃ k, k ∈ (abs s).*1 ∧ abs s' = abs_delete k (abs s).
  Proof.
    intros Hwf. unfold find_by_id_and_delete, exn_bind, exn_lift.
    destruct (cast_oid v) as [[k|]|e]; simpl; [|done|done].
    intros Hd. exists k. apply delete_doc_abs in Hd as [? ?]. by split; [apply abs_stored|].
  Qed.
End contract.

(** ** An example schema

    The schema the examples use: the fields the product form always
    submits are required on creation, and [inStock] defaults to [true].
    The theorems of the development hold for every schema. *)

Definition required_fields : list string := ["name"; "price"; "offerPrice"; "image"].

Definition example_validate_doc (d : obj) : option string :=
  match filter (λ f, d !! f = None) required_fields with
  | [] => None
  | f :: _ => Some ("Product validation failed: " ++ f ++ ": Path " ++ f ++ " is required.")%string
  end.

#[export] Instance example_schema : ProductSchema := {|
  schema_defaults := <["inStock" := JBool true]> ∅;
  validate_doc := example_validate_doc;
  validate_update := λ _, None
|}.

(** ** Witnesses *)

Definition demo_data : obj :=
  <["name" := JStr "Milk"]> (<["price" := JStr "50"]> (<["offerPrice" := JStr "45"]>
    (<["image" := JArr [JStr "https://res.cloudinary.com/demo/image/upload/uploads/front.png"]]> ∅))).

Definition demo_db1 : db := Eval vm_compute in (create demo_data empty_db).2.
Definition demo_doc1 : obj :=
  Eval vm_compute in match (create demo_data empty_db).1 with Ok d => d | Err _ => ∅ end.

Definition demo_update : obj := <["offerPrice" := JStr "40"]> ∅.
Definition demo_db2 : db :=
  Eval vm_compute in (find_by_id_and_update (JStr (render_oid 0)) demo_update true true demo_db1).2.
Definition demo_doc2 : obj :=
  Eval vm_compute in
    match (find_by_id_and_update (JStr (render_oid 0)) demo_update true true demo_db1).1 with
    | Ok (Some d) => d
    | _ => ∅
    end.
Definition demo_db3 : db :=
  Eval vm_compute in (find_by_id_and_delete (JStr (render_oid 0)) demo_db1).2.

Lemma create_refines_witness :
  create demo_data empty_db = (Ok demo_doc1, demo_db1) ∧
  ∃ k, abs demo_db1 = abs empty_db ++ [(k, delete "_id" (demo_data ∪ schema_defaults))] ∧
       demo_doc1 = with_id k (delete "_id" (demo_data ∪ schema_defaults)) ∧
       (k < oid_bound)%N ∧ k ∉ (abs empty_db).*1.
Proof.
  assert (H : create demo_data empty_db = (Ok demo_doc1, demo_db1)) by (vm_compute; reflexivity).
  split; [exact H | exact (create_refines demo_data empty_db demo_doc1 demo_db1 wf_db_empty H)].
Defined.

Lemma find_by_id_and_update_refines_witness :
  find_by_id_and_update (JStr (render_oid 0)) demo_update true true demo_db1 =
    (Ok (Some demo_doc2), demo_db2) ∧
  ∃ k, k ∈ (abs demo_db1).*1 ∧ abs demo_db2 = abs_update k (strip_undefined (delete "_id" demo_update)) (abs demo_db1).
Proof.
  assert (H : find_by_id_and_update (JStr (render_oid 0)) demo_update true true demo_db1 =
                (Ok (Some demo_doc2), demo_db2)) by (vm_compute; reflexivity).
  split; [exact H | exact (find_by_id_and_update_refines _ _ _ _ _ _ _ (create_wf demo_data empty_db wf_db_empty) H)].
Defined.

Lemma find_by_id_and_delete_refines_witness :
  find_by_id_and_delete (JStr (render_oid 0)) demo_db1 = (Ok (Some demo_doc1), demo_db3) ∧
  ∃ k, k ∈ (abs demo_db1).*1 ∧ abs demo_db3 = abs_delete k (abs demo_db1).
Proof.
  assert (H : find_by_id_and_delete (JStr (render_oid 0)) demo_db1 = (Ok (Some demo_doc1), demo_db3))
    by (vm_compute; reflexivity).
  split; [exact H | exact (find_by_id_and_delete_refines _ _ _ _ (create_wf demo_data empty_db wf_db_empty) H)].
Defined.
