(* ===== verification/Upload.v ===== *)
(** * Image uploads: [Promise.all] over [cloudinary.uploader.upload]

    [addProduct] and [updateProduct] upload the files multer attached to
    the request with

      [await Promise.all(images.map(async (item) => {
         let result = await cloudinary.uploader.upload(item.path, ...);
         return result.secure_url }))]

    All uploads are started at once, in file order; they complete in an
    order the program does not control.  The result array is filled by
    index, so the i-th URL is the one of the i-th file whatever the order
    of completion; the promise rejects with the first failure to complete,
    and the uploads still running are not cancelled.

    The image host is an interface, the class [MediaHost]: an upload of a
    path answers a secure URL or an error, and every URL it answers is then
    hosted.  The completion order is an explicit schedule: a list of file
    indices, a permutation of [0 .. n-1] for the [n] files ([settle]).
    [upload_log] records the host's answers in completion order; for every
    host, the [i]-th URL of a successful batch is the one the upload of the
    [i]-th file answered, a rejected batch rejects with the first failure
    to complete, and the host keeps every URL it answered. *)

From S2P Require Import Prelude JsValue.

(** A file as multer describes it; the controller reads only [path]. *)
Record file := mkFile { fieldname : string; path : string }.

Class MediaHost (M : Type) := {
  host_upload : M → string → jres string * M;
  hosted : M → list string;
  host_upload_ok : ∀ m p u m', host_upload m p = (Ok u, m') → hosted m' = u :: hosted m;
  host_upload_err : ∀ m p e m', host_upload m p = (Err e, m') → hosted m' = hosted m
}.

Section upload.
  Context `{MediaHost M}.
  Local Open Scope exn_scope.

  (** One completion after another, in the order of the schedule: a
      success fills the file's slot, a failure records the rejection
      unless one is already recorded. *)
Fixpoint settle (files : list file) (ord : list nat) (slots : list (option string))
      (rej : option js_error) (m : M) : list (option string) * option js_error * M :=
    match ord with
    | [] => (slots, rej, m)
    | i :: ord' =>
        match files !! i with
        | None => settle files ord' slots rej m
        | Some f =>
            match host_upload m (path f) with
            | (Ok u, m') => settle files ord' (<[i := Some u]> slots) rej m'
            | (Err e, m') => settle files ord' slots (if rej is None then Some e else rej) m'
            end
        end
    end.

  (** What the host answered, in completion order: the index of the file
      of each upload that completed and its answer.  This is an
      observation of the run [settle] makes, used to state which URL
      belongs to which file. *)
Fixpoint upload_log (files : list file) (ord : list nat) (m : M) : list (nat * jres string) :=
    match ord with
    | [] => []
    | i :: ord' =>
        match files !! i with
        | None => upload_log files ord' m
        | Some f => let '(r, m') := host_upload m (path f) in (i, r) :: upload_log files ord' m'
        end
    end.

  (** The URLs of the successful answers of a log. *)
Definition log_urls (log : list (nat * jres string)) : list string :=
    omap (λ a, match a.2 with Ok u => Some u | Err _ => None end) log.

  (** [Promise.all(images.map(upload))] under the schedule [ord]. *)
Definition promise_all_upload (ord : list nat) (files : list file) : exn M js_error (list string) :=
    λ m, match settle files ord (replicate (length files) None) None m with
         | (_, Some e, m') => (Err e, m')
         | (slots, None, m') => (Ok (omap id slots), m')
         end.

  (** The sequential reference: upload the files one after the other and
      stop at the first failure. *)
Fixpoint upload_seq (files : list file) : exn M js_error (list string) :=
    match files with
    | [] => exn_ret []
    | f :: fs =>
        u <- (λ m, host_upload m (path f)) ;;
        us <- upload_seq fs ;;
        exn_ret (u :: us)
    end.
End upload.

(** ** What every host guarantees *)

Section general.
  Context `{MediaHost M}.

Lemma settle_length files ord slots rej m :
    length (settle files ord slots rej m).1.1 = length slots.
  Proof.
    revert slots rej m. induction ord as [|i ord IH]; intros slots rej m; simpl; [done|].
    destruct (files !! i) as [f|]; [|apply IH].
    destruct (host_upload m (path f)) as [[u|e] m']; rewrite IH; [apply length_insert|done].
  Qed.

Lemma settle_rej_kept files ord slots e m :
    (settle files ord slots (Some e) m).1.2 = Some e.
  Proof.
    revert slots m. induction ord as [|i ord IH]; intros slots m; simpl; [done|].
    destruct (files !! i) as [f|]; [|apply IH].
    by destruct (host_upload m (path f)) as [[u|e'] m'].
  Qed.

Lemma settle_mono files ord slots rej m j :
    is_Some (slots !! j ≫= id) → is_Some ((settle files ord slots rej m).1.1 !! j ≫= id).
  Proof.
    revert slots rej m. induction ord as [|i ord IH]; intros slots rej m Hj; simpl; [done|].
    destruct (files !! i) as [f|]; [|by apply IH].
    destruct (host_upload m (path f)) as [[u|e] m']; apply IH; [|done].
    rewrite list_lookup_insert. by case_decide.
  Qed.

  (** Without a rejection, every scheduled upload has filled its slot. *)
Lemma settle_filled files ord slots rej m i :
    length slots = length files →
    (settle files ord slots rej m).1.2 = None → i ∈ ord → i < length files →
    is_Some ((settle files ord slots rej m).1.1 !! i ≫= id).
  Proof.
    intros Hlen. revert slots rej m Hlen.
    induction ord as [|i' ord IH]; intros slots rej m Hlen Hrej Hi Hlt;
      [by apply not_elem_of_nil in Hi|].
    simpl in *. destruct (files !! i') as [f|] eqn:Hf.
    2: { apply lookup_ge_None_1 in Hf.
         apply elem_of_cons in Hi as [->|Hi]; [lia|]. by apply IH. }
    destruct (host_upload m (path f)) as [[u|e] m'].
    - apply elem_of_cons in Hi as [->|Hi].
      + apply settle_mono. rewrite list_lookup_insert_eq by lia. done.
      + apply IH; rewrite ?length_insert; done.
    - destruct rej; [by rewrite settle_rej_kept in Hrej|].
      by rewrite settle_rej_kept in Hrej.
  Qed.

Lemma omap_id_length (l : list (option string)) :
    (∀ i, i < length l → is_Some (l !! i ≫= id)) → length (omap id l) = length l.
  Proof.
    induction l as [|o l IH]; intros Hall; [done|].
    destruct o as [u|].
    - simpl. f_equal. apply IH. intros i Hi. apply (Hall (S i)). simpl. lia.
    - exfalso. destruct (Hall 0) as [? Hx]; [simpl; lia|]. done.
  Qed.

  (** A settled batch fills every slot: one URL per file. *)
Lemma upload_batch_length ord files m urls m' :
    ord ≡ₚ seq 0 (length files) →
    promise_all_upload ord files m = (Ok urls, m') → length urls = length files.
  Proof.
    intros Hperm. unfold promise_all_upload.
    destruct (settle files ord _ None m) as [[slots rej] m''] eqn:Hs.
    destruct rej; intros [= <- _].
    pose proof (settle_length files ord (replicate (length files) None) None m) as Hl.
    rewrite Hs, length_replicate in Hl. simpl in Hl. rewrite <- Hl.
    apply omap_id_length. intros i Hi.
    pose proof (settle_filled files ord (replicate (length files) None) None m i) as Hf.
    rewrite Hs in Hf. apply Hf; [by rewrite length_replicate|done| |lia].
    by apply (perm_seq_elem ord (length files)); [|lia].
  Qed.

Lemma upload_log_index files ord m i r : (i, r) ∈ upload_log files ord m → i ∈ ord.
  Proof.
    revert m. induction ord as [|j ord IH]; intros m Hin; simpl in Hin; [set_solver|].
    destruct (files !! j) as [f|]; [|apply elem_of_cons; right; by eapply IH].
    destruct (host_upload m (path f)) as [r' m']. simpl in Hin.
    apply elem_of_cons in Hin as [[= -> _]|Hin]; [set_solver|]. apply elem_of_cons; right; by eapply IH.
  Qed.

  (** A file whose upload is not scheduled keeps its slot. *)
Lemma settle_untouched files ord slots rej m i :
    i ∉ ord → (settle files ord slots rej m).1.1 !! i = slots !! i.
  Proof.
    revert slots rej m. induction ord as [|j ord IH]; intros slots rej m Hi; simpl; [done|].
    apply not_elem_of_cons in Hi as [Hij Hi].
    destruct (files !! j) as [f|]; [|by apply IH].
    destruct (host_upload m (path f)) as [[u|e] m']; rewrite IH by done; [|done].
    by rewrite list_lookup_insert_ne.
  Qed.

  (** The slot of a file holds the URL its own upload answered. *)
Lemma settle_slot files ord slots rej m i u :
    NoDup ord → slots !! i = Some None →
    (settle files ord slots rej m).1.1 !! i = Some (Some u) ↔ (i, Ok u) ∈ upload_log files ord m.
  Proof.
    revert slots rej m. induction ord as [|j ord IH]; intros slots rej m Hnd Hsi; simpl.
    - rewrite Hsi. split; [done|set_solver].
    - apply NoDup_cons in Hnd as [Hj Hnd].
      destruct (files !! j) as [f|]; [|by apply IH].
      destruct (host_upload m (path f)) as [[u'|e] m']; simpl; rewrite elem_of_cons;
        destruct (decide (i = j)) as [->|Hij].
      + rewrite settle_untouched, list_lookup_insert_eq by (by eapply lookup_lt_Some || done).
        split; [intros [= ->]; by left|]. intros [[= ->]|Hin]; [done|].
        by apply upload_log_index in Hin.
      + rewrite IH by (rewrite ?list_lookup_insert_ne; done).
        split; [by right|]. by intros [[= ? _]|?].
      + rewrite settle_untouched, Hsi by done. split; [done|]. intros [[=]|Hin].
        by apply upload_log_index in Hin.
      + rewrite IH by done. split; [by right|]. by intros [[=]|?].
  Qed.

  (** The host keeps every URL it answered, in completion order. *)
Lemma settle_hosted files ord slots rej m :
    hosted (settle files ord slots rej m).2 = rev (log_urls (upload_log files ord m)) ++ hosted m.
  Proof.
    revert slots rej m. induction ord as [|i ord IH]; intros slots rej m; simpl; [done|].
    destruct (files !! i) as [f|]; [|apply IH].
    destruct (host_upload m (path f)) as [[u|e] m'] eqn:Hup; simpl; rewrite IH; unfold log_urls; simpl.
    - rewrite (host_upload_ok _ _ _ _ Hup). by rewrite <- app_assoc.
    - by rewrite (host_upload_err _ _ _ _ Hup).
  Qed.

  (** The rejection recorded is the first failure to complete. *)
Lemma settle_first_error files ord slots m e :
    (settle files ord slots None m).1.2 = Some e →
    ∃ l1 i l2, upload_log files ord m = l1 ++ (i, Err e) :: l2 ∧ Forall (λ a, is_ok a.2 = true) l1.
  Proof.
    revert slots m. induction ord as [|j ord IH]; intros slots m; simpl; [done|].
    destruct (files !! j) as [f|]; [|apply IH].
    destruct (host_upload m (path f)) as [[u|e'] m']; simpl.
    - intros (l1 & i & l2 & -> & Hok)%IH. exists ((j, Ok u) :: l1), i, l2. by split; [|constructor].
    - rewrite settle_rej_kept. intros [= ->]. exists [], j, (upload_log files ord m'). by split.
  Qed.

Lemma omap_id_lookup (l : list (option string)) i u :
    (∀ j, j < length l → is_Some (l !! j ≫= id)) → omap id l !! i = Some u ↔ l !! i = Some (Some u).
  Proof.
    revert i. induction l as [|o l IH]; intros i Hall; [done|].
    destruct o as [v|].
    - destruct i as [|i]; simpl; [split; congruence|].
      apply IH. intros j Hj. apply (Hall (S j)). simpl. lia.
    - exfalso. destruct (Hall 0) as [? Hx]; [simpl; lia|]. done.
  Qed.

  (** [Promise.all] keeps file order: the [i]-th URL is the one the upload
      of the [i]-th file answered, whatever the order of completion. *)
Lemma upload_batch_file_order ord files m urls m' :
    ord ≡ₚ seq 0 (length files) → promise_all_upload ord files m = (Ok urls, m') →
    ∀ i u, urls !! i = Some u ↔ (i, Ok u) ∈ upload_log files ord m.
  Proof.
    intros Hperm Hup i u. pose proof (upload_batch_length ord files m urls m' Hperm Hup) as Hlen.
    revert Hup. unfold promise_all_upload.
    pose proof (settle_length files ord (replicate (length files) None) None m) as Hl.
    pose proof (settle_filled files ord (replicate (length files) None) None m) as Hf.
    pose proof (settle_slot files ord (replicate (length files) None) None m i u) as Hs.
    destruct (settle files ord _ None m) as [[slots rej] m''].
    destruct rej; intros [= <- _]. simpl in Hl, Hf, Hs. rewrite length_replicate in Hl.
    destruct (decide (i < length files)) as [Hi|Hi].
    - rewrite omap_id_lookup.
      + apply Hs; [by eapply perm_seq_NoDup|by apply lookup_replicate_2].
      + intros j Hj. apply Hf; [by rewrite length_replicate|done| |lia].
        apply (perm_seq_elem ord (length files)); [done|lia].
    - split; [intros Hu; apply lookup_lt_Some in Hu; lia|].
      intros Hin%upload_log_index. by apply (perm_seq_elem ord (length files)) in Hin.
  Qed.

  (** Whatever the batch answers, the host keeps every URL it answered. *)
Lemma upload_batch_hosted ord files m r m' :
    promise_all_upload ord files m = (r, m') →
    hosted m' = rev (log_urls (upload_log files ord m)) ++ hosted m.
  Proof.
    unfold promise_all_upload. pose proof (settle_hosted files ord (replicate (length files) None) None m).
    destruct (settle files ord _ None m) as [[slots [e|]] m'']; intros [= _ <-]; done.
  Qed.

  (** A rejected batch rejects with the first failure to complete. *)
Lemma upload_batch_first_error ord files m e m' :
    promise_all_upload ord files m = (Err e, m') →
    ∃ l1 i l2, upload_log files ord m = l1 ++ (i, Err e) :: l2 ∧ Forall (λ a, is_ok a.2 = true) l1.
  Proof.
    unfold promise_all_upload. pose proof (settle_first_error files ord (replicate (length files) None) m e).
    destruct (settle files ord _ None m) as [[slots [e'|]] m'']; intros [=]; subst. auto.
  Qed.

  (** C11: The URL list has one entry per file, whatever the completion order. *)
Lemma promise_all_upload_length ord files m urls m' :
    ord ≡ₚ seq 0 (length files) →
    promise_all_upload ord files m = (Ok urls, m') → length urls = length files.
  Proof. exact (upload_batch_length ord files m urls m'). Qed.
End general.

(** ** A host whose answers do not depend on its state *)

Section pure.
  Context `{MediaHost M} (url_of : string → jres string).
  Hypothesis Hpure : ∀ m p, (host_upload m p).1 = url_of p.

Definition ok_url (f : file) : option string :=
    match url_of (path f) with Ok u => Some u | Err _ => None end.

Let fill (files : list file) (ord : list nat) (slots : list (option string)) :=
    imap (λ i s, if decide (i ∈ ord) then files !! i ≫= ok_url else s) slots.

Lemma host_upload_pure m p : ∃ m', host_upload m p = (url_of p, m').
  Proof. rewrite <- (Hpure m p). destruct (host_upload m p). by eexists. Qed.

Lemma fill_nil files slots : fill files [] slots = slots.
  Proof.
    apply list_eq. intros j. unfold fill. rewrite list_lookup_imap.
    destruct (slots !! j); simpl; [|done]. f_equal; case_decide; set_solver.
  Qed.

Lemma fill_cons_same files i ord slots :
    i ∉ ord → slots !! i = Some None → (files !! i ≫= ok_url) = None →
    fill files ord slots = fill files (i :: ord) slots.
  Proof.
    intros Hi Hsi Hv. apply list_eq. intros j. unfold fill. rewrite !list_lookup_imap.
    destruct (decide (j = i)) as [->|Hne].
    - rewrite Hsi. simpl. rewrite decide_False, decide_True by set_solver. by rewrite Hv.
    - destruct (slots !! j); simpl; [|done]. f_equal.
      repeat case_decide; set_solver.
  Qed.

Lemma fill_cons_insert files i ord slots u :
    i ∉ ord → slots !! i = Some None → (files !! i ≫= ok_url) = Some u →
    fill files ord (<[i := Some u]> slots) = fill files (i :: ord) slots.
  Proof.
    intros Hi Hsi Hv. apply list_eq. intros j. unfold fill. rewrite !list_lookup_imap.
    destruct (decide (j = i)) as [->|Hne].
    - rewrite list_lookup_insert_eq, Hsi by (by eapply lookup_lt_Some). simpl.
      rewrite decide_False, decide_True by set_solver. by rewrite Hv.
    - rewrite list_lookup_insert_ne by congruence.
      destruct (slots !! j); simpl; [|done]. f_equal.
      repeat case_decide; set_solver.
  Qed.

  (** The slots after [settle] do not depend on the order of completion. *)
Lemma settle_pure_slots files ord slots rej m :
    NoDup ord → (∀ i, i ∈ ord → slots !! i = Some None) →
    (settle files ord slots rej m).1.1 = fill files ord slots.
  Proof.
    revert slots rej m. induction ord as [|i ord IH]; intros slots rej m Hnd Hsl; simpl.
    - by rewrite fill_nil.
    - apply NoDup_cons in Hnd as [Hi Hnd].
      assert (slots !! i = Some None) as Hsi by (apply Hsl; set_solver).
      assert (∀ j, j ∈ ord → slots !! j = Some None) as Hsl' by (intros; apply Hsl; set_solver).
      destruct (files !! i) as [f|] eqn:Hf.
      2: { rewrite IH by done. apply fill_cons_same; rewrite ?Hf; done. }
      destruct (host_upload_pure m (path f)) as [m' ->].
      destruct (url_of (path f)) as [u|e] eqn:Hu.
      + rewrite IH; [| done | intros j Hj; rewrite list_lookup_insert_ne by set_solver; auto].
        apply fill_cons_insert; [done|done|]. rewrite Hf. simpl. unfold ok_url. by rewrite Hu.
      + rewrite IH by done. apply fill_cons_same; [done|done|].
        rewrite Hf. simpl. unfold ok_url. by rewrite Hu.
  Qed.
  (** The batch rejects exactly when some scheduled upload fails. *)
Lemma settle_pure_rej files ord slots rej m :
    (settle files ord slots rej m).1.2 = None ↔
    rej = None ∧ ∀ i f, i ∈ ord → files !! i = Some f → is_ok (url_of (path f)) = true.
  Proof.
    revert slots rej m. induction ord as [|i ord IH]; intros slots rej m; simpl.
    - split; [intros ->; split; [done|]; intros ? ? Hin; by apply not_elem_of_nil in Hin|].
      by intros [-> _].
    - destruct (files !! i) as [f|] eqn:Hf.
      + destruct (host_upload_pure m (path f)) as [m' ->].
        destruct (url_of (path f)) as [u|e] eqn:Hu.
        * rewrite IH. split; intros [-> Hall]; split; try done.
          -- intros j g [->|Hj]%elem_of_cons Hg; [simplify_eq; by rewrite Hu|eauto].
          -- intros j g Hj Hg. apply (Hall j g); [set_solver|done].
        * assert (∃ e', (if rej is None then Some e else rej) = Some e') as [e' ->]
            by (destruct rej; eauto).
          rewrite settle_rej_kept. split; [done|]. intros [_ Hall].
          specialize (Hall i f). rewrite Hu in Hall. exfalso. by apply Bool.diff_false_true, Hall; [set_solver|].
      + rewrite IH. split; intros [-> Hall]; split; try done.
        * intros j g [->|Hj]%elem_of_cons Hg; [congruence|eauto].
        * intros j g Hj Hg. apply (Hall j g); [set_solver|done].
  Qed.

Lemma fill_full files ord :
    ord ≡ₚ seq 0 (length files) →
    fill files ord (replicate (length files) None) = ok_url <$> files.
  Proof.
    intros Hp. apply list_eq. intros j. unfold fill.
    rewrite list_lookup_imap, list_lookup_fmap.
    destruct (decide (j < length files)) as [Hj|Hj].
    - rewrite lookup_replicate_2 by done. simpl.
      rewrite decide_True by (by apply (perm_seq_elem ord (length files))).
      destruct (lookup_lt_is_Some_2 files j Hj) as [f ->]. done.
    - rewrite (lookup_ge_None_2 (replicate _ _)) by (rewrite length_replicate; lia).
      by rewrite lookup_ge_None_2 by lia.
  Qed.

Lemma all_ok_Forall2 (files : list file) urls :
    ((∀ f, f ∈ files → is_ok (url_of (path f)) = true) ∧ urls = omap id (ok_url <$> files)) ↔
    Forall2 (λ f u, url_of (path f) = Ok u) files urls.
  Proof.
    revert urls. induction files as [|f files IH]; intros urls; simpl.
    - split; [intros [_ ->]; constructor|]. intros ->%Forall2_nil_inv_l. split; [set_solver|done].
    - unfold ok_url at 1. rewrite Forall2_cons_l_iff.
      destruct (url_of (path f)) as [u|e] eqn:Hu; simpl.
      + split.
        * intros [Hall ->]. exists u, (omap id (ok_url <$> files)). split_and!; [done| |done].
          apply IH. split; [|done]. intros g Hg. apply Hall. set_solver.
        * intros (u' & urls' & [= <-] & Hrest & ->). apply IH in Hrest as [Hall ->].
          split; [|done]. intros g [->|Hg]%elem_of_cons; [by rewrite Hu|auto].
      + split.
        * intros [Hall _]. exfalso. specialize (Hall f). rewrite Hu in Hall. by apply Bool.diff_false_true, Hall; set_solver.
        * by intros (? & ? & ? & _).
  Qed.

  (** [Promise.all] answers the URLs of the files, in file order, exactly
      when every upload succeeds, whatever the completion order. *)
Lemma promise_all_pure_ok ord files m urls :
    ord ≡ₚ seq 0 (length files) →
    (promise_all_upload ord files m).1 = Ok urls ↔ Forall2 (λ f u, url_of (path f) = Ok u) files urls.
  Proof.
    intros Hp. rewrite <- all_ok_Forall2. unfold promise_all_upload.
    pose proof (settle_pure_slots files ord (replicate (length files) None) None m) as Hs.
    pose proof (settle_pure_rej files ord (replicate (length files) None) None m) as Hr.
    destruct (settle files ord _ None m) as [[slots rej] m']. simpl in Hs, Hr.
    assert (slots = ok_url <$> files) as ->.
    { rewrite <- (fill_full files ord) by done. apply Hs; [by eapply perm_seq_NoDup|].
      intros i Hi. apply lookup_replicate_2. by apply (perm_seq_elem ord (length files)). }
    destruct rej as [e|]; simpl.
    - split; [done|]. intros [Hall _]. enough (Some e = None) by done.
      apply Hr. split; [done|]. intros i f Hi Hf. apply Hall. by eapply list_elem_of_lookup_2.
    - destruct (proj1 Hr eq_refl) as [_ Hall]. split; [intros [= <-]|intros [_ ->]; done].
      split; [|done]. intros f [i Hf]%list_elem_of_lookup. apply (Hall i f); [|done].
      apply (perm_seq_elem ord (length files)); [done|]. by eapply lookup_lt_Some.
  Qed.

Lemma upload_seq_pure_ok files m urls :
    (upload_seq files m).1 = Ok urls ↔ Forall2 (λ f u, url_of (path f) = Ok u) files urls.
  Proof.
    revert m urls. induction files as [|f files IH]; intros m urls; simpl.
    - split; [intros [= <-]; constructor|]. by intros ->%Forall2_nil_inv_l.
    - unfold exn_bind. destruct (host_upload_pure m (path f)) as [m' ->].
      rewrite Forall2_cons_l_iff. destruct (url_of (path f)) as [u|e] eqn:Hu.
      + specialize (IH m'). destruct (upload_seq files m') as [[us|e] m''] eqn:Hs; simpl in *.
        * split; [intros [= <-]; exists u, us; split_and!; [done| |done]; by apply IH|].
          intros (u' & us' & [= <-] & Hrest & ->). apply IH in Hrest. by simplify_eq.
        * split; [done|]. intros (u' & us' & _ & Hrest & _). by apply IH in Hrest.
      + split; [done|]. by intros (? & ? & ? & _).
  Qed.

  (** ** The properties of [Promise.all] over uploads *)

  (** C12: Equivalence with the sequential reference: under every completion
      order, [Promise.all] succeeds with a URL list exactly when uploading
      the files one after the other does, with the same list. *)
Theorem promise_all_equiv_seq ord files m urls :
    ord ≡ₚ seq 0 (length files) →
    (promise_all_upload ord files m).1 = Ok urls ↔ (upload_seq files m).1 = Ok urls.
  Proof. intros Hp. by rewrite promise_all_pure_ok, upload_seq_pure_ok. Qed.

End pure.

(** ** A host for the examples

    It answers a URL made from the path, refuses one path, and hosts every
    URL it answers.  Its answers do not depend on its state. *)

Definition demo_url_of (p : string) : jres string :=
  if String.eqb p "uploads/broken.png" then Err (UploadError "Invalid image file")
  else Ok ("https://res.cloudinary.com/demo/image/upload/" ++ p)%string.

Definition demo_upload (m : list string) (p : string) : jres string * list string :=
  match demo_url_of p with
  | Ok u => (Ok u, u :: m)
  | Err e => (Err e, m)
  end.

#[export] Program Instance demo_host : MediaHost (list string) := {|
  host_upload := demo_upload;
  hosted m := m
|}.
Next Obligation. intros m p u m'. unfold demo_upload. destruct (demo_url_of p); by intros [= -> <-]. Qed.
Next Obligation. intros m p e m'. unfold demo_upload. destruct (demo_url_of p); by intros [= -> <-]. Qed.

Lemma demo_host_pure m p : (host_upload m p).1 = demo_url_of p.
Proof. simpl. unfold demo_upload. by destruct (demo_url_of p). Qed.

Definition demo_files : list file :=
  [mkFile "images" "uploads/front.png"; mkFile "images" "uploads/back.png"].
Definition demo_files_broken : list file :=
  [mkFile "images" "uploads/front.png"; mkFile "images" "uploads/broken.png"].

(** ** Witnesses *)

Definition front_url : string := "https://res.cloudinary.com/demo/image/upload/uploads/front.png".
Definition back_url : string := "https://res.cloudinary.com/demo/image/upload/uploads/back.png".

(** The back image completes first; the URLs still come in file order. *)
Lemma promise_all_upload_length_witness :
  [1; 0] ≡ₚ seq 0 (length demo_files) ∧
  promise_all_upload [1; 0] demo_files [] = (Ok [front_url; back_url], [front_url; back_url]) ∧
  length [front_url; back_url] = length demo_files.
Proof.
  assert (Hp : [1; 0] ≡ₚ seq 0 (length demo_files)) by decide_vm.
  assert (Hr : promise_all_upload [1; 0] demo_files [] = (Ok [front_url; back_url], [front_url; back_url]))
    by (vm_compute; reflexivity).
  split_and!; [exact Hp | exact Hr | exact (promise_all_upload_length _ _ _ _ _ Hp Hr)].
Defined.

Lemma promise_all_equiv_seq_witness :
  [1; 0] ≡ₚ seq 0 (length demo_files) ∧
  ((promise_all_upload [1; 0] demo_files []).1 = Ok [front_url; back_url] ↔
   (upload_seq demo_files []).1 = Ok [front_url; back_url]).
Proof.
  assert (Hp : [1; 0] ≡ₚ seq 0 (length demo_files)) by decide_vm.
  split; [exact Hp | exact (promise_all_equiv_seq demo_url_of demo_host_pure _ _ _ _ Hp)].
Defined.

