(* ===== verification/Controller.v ===== *)
(** * The product API controller

    [src/server/controllers/productController.js], handler by handler.  A
    handler runs in the exception-state monad over the server's external
    state ([server]: the collection, the image host and the console log).
    Its body is the [try] block of the source; [handle] is its [catch]
    block, which logs [error.message] and answers
    [{success: false, message: error.message}].  Every answer is the JSON
    object passed to [res.json].

    The handlers are parameterised by what the source only calls: the
    schema ([ProductSchema]), the image host ([MediaHost]), [JSON.parse]
    (any function from strings to values or a [SyntaxError]) and, for the
    two handlers that upload, the completion order of the uploads. *)

From S2P Require Import Prelude JsValue ObjectId Store Upload.


(** ** Requests and responses *)

(** What Express and multer hand to a handler: [req.body], [req.params]
    and [req.files] ([undefined] when the request carried no files). *)
Record request := mkReq {
  body : obj;
  params : gmap string string;
  files : option (list file)
}.

Record server (M : Type) := mkServer {
  db_of : db;
  media : M;
  logs : list string
}.
Arguments mkServer {M} _ _ _.
Arguments db_of {M} _.
Arguments media {M} _.
Arguments logs {M} _.

(** [{success, message}] *)
Definition reply (ok : bool) (msg : string) : obj :=
  <["success" := JBool ok]> (<["message" := JStr msg]> ∅).

(** ** The handlers *)

Section controller.
  Context `{!ProductSchema} `{MediaHost M}.
  Variable json_parse : string → jres jval.
  Local Open Scope exn_scope.

Definition on_db {A} (c : exn db js_error A) : exn (server M) js_error A := λ s,
    let (r, d) := c (db_of s) in (r, mkServer d (media s) (logs s)).

Definition on_media {A} (c : exn M js_error A) : exn (server M) js_error A := λ s,
    let (r, m) := c (media s) in (r, mkServer (db_of s) m (logs s)).

  (** [console.log(line)] *)
Definition log (line : string) : exn (server M) js_error unit :=
    exn_modify (λ s, mkServer (db_of s) (media s) (logs s ++ [line])).

  (** [catch (error) { console.log(prefix + error.message);
                       res.json({success: false, message: error.message}) }] *)
Definition handle (prefix : string) (c : exn (server M) js_error obj) : exn (server M) js_error obj :=
    exn_catch c (λ e, log (prefix ++ message e) ;;; exn_ret (reply false (message e))).

  (** [JSON.parse(v)]: the argument is converted to a string first. *)
Definition parse_arg (v : jval) : jres jval := json_parse (to_js_string v).

  (** [images.map(...)] on [req.files]: [undefined] has no [map]. *)
Definition files_arg (fs : option (list file)) : jres (list file) :=
    match fs with
    | Some l => Ok l
    | None => Err (TypeError "Cannot read properties of undefined (reading 'map')")
    end.

Definition url_array (urls : list string) : jval := JArr (JStr <$> urls).

  (** Add Product : /api/product/add *)
Definition addProduct (ord : list nat) (req : request) : exn (server M) js_error obj :=
    handle "" (
      productData <- exn_lift (parse_arg (get_prop (body req) "productData")) ;;
      images <- exn_lift (files_arg (files req)) ;;
      imagesUrl <- on_media (promise_all_upload ord images) ;;
      on_db (create (<["image" := url_array imagesUrl]> (spread productData))) ;;;
      exn_ret (reply true "Product Added")).

  (** Get Product : /api/product/list *)
Definition productList (req : request) : exn (server M) js_error obj :=
    handle "" (
      products <- on_db find_all ;;
      exn_ret (<["success" := JBool true]> (<["products" := JArr (JObj <$> products)]> ∅))).

  (** Get single Product : /api/product/id *)
Definition productById (req : request) : exn (server M) js_error obj :=
    handle "" (
      let id := get_prop (body req) "id" in
      product <- on_db (find_by_id id) ;;
      exn_ret (<["success" := JBool true]>
                 (<["product" := default JNull (JObj <$> product)]> ∅))).

  (** Change Product inStock : /api/product/stock *)
Definition changeStock (req : request) : exn (server M) js_error obj :=
    handle "" (
      let id := get_prop (body req) "id" in
      let inStock := get_prop (body req) "inStock" in
      on_db (find_by_id_and_update id (<["inStock" := inStock]> ∅) false false) ;;;
      exn_ret (reply true "Stock Updated")).

  (** [req.params.id] *)
Definition param_id (req : request) : jval := default JUndefined (JStr <$> params req !! "id").

  (** Delete Product : /api/product/delete *)
Definition deleteProduct (req : request) : exn (server M) js_error obj :=
    handle "" (
      let id := param_id req in
      if negb (truthy id) then exn_ret (reply false "Product ID is required")
      else on_db (find_by_id_and_delete id) ;;;
           exn_ret (reply true "Product deleted successfully")).

  (** [req.body.productData ? JSON.parse(req.body.productData) : req.body] *)
Definition product_data (req : request) : jres jval :=
    let pd := get_prop (body req) "productData" in
    if truthy pd then parse_arg pd else Ok (JObj (body req)).

  (** [if (images && images.length > 0) imagesUrl = await Promise.all(...)] *)
Definition upload_if_any (ord : list nat) (fs : option (list file)) : exn (server M) js_error (list string) :=
    match fs with
    | Some images => if decide (0 < length images) then on_media (promise_all_upload ord images)
                     else exn_ret []
    | None => exn_ret []
    end.

  (** The update argument Mongoose accepts: an object. *)
Definition update_arg (v : jval) : jres obj :=
    match v with
    | JObj o => Ok o
    | _ => Err ObjectParameterError
    end.

  (** Update Product : /api/product/update/:id *)
Definition updateProduct (ord : list nat) (req : request) : exn (server M) js_error obj :=
    handle "Update error: " (
      let id := param_id req in
      productData <- exn_lift (product_data req) ;;
      imagesUrl <- upload_if_any ord (files req) ;;
      productData <- (if decide (0 < length imagesUrl)
                      then exn_lift (set_prop productData "image" (url_array imagesUrl))
                      else exn_ret productData) ;;
      upd <- exn_lift (update_arg productData) ;;
      updatedProduct <- on_db (find_by_id_and_update id upd true true) ;;
      match updatedProduct with
      | None => exn_ret (reply false "Product not found")
      | Some p => exn_ret (<["product" := JObj p]> (reply true "Product updated successfully"))
      end).
End controller.

(** ** Lifting lemmas *)

Section lifting.
  Context `{!ProductSchema} `{MediaHost M}.
  Implicit Types s : server M.

Definition wf_server s : Prop := wf_db (db_of s).

Lemma on_db_keeps {A} (c : exn db js_error A) :
    exn_keeps wf_db c → exn_keeps wf_server (on_db c).
  Proof.
    intros Hc s Hs. unfold on_db, wf_server in *.
    specialize (Hc (db_of s) Hs). by destruct (c (db_of s)).
  Qed.

Lemma on_media_keeps {A} (c : exn M js_error A) : exn_keeps wf_server (on_media c).
  Proof. intros s Hs. unfold on_media. by destruct (c (media s)). Qed.

Lemma log_keeps line : exn_keeps wf_server (log line).
  Proof. by intros s. Qed.

Lemma handle_keeps prefix c : exn_keeps wf_server c → exn_keeps wf_server (handle prefix c).
  Proof. intros Hc. unfold handle. keeps_tac; auto using log_keeps. Qed.

  (** The [catch] block answers every exception. *)
Lemma handle_never_throws prefix c s : is_ok (handle prefix c s).1 = true.
  Proof. unfold handle, exn_catch. by destruct (c s) as [[] ?]. Qed.

Lemma on_db_run {A} (c : exn db js_error A) s :
    on_db c s = ((c (db_of s)).1, mkServer (c (db_of s)).2 (media s) (logs s)).
  Proof. unfold on_db. by destruct (c (db_of s)). Qed.

Lemma on_media_run {A} (c : exn M js_error A) s :
    on_media c s = ((c (media s)).1, mkServer (db_of s) (c (media s)).2 (logs s)).
  Proof. unfold on_media. by destruct (c (media s)). Qed.
End lifting.

#[export] Hint Resolve on_db_keeps on_media_keeps log_keeps handle_keeps : gs.

Ltac handler_keeps :=
  repeat (first [ solve [eauto with gs] | apply handle_keeps | apply on_db_keeps | apply on_media_keeps
                | apply exn_keeps_bind; [| intros ?]
                | apply exn_keeps_ret | apply exn_keeps_lift | apply exn_keeps_throw
                | match goal with |- exn_keeps _ (if ?b then _ else _) => destruct b end
                | match goal with |- exn_keeps _ (match ?x with _ => _ end) => destruct x end ]);
  eauto with gs.

(** ** Every handler keeps the collection well formed *)

Section invariant.
  Context `{!ProductSchema} `{MediaHost M} (json_parse : string → jres jval).

Lemma upload_if_any_keeps ord fs : exn_keeps wf_server (upload_if_any (M:=M) ord fs).
  Proof. unfold upload_if_any. handler_keeps. Qed.

  (** The well-formedness of the collection ([wf_db]) holds after every
      handler, whatever the request, the completion order of the uploads
      and the answers of the parser and the image host. *)
Theorem handlers_keep_wf ord req :
    exn_keeps wf_server (addProduct json_parse ord req) ∧
    exn_keeps wf_server (productList (M:=M) req) ∧
    exn_keeps wf_server (productById (M:=M) req) ∧
    exn_keeps wf_server (changeStock (M:=M) req) ∧
    exn_keeps wf_server (deleteProduct (M:=M) req) ∧
    exn_keeps wf_server (updateProduct json_parse ord req).
  Proof.
    split_and!;
      unfold addProduct, productList, productById, changeStock, deleteProduct, updateProduct;
      handler_keeps; apply upload_if_any_keeps.
  Qed.
End invariant.

(** ** The handlers, branch by branch *)

(** Unfold the monad and reduce a handler applied to a state, exposing the
    calls to the collection and the host as applications to the state's
    components. *)
Ltac run_exn :=
  unfold handle, log, exn_catch, exn_bind, exn_ret, exn_lift, exn_gets, exn_modify in *;
  repeat progress (cbv beta iota zeta; rewrite ?on_db_run, ?on_media_run;
                   cbn [fst snd negb db_of media logs update_arg files_arg set_prop]).

Section behaviour.
  Context `{!ProductSchema} `{MediaHost M} (json_parse : string → jres jval).
  Implicit Types s : server M.

Lemma server_eta s : mkServer (db_of s) (media s) (logs s) = s.
  Proof. by destruct s. Qed.

  (** C5: deleting an identifier that is well formed but not stored answers
      [success: true] and changes nothing. *)
Theorem deleteProduct_absent req s k :
    params req !! "id" = Some (render_oid k) → (k < oid_bound)%N → docs (db_of s) !! k = None →
    deleteProduct req s = (Ok (reply true "Product deleted successfully"), s).
  Proof.
    intros Hp Hk Hl. unfold deleteProduct, param_id. rewrite Hp. simpl default.
    rewrite truthy_render_oid. run_exn.
    rewrite find_by_id_and_delete_absent by done. run_exn. by rewrite server_eta.
  Qed.

  (** C6: a request without an identifier (or with an empty one) answers
      "Product ID is required" and changes nothing. *)
Theorem deleteProduct_no_id req s :
    params req !! "id" = None ∨ params req !! "id" = Some "" →
    deleteProduct req s = (Ok (reply false "Product ID is required"), s).
  Proof.
    unfold deleteProduct, handle, param_id. by intros [-> | ->].
  Qed.

  (** the list answers every stored document, in insertion order,
      with its [_id]. *)
Theorem productList_all req s :
    productList req s =
      (Ok (<["success" := JBool true]>
             (<["products" := JArr ((λ kd, JObj (with_id kd.1 kd.2)) <$> abs (db_of s))]> ∅)), s).
  Proof.
    unfold productList. run_exn. rewrite find_all_abs. run_exn.
    rewrite server_eta. by rewrite <- list_fmap_compose.
  Qed.

  (** the single-product request answers the stored document of the
      identifier, or [null] when nothing is stored under it. *)
Theorem productById_lookup req s k :
    get_prop (body req) "id" = JStr (render_oid k) → (k < oid_bound)%N →
    productById req s =
      (Ok (<["success" := JBool true]>
             (<["product" := default JNull (JObj ∘ with_id k <$> docs (db_of s) !! k)]> ∅)), s).
  Proof.
    intros Hid Hk. unfold productById, find_by_id. rewrite Hid. run_exn.
    rewrite cast_render_oid by done. run_exn.
    rewrite server_eta. simpl. by destruct (docs (db_of s) !! k).
  Qed.
End behaviour.

(** ** Adding a product *)

Section add.
  Context `{!ProductSchema} `{MediaHost M} (json_parse : string → jres jval).
  Implicit Types s : server M.

  (** A submission whose metadata parses, whose uploads succeed and whose
      document the schema accepts, as one step of the server. *)
Lemma addProduct_run_ok ord req s pd images urls m' :
    parse_arg json_parse (get_prop (body req) "productData") = Ok pd →
    files req = Some images →
    promise_all_upload ord images (media s) = (Ok urls, m') →
    spread pd !! "_id" = None →
    docs (db_of s) !! (next_oid (db_of s) `mod` oid_bound)%N = None →
    validate_doc (delete "_id" (<["image" := url_array urls]> (spread pd) ∪ schema_defaults)) = None →
    let k := (next_oid (db_of s) `mod` oid_bound)%N in
    let d := delete "_id" (<["image" := url_array urls]> (spread pd) ∪ schema_defaults) in
    addProduct json_parse ord req s =
      (Ok (reply true "Product Added"),
       mkServer (mkDb (<[k := d]> (docs (db_of s))) (order (db_of s) ++ [k]) (next_oid (db_of s) + 1)%N)
                m' (logs s)).
  Proof.
    intros Hparse Hfiles Hup Hid Hfree Hval k d.
    unfold addProduct. run_exn. rewrite Hparse. run_exn.
    rewrite Hfiles. cbn [files_arg]. run_exn. rewrite Hup. run_exn.
    rewrite create_fresh; [| by rewrite lookup_insert_ne | done | done]. by run_exn.
  Qed.

  (** The document [addProduct] stores: the image list is the new URLs,
      every other field but [_id] is the submitted one or the default. *)
Lemma added_doc_fields (pd : jval) urls :
    let d := delete "_id" (<["image" := url_array urls]> (spread pd) ∪ schema_defaults) in
    d !! "image" = Some (url_array urls) ∧
    ∀ p, p ≠ "image" → p ≠ "_id" → d !! p = (spread pd ∪ schema_defaults) !! p.
  Proof.
    split.
    - rewrite lookup_delete_ne by discriminate. rewrite lookup_union, lookup_insert_eq.
      by destruct (schema_defaults !! "image").
    - intros p Hp Hp'. rewrite lookup_delete_ne by done.
      by rewrite !lookup_union, lookup_insert_ne by done.
  Qed.

  (** C1: a submission whose metadata parses, whose uploads all succeed
      (in any completion order) and whose document the schema accepts is
      answered "Product Added" and appends exactly one document: the
      submitted fields, with the image list holding one URL per attached
      file, in file order: the [i]-th URL is the one the upload of the
      [i]-th file answered, whatever the order in which the uploads
      completed. *)
Theorem addProduct_success ord req s pd images urls m' :
    parse_arg json_parse (get_prop (body req) "productData") = Ok pd →
    files req = Some images →
    ord ≡ₚ seq 0 (length images) →
    promise_all_upload ord images (media s) = (Ok urls, m') →
    spread pd !! "_id" = None →
    docs (db_of s) !! (next_oid (db_of s) `mod` oid_bound)%N = None →
    validate_doc (delete "_id" (<["image" := url_array urls]> (spread pd) ∪ schema_defaults)) = None →
    wf_db (db_of s) →
    (addProduct json_parse ord req s).1 = Ok (reply true "Product Added") ∧
    ∃ k d, abs (db_of (addProduct json_parse ord req s).2) = abs (db_of s) ++ [(k, d)] ∧
           d !! "image" = Some (url_array urls) ∧ length urls = length images ∧
           (∀ i u, urls !! i = Some u ↔ (i, Ok u) ∈ upload_log images ord (media s)) ∧
           ∀ p, p ≠ "image" → p ≠ "_id" → d !! p = (spread pd ∪ schema_defaults) !! p.
  Proof.
    intros Hparse Hfiles Hperm Hup Hid Hfree Hval Hwf.
    rewrite (addProduct_run_ok ord req s pd images urls m') by done. cbn [fst snd db_of].
    destruct (added_doc_fields pd urls) as [Himg Hother].
    split; [done|]. eexists _, _. split_and!; [by apply abs_insert_fresh|exact Himg| | |exact Hother].
    - by eapply upload_batch_length.
    - by eapply upload_batch_file_order.
  Qed.

  (** C2: a submission that fails anywhere (metadata, files, uploads,
      validation, identifier) stores nothing. *)
Theorem addProduct_failure_stores_nothing ord req s :
    (addProduct json_parse ord req s).1 ≠ Ok (reply true "Product Added") →
    docs (db_of (addProduct json_parse ord req s).2) = docs (db_of s) ∧
    order (db_of (addProduct json_parse ord req s).2) = order (db_of s).
  Proof.
    unfold addProduct. run_exn.
    destruct (parse_arg json_parse _) as [pd|e]; run_exn; [|done].
    destruct (files_arg (files req)) as [images|e]; run_exn; [|done].
    destruct (promise_all_upload ord images (media s)) as [[urls|e] m']; run_exn; [|done].
    destruct (create (<["image" := url_array urls]> (spread pd)) (db_of s)) as [[d|e] db'] eqn:Ec;
      run_exn; [done|].
    intros _. by apply create_err_abs in Ec.
  Qed.

  (** C8: when an upload of the batch fails, the submission is answered
      with the message of the first upload to fail (in completion order)
      and logged, nothing is stored, and every upload that succeeded stays
      on the image host (no clean-up).  This holds for every host and
      every completion order. *)
Theorem addProduct_upload_failure ord req s pd images e m' :
    parse_arg json_parse (get_prop (body req) "productData") = Ok pd →
    files req = Some images →
    promise_all_upload ord images (media s) = (Err e, m') →
    addProduct json_parse ord req s =
      (Ok (reply false (message e)), mkServer (db_of s) m' (logs s ++ [message e])) ∧
    (∃ l1 i l2, upload_log images ord (media s) = l1 ++ (i, Err e) :: l2 ∧
                Forall (λ a, is_ok a.2 = true) l1) ∧
    hosted m' = rev (log_urls (upload_log images ord (media s))) ++ hosted (media s).
  Proof.
    intros Hparse Hfiles Hup. split_and!.
    - unfold addProduct. run_exn. rewrite Hparse. run_exn. rewrite Hfiles. cbn [files_arg].
      run_exn. rewrite Hup. by run_exn.
    - by eapply upload_batch_first_error.
    - by eapply upload_batch_hosted.
  Qed.
End add.

(** ** Updating a product and its stock *)

Section update.
  Context `{!ProductSchema} `{MediaHost M} (json_parse : string → jres jval).
  Implicit Types s : server M.

  (** An update without attached images keeps every property its payload
      does not name. *)
Lemma updateProduct_untouched ord req s o p :
    product_data json_parse req = Ok (JObj o) → o !! p = None →
    files req = None ∨ files req = Some [] →
    keeps_prop p (db_of s) (db_of (updateProduct json_parse ord req s).2).
  Proof.
    intros Hpd Hp Hf. unfold updateProduct, upload_if_any. run_exn. rewrite Hpd. run_exn.
    pose proof (find_by_id_and_update_untouched (param_id req) o true true (db_of s) p Hp) as Hu.
    destruct Hf as [-> | ->]; run_exn; [|rewrite decide_False by (simpl; lia); run_exn];
      rewrite decide_False by (simpl; lia); run_exn;
      destruct (find_by_id_and_update (param_id req) o true true (db_of s)) as [r db'];
      destruct r as [[q|]|e]; run_exn; exact Hu.
  Qed.

  (** A stock change keeps every property but [inStock]. *)
Lemma changeStock_untouched req s p :
    p ≠ "inStock" → keeps_prop p (db_of s) (db_of (changeStock req s).2).
  Proof.
    intros Hp. unfold changeStock. run_exn.
    pose proof (find_by_id_and_update_untouched (get_prop (body req) "id")
                  (<["inStock" := get_prop (body req) "inStock"]> ∅) false false (db_of s) p
                  ltac:(by rewrite lookup_insert_ne)) as Hu.
    destruct (find_by_id_and_update _ _ _ _ (db_of s)) as [[r|e] db']; run_exn; exact Hu.
  Qed.

Lemma deleteProduct_untouched req s p :
    keeps_prop p (db_of s) (db_of (deleteProduct req s).2).
  Proof.
    unfold deleteProduct. destruct (negb (truthy (param_id req))); run_exn; [apply keeps_prop_refl|].
    pose proof (find_by_id_and_delete_untouched (param_id req) (db_of s) p) as Hu.
    destruct (find_by_id_and_delete _ (db_of s)) as [[r|e] db']; run_exn; exact Hu.
  Qed.

  (** C3: an update without attached images whose payload names no
      [image] keeps the image list of every stored document, and stores no
      new document. *)
Theorem updateProduct_keeps_images ord req s o :
    product_data json_parse req = Ok (JObj o) → o !! "image" = None →
    files req = None ∨ files req = Some [] →
    ∀ k d', docs (db_of (updateProduct json_parse ord req s).2) !! k = Some d' →
    ∃ d, docs (db_of s) !! k = Some d ∧ d' !! "image" = d !! "image".
  Proof.
    intros Hpd Himg Hf. exact (updateProduct_untouched ord req s o "image" Hpd Himg Hf).
  Qed.

Lemma strip_delete_insert_image (o : obj) urls :
    strip_undefined (delete "_id" (<["image" := url_array urls]> o)) !! "image" = Some (url_array urls).
  Proof.
    apply map_lookup_filter_Some. rewrite lookup_delete_ne by discriminate.
    by rewrite lookup_insert_eq.
  Qed.

  (** C4: an update of a stored product with attached images, whose
      uploads all succeed (in any completion order) and whose update the
      validators accept, replaces the stored image list by the new URLs,
      one per file in file order (the [i]-th URL is the one the upload of
      the [i]-th file answered): nothing of the old list is kept. *)
Theorem updateProduct_replaces_images ord req s o images urls m' k d :
    product_data json_parse req = Ok (JObj o) →
    files req = Some images → 0 < length images → ord ≡ₚ seq 0 (length images) →
    promise_all_upload ord images (media s) = (Ok urls, m') →
    params req !! "id" = Some (render_oid k) → (k < oid_bound)%N →
    docs (db_of s) !! k = Some d →
    validate_update (strip_undefined (delete "_id" (<["image" := url_array urls]> o))) = None →
    let u := strip_undefined (delete "_id" (<["image" := url_array urls]> o)) in
    (updateProduct json_parse ord req s).1 =
      Ok (<["product" := JObj (with_id k (u ∪ d))]> (reply true "Product updated successfully")) ∧
    docs (db_of (updateProduct json_parse ord req s).2) !! k = Some (u ∪ d) ∧
    (u ∪ d) !! "image" = Some (url_array urls) ∧ length urls = length images ∧
    ∀ i v, urls !! i = Some v ↔ (i, Ok v) ∈ upload_log images ord (media s).
  Proof.
    intros Hpd Hf Hn Hperm Hup Hid Hk Hd Hv u.
    pose proof (upload_batch_length ord images (media s) urls m' Hperm Hup) as Hlen.
    pose proof (upload_batch_file_order ord images (media s) urls m' Hperm Hup) as Hord.
    unfold updateProduct, upload_if_any. run_exn. rewrite Hpd. run_exn.
    rewrite Hf. rewrite decide_True by done. run_exn. rewrite Hup. run_exn.
    rewrite decide_True by lia. run_exn.
    unfold param_id. rewrite Hid. simpl default.
    rewrite (find_by_id_and_update_hit k d (<["image" := url_array urls]> o) true true) by done.
    run_exn. split_and!; [done|by simpl; rewrite lookup_insert_eq| |done|done].
    rewrite lookup_union. unfold u. rewrite strip_delete_insert_image.
    by destruct (d !! "image").
  Qed.

  (** C10: an update whose image upload fails answers the failure's
      message, logs it with the prefix "Update error: ", and changes no
      document: the stored product keeps its old data and images, while
      the uploads that succeeded stay on the host. *)
Theorem updateProduct_upload_failure ord req s o images e m' :
    product_data json_parse req = Ok (JObj o) →
    files req = Some images → 0 < length images →
    promise_all_upload ord images (media s) = (Err e, m') →
    updateProduct json_parse ord req s =
      (Ok (reply false (message e)), mkServer (db_of s) m' (logs s ++ [("Update error: " ++ message e)%string])).
  Proof.
    intros Hpd Hf Hn Hup. unfold updateProduct, upload_if_any. run_exn.
    rewrite Hpd. run_exn. rewrite Hf, decide_True by done. run_exn. rewrite Hup. by run_exn.
  Qed.

  (** The uploads of [updateProduct] touch only the image host. *)
Lemma upload_if_any_server ord fs s r s1 :
    upload_if_any ord fs s = (r, s1) → db_of s1 = db_of s ∧ logs s1 = logs s.
  Proof.
    unfold upload_if_any. destruct fs as [images|]; [case_decide|]; run_exn; [|by intros [= _ <-]..].
    destruct (promise_all_upload ord images (media s)). by intros [= _ <-].
  Qed.

  (** C9: an update of an identifier that is not stored answers "Product
      not found" and leaves the collection and the log as they were; the
      attached images, uploaded before the lookup, stay on the image host:
      the state after the call is the state after the uploads. *)
Theorem updateProduct_not_found ord req s o k urls s1 :
    product_data json_parse req = Ok (JObj o) →
    upload_if_any ord (files req) s = (Ok urls, s1) →
    params req !! "id" = Some (render_oid k) → (k < oid_bound)%N →
    docs (db_of s) !! k = None →
    validate_update (strip_undefined (delete "_id"
      (if decide (0 < length urls) then <["image" := url_array urls]> o else o))) = None →
    updateProduct json_parse ord req s = (Ok (reply false "Product not found"), s1) ∧
    db_of s1 = db_of s ∧ logs s1 = logs s.
  Proof.
    intros Hpd Hup Hid Hk Hd Hv. destruct (upload_if_any_server ord (files req) s _ s1 Hup) as [Hdb Hlog].
    split; [|done]. unfold updateProduct. run_exn.
    rewrite Hpd. run_exn. rewrite Hup. run_exn. unfold param_id. rewrite Hid. simpl default.
    case_decide; run_exn; rewrite Hdb, find_by_id_and_update_miss by done; run_exn;
      by rewrite <- Hdb, server_eta.
  Qed.
  (** Toggling the stock of an identifier that is not stored answers
      "Stock Updated" and changes nothing. *)
Theorem changeStock_absent req s k :
    get_prop (body req) "id" = JStr (render_oid k) → (k < oid_bound)%N →
    docs (db_of s) !! k = None →
    changeStock req s = (Ok (reply true "Stock Updated"), s).
  Proof.
    intros Hid Hk Hd. unfold changeStock. rewrite Hid. run_exn.
    rewrite find_by_id_and_update_miss by done. run_exn. by rewrite server_eta.
  Qed.
  (** A stock change of a stored document. *)
Lemma changeStock_hit req s k d :
    get_prop (body req) "id" = JStr (render_oid k) → (k < oid_bound)%N →
    docs (db_of s) !! k = Some d →
    let u := strip_undefined (delete "_id" (<["inStock" := get_prop (body req) "inStock"]> ∅)) in
    changeStock req s =
      (Ok (reply true "Stock Updated"),
       mkServer (mkDb (<[k := u ∪ d]> (docs (db_of s))) (order (db_of s)) (next_oid (db_of s)))
                (media s) (logs s)).
  Proof.
    intros Hid Hk Hd u. unfold changeStock. rewrite Hid. run_exn.
    rewrite (find_by_id_and_update_hit k d _ false false) by done. by run_exn.
  Qed.

Lemma strip_single_prop (p : string) (v : jval) :
    p ≠ "_id" → is_undefined v = false →
    strip_undefined (delete "_id" (<[p := v]> ∅)) = <[p := v]> ∅.
  Proof.
    intros Hp Hv. unfold strip_undefined.
    rewrite delete_insert_ne, delete_empty by done.
    rewrite map_filter_insert_True by done. by rewrite map_filter_empty.
  Qed.

  (** C7: the stock checkbox's request on a stored product sets its
      [inStock] to the value sent and changes nothing else: the other
      properties of the document, the other documents, their order and the
      image host stay as they were, and the answer is "Stock Updated". *)
Theorem changeStock_sets_stock req s k d :
    get_prop (body req) "id" = JStr (render_oid k) → (k < oid_bound)%N →
    docs (db_of s) !! k = Some d → is_undefined (get_prop (body req) "inStock") = false →
    changeStock req s =
      (Ok (reply true "Stock Updated"),
       mkServer (mkDb (<[k := <["inStock" := get_prop (body req) "inStock"]> d]> (docs (db_of s)))
                      (order (db_of s)) (next_oid (db_of s)))
                (media s) (logs s)).
  Proof.
    intros Hid Hk Hd Hv. rewrite (changeStock_hit req s k d) by done. cbv zeta.
    rewrite strip_single_prop by done. by rewrite insert_empty, <- insert_union_singleton_l.
  Qed.

  (** An update without files of a stored document. *)
Lemma updateProduct_hit ord req s o k d :
    product_data json_parse req = Ok (JObj o) → files req = None →
    params req !! "id" = Some (render_oid k) → (k < oid_bound)%N →
    docs (db_of s) !! k = Some d →
    validate_update (strip_undefined (delete "_id" o)) = None →
    let u := strip_undefined (delete "_id" o) in
    updateProduct json_parse ord req s =
      (Ok (<["product" := JObj (with_id k (u ∪ d))]> (reply true "Product updated successfully")),
       mkServer (mkDb (<[k := u ∪ d]> (docs (db_of s))) (order (db_of s)) (next_oid (db_of s)))
                (media s) (logs s)).
  Proof.
    intros Hpd Hf Hid Hk Hd Hv u. unfold updateProduct, upload_if_any. run_exn.
    rewrite Hpd. run_exn. rewrite Hf. run_exn. rewrite decide_False by (simpl; lia). run_exn.
    unfold param_id. rewrite Hid. simpl default.
    rewrite (find_by_id_and_update_hit k d o true true) by done. by run_exn.
  Qed.

  (** The deletion of a stored document. *)
Lemma deleteProduct_hit req s k d :
    params req !! "id" = Some (render_oid k) → (k < oid_bound)%N →
    docs (db_of s) !! k = Some d →
    deleteProduct req s =
      (Ok (reply true "Product deleted successfully"),
       mkServer (mkDb (delete k (docs (db_of s))) (filter (λ k', k' ≠ k) (order (db_of s)))
                      (next_oid (db_of s))) (media s) (logs s)).
  Proof.
    intros Hp Hk Hd. unfold deleteProduct, param_id. rewrite Hp. simpl default.
    rewrite truthy_render_oid. run_exn.
    unfold find_by_id_and_delete, exn_bind, exn_lift. rewrite cast_render_oid by done.
    simpl. unfold delete_doc. rewrite Hd. by run_exn.
  Qed.
End update.

(** ** Witnesses

    The examples run the handlers with the example schema, the demo image
    host and a parser that knows two payloads. *)

Definition demo_form : obj :=
  <["name" := JStr "Milk"]> (<["description" := JArr [JStr "Fresh"; JStr "1 litre"]]>
  (<["category" := JStr "Dairy"]> (<["price" := JStr "50"]> (<["offerPrice" := JStr "45"]>
  (<["quantity" := JStr "10"]> (<["barcode" := JStr ""]> ∅)))))).

Definition demo_edit : obj :=
  <["name" := JStr "Milk 1L"]> (<["category" := JStr "Dairy"]>
  (<["offerPrice" := JStr "42"]> (<["quantity" := JStr "8"]> ∅))).

(** A stand-in for [JSON.parse] on the two payloads of the examples. *)
Definition demo_parse (s : string) : jres jval :=
  if String.eqb s "milk-form" then Ok (JObj demo_form)
  else if String.eqb s "milk-edit" then Ok (JObj demo_edit)
  else Err (SyntaxError ("Unexpected token in JSON: " ++ s)%string).

Definition req_add : request := mkReq (<["productData" := JStr "milk-form"]> ∅) ∅ (Some demo_files).
Definition req_add_broken : request :=
  mkReq (<["productData" := JStr "milk-form"]> ∅) ∅ (Some demo_files_broken).
Definition req_add_no_data : request := mkReq ∅ ∅ (Some demo_files).
Definition req_edit : request := mkReq demo_edit (<["id" := render_oid 0]> ∅) None.
Definition req_edit_images : request :=
  mkReq (<["productData" := JStr "milk-edit"]> ∅) (<["id" := render_oid 0]> ∅) (Some demo_files).
Definition req_delete (k : N) : request := mkReq ∅ (<["id" := render_oid k]> ∅) None.
Definition req_no_id : request := mkReq ∅ ∅ None.
Definition req_stock (k : N) (b : bool) : request :=
  mkReq (<["id" := JStr (render_oid k)]> (<["inStock" := JBool b]> ∅)) ∅ None.
Definition req_by_id (k : N) : request := mkReq (<["id" := JStr (render_oid k)]> ∅) ∅ None.

Definition demo_server0 : server (list string) := mkServer empty_db [] [].
Definition demo_server1 : server (list string) :=
  Eval vm_compute in (addProduct demo_parse [1; 0] req_add demo_server0).2.
Definition demo_stored : obj :=
  Eval vm_compute in default ∅ (docs (db_of demo_server1) !! 0%N).

(** The scenario of the spec: one product with its images is added. *)
Lemma addProduct_success_witness :
  (addProduct demo_parse [1; 0] req_add demo_server0).1 = Ok (reply true "Product Added") ∧
  ∃ k d, abs (db_of (addProduct demo_parse [1; 0] req_add demo_server0).2) =
           abs (db_of demo_server0) ++ [(k, d)] ∧
         d !! "image" = Some (url_array [front_url; back_url]) ∧
         length [front_url; back_url] = length demo_files ∧
         (∀ i u, [front_url; back_url] !! i = Some u ↔
                 (i, Ok u) ∈ upload_log demo_files [1; 0] (media demo_server0)) ∧
         ∀ p, p ≠ "image" → p ≠ "_id" → d !! p = (spread (JObj demo_form) ∪ schema_defaults) !! p.
Proof.
  apply (addProduct_success demo_parse [1; 0] req_add demo_server0 (JObj demo_form) demo_files
           [front_url; back_url] [front_url; back_url]);
    [vm_compute; reflexivity | reflexivity | decide_vm | vm_compute; reflexivity
    | vm_compute; reflexivity | vm_compute; reflexivity | vm_compute; reflexivity | apply wf_db_empty].
Defined.

Lemma addProduct_failure_stores_nothing_witness :
  docs (db_of (addProduct demo_parse [0; 1] req_add_no_data demo_server0).2) = docs (db_of demo_server0) ∧
  order (db_of (addProduct demo_parse [0; 1] req_add_no_data demo_server0).2) = order (db_of demo_server0).
Proof.
  apply addProduct_failure_stores_nothing. vm_compute. intros Habs. discriminate Habs.
Defined.

Definition demo_edited : obj :=
  Eval vm_compute in
    default ∅ (docs (db_of (updateProduct demo_parse [] req_edit demo_server1).2) !! 0%N).

Lemma updateProduct_keeps_images_witness :
  docs (db_of (updateProduct demo_parse [] req_edit demo_server1).2) !! 0%N = Some demo_edited ∧
  ∃ d, docs (db_of demo_server1) !! 0%N = Some d ∧ demo_edited !! "image" = d !! "image".
Proof.
  assert (H : docs (db_of (updateProduct demo_parse [] req_edit demo_server1).2) !! 0%N = Some demo_edited)
    by (vm_compute; reflexivity).
  split; [exact H|].
  apply (updateProduct_keeps_images demo_parse [] req_edit demo_server1 demo_edit);
    [vm_compute; reflexivity | vm_compute; reflexivity | left; reflexivity | exact H].
Defined.

Lemma updateProduct_replaces_images_witness :
  let u := strip_undefined (delete "_id" (<["image" := url_array [front_url; back_url]]> demo_edit)) in
  (updateProduct demo_parse [0; 1] req_edit_images demo_server1).1 =
    Ok (<["product" := JObj (with_id 0 (u ∪ demo_stored))]> (reply true "Product updated successfully")) ∧
  docs (db_of (updateProduct demo_parse [0; 1] req_edit_images demo_server1).2) !! 0%N = Some (u ∪ demo_stored) ∧
  (u ∪ demo_stored) !! "image" = Some (url_array [front_url; back_url]) ∧
  length [front_url; back_url] = length demo_files ∧
  ∀ i v, [front_url; back_url] !! i = Some v ↔ (i, Ok v) ∈ upload_log demo_files [0; 1] (media demo_server1).
Proof.
  apply (updateProduct_replaces_images demo_parse [0; 1] req_edit_images demo_server1 demo_edit demo_files
           [front_url; back_url] [back_url; front_url; front_url; back_url] 0 demo_stored);
    [vm_compute; reflexivity | reflexivity | simpl; lia | decide_vm | vm_compute; reflexivity
    | vm_compute; reflexivity | vm_compute; reflexivity | vm_compute; reflexivity | reflexivity].
Defined.

Lemma deleteProduct_absent_witness :
  deleteProduct (req_delete 7) demo_server1 = (Ok (reply true "Product deleted successfully"), demo_server1).
Proof.
  apply (deleteProduct_absent (req_delete 7) demo_server1 7); [reflexivity | vm_compute; reflexivity | vm_compute; reflexivity].
Defined.

Lemma deleteProduct_no_id_witness :
  deleteProduct req_no_id demo_server1 = (Ok (reply false "Product ID is required"), demo_server1).
Proof. apply deleteProduct_no_id. left. reflexivity. Defined.

(** The back image fails after the front one was uploaded. *)
Lemma addProduct_upload_failure_witness :
  addProduct demo_parse [0; 1] req_add_broken demo_server0 =
    (Ok (reply false "Invalid image file"),
     mkServer (db_of demo_server0) [front_url] (logs demo_server0 ++ ["Invalid image file"])) ∧
  (∃ l1 i l2, upload_log demo_files_broken [0; 1] (media demo_server0) =
                l1 ++ (i, Err (UploadError "Invalid image file")) :: l2 ∧
              Forall (λ a, is_ok a.2 = true) l1) ∧
  hosted (M := list string) [front_url] =
    rev (log_urls (upload_log demo_files_broken [0; 1] (media demo_server0))) ++ hosted (media demo_server0).
Proof.
  apply (addProduct_upload_failure demo_parse [0; 1] req_add_broken demo_server0
           (JObj demo_form) demo_files_broken (UploadError "Invalid image file") [front_url]);
    [vm_compute; reflexivity | reflexivity | vm_compute; reflexivity].
Defined.

Definition req_edit_gone : request :=
  mkReq (<["productData" := JStr "milk-edit"]> ∅) (<["id" := render_oid 5]> ∅) (Some demo_files).

(** Two images attached to an update of an identifier nothing is stored
    under: they are uploaded, and stay. *)
Lemma updateProduct_not_found_witness :
  let s1 := mkServer (db_of demo_server1) ([front_url; back_url] ++ media demo_server1) (logs demo_server1) in
  updateProduct demo_parse [1; 0] req_edit_gone demo_server1 = (Ok (reply false "Product not found"), s1) ∧
  db_of s1 = db_of demo_server1 ∧ logs s1 = logs demo_server1.
Proof.
  cbv zeta. apply (updateProduct_not_found demo_parse [1; 0] req_edit_gone demo_server1 demo_edit 5
           [front_url; back_url]);
    [vm_compute; reflexivity | vm_compute; reflexivity | reflexivity | vm_compute; reflexivity
    | vm_compute; reflexivity | reflexivity].
Defined.

Definition req_edit_broken : request :=
  mkReq (<["productData" := JStr "milk-edit"]> ∅) (<["id" := render_oid 0]> ∅) (Some demo_files_broken).

Lemma updateProduct_upload_failure_witness :
  updateProduct demo_parse [0; 1] req_edit_broken demo_server1 =
    (Ok (reply false "Invalid image file"),
     mkServer (db_of demo_server1) (front_url :: media demo_server1)
              (logs demo_server1 ++ ["Update error: Invalid image file"])).
Proof.
  apply (updateProduct_upload_failure demo_parse [0; 1] req_edit_broken demo_server1 demo_edit
           demo_files_broken (UploadError "Invalid image file"));
    [vm_compute; reflexivity | reflexivity | simpl; lia | vm_compute; reflexivity].
Defined.

Lemma changeStock_sets_stock_witness :
  changeStock (req_stock 0 false) demo_server1 =
    (Ok (reply true "Stock Updated"),
     mkServer (mkDb (<[0%N := <["inStock" := JBool false]> demo_stored]> (docs (db_of demo_server1)))
                    (order (db_of demo_server1)) (next_oid (db_of demo_server1)))
              (media demo_server1) (logs demo_server1)).
Proof.
  apply (changeStock_sets_stock (req_stock 0 false) demo_server1 0 demo_stored);
    [reflexivity | vm_compute; reflexivity | vm_compute; reflexivity | reflexivity].
Defined.

Lemma changeStock_absent_witness :
  changeStock (req_stock 3 false) demo_server1 = (Ok (reply true "Stock Updated"), demo_server1).
Proof.
  apply (changeStock_absent (req_stock 3 false) demo_server1 3);
    [reflexivity | vm_compute; reflexivity | vm_compute; reflexivity].
Defined.

Lemma productById_lookup_witness :
  productById (req_by_id 0) demo_server1 =
    (Ok (<["success" := JBool true]>
           (<["product" := default JNull (JObj ∘ with_id 0 <$> docs (db_of demo_server1) !! 0%N)]> ∅)),
     demo_server1).
Proof. apply (productById_lookup (req_by_id 0) demo_server1 0); [reflexivity | vm_compute; reflexivity]. Defined.
