(* ===== verification/Client.v ===== *)
(** * The browser side of the client pages

    A page of the seller dashboard runs in the browser next to the server:
    its [world] pairs the server's state ([Controller.server]) with the
    page's own state [P] (its React state and what it has shown).  A page
    handler runs in the exception-state monad over the world; [on_srv] lifts
    what a request does on the server, [on_ui] a React state update. *)

From S2P Require Import Prelude JsValue Store Upload Controller.

Record world (M P : Type) := mkWorld {
  srv : server M;
  ui : P
}.
Arguments mkWorld {M P} _ _.
Arguments srv {M P} _.
Arguments ui {M P} _.

Section client.
  Context {M P : Type}.
  Implicit Types w : world M P.

Definition on_srv {A} (c : exn (server M) js_error A) : exn (world M P) js_error A := λ w,
    let (r, s) := c (srv w) in (r, mkWorld s (ui w)).

Definition on_ui (f : P → P) : exn (world M P) js_error unit :=
    exn_modify (λ w, mkWorld (srv w) (f (ui w))).

Definition ui_gets {A} (f : P → A) : exn (world M P) js_error A := exn_gets (λ w, f (ui w)).

Lemma on_srv_run {A} (c : exn (server M) js_error A) w :
    on_srv c w = ((c (srv w)).1, mkWorld (c (srv w)).2 (ui w)).
  Proof. unfold on_srv. by destruct (c (srv w)). Qed.

Lemma world_eta w : mkWorld (srv w) (ui w) = w.
  Proof. by destruct w. Qed.

  (** A request keeps every property of the page. *)
Lemma on_srv_keeps_ui {A} (Q : P → Prop) (c : exn (server M) js_error A) :
    exn_keeps (λ w, Q (ui w)) (on_srv c).
  Proof. intros w Hw. by rewrite on_srv_run. Qed.

Lemma on_ui_keeps (Q : P → Prop) f : (∀ p, Q p → Q (f p)) → exn_keeps (λ w, Q (ui w)) (on_ui f).
  Proof. intros Hf w Hw. simpl. by apply Hf. Qed.
End client.
