(* ===== verification/ProductList.v ===== *)
(** * The seller's product list page

    [src/client/src/pages/seller/ProductList.jsx] together with the parts of
    the system it talks to.  The page's state is its three [useState] hooks
    ([isEditing], [selectedProduct], [editData]), the [products] array of
    the application context and the toasts shown so far.  A [Client.world] pairs
    it with the server's state of [Controller].  The page's handlers
    ([toggleStock], [deleteProduct], [updateProduct]) send requests through
    axios and the Express router to the controller's handlers and refetch
    the collection on success; the row buttons, the checkbox and the edit
    modal's inputs are the page's UI events ([ui_event]), and [dispatch]
    runs the handler React would run for each of them.  Rendering (the
    table rows and the modal's inputs) is [render_rows] and [render_modal].

    Each event runs to completion before the next one: the response of a
    request, and of the refetch the handler starts, arrive before the user
    acts again. *)

From S2P Require Import Prelude JsValue ObjectId Store Upload Controller Client.

Module ListPage.

Inductive toast : Type :=
| ToastSuccess (msg : jval)
| ToastError (msg : jval).

Record page := mkPage {
  products : jval;
  isEditing : bool;
  selectedProduct : jval;
  editData : obj;
  toasts : list toast
}.

(** The four properties the edit modal shows and sends. *)
Definition edit_fields : list string := ["name"; "category"; "offerPrice"; "quantity"].

(** [useState({name: '', category: '', offerPrice: '', quantity: ''})] *)
Definition blank_edit : obj := list_to_map ((λ f, (f, JStr "")) <$> edit_fields).

(** The page when it mounts; the context's [products] starts as [[]]. *)
Definition initial_page : page := mkPage (JArr []) false JNull blank_edit [].

Definition set_products (v : jval) (p : page) : page :=
  mkPage v (isEditing p) (selectedProduct p) (editData p) (toasts p).
Definition set_editing (b : bool) (p : page) : page :=
  mkPage (products p) b (selectedProduct p) (editData p) (toasts p).
Definition set_selected (v : jval) (p : page) : page :=
  mkPage (products p) (isEditing p) v (editData p) (toasts p).
Definition set_edit_data (e : obj) (p : page) : page :=
  mkPage (products p) (isEditing p) (selectedProduct p) e (toasts p).
Definition push_toast (t : toast) (p : page) : page :=
  mkPage (products p) (isEditing p) (selectedProduct p) (editData p) (toasts p ++ [t]).


(** The requests the page sends: [GET /api/product/list],
    [POST /api/product/stock], [DELETE /api/product/delete/${id}] and
    [PUT /api/product/update/${id}]. *)
Inductive route : Type :=
| RList
| RStock
| RDelete (id : string)
| RUpdate (id : string).

(** The answer to a URL whose [:id] segment is empty. *)
Definition not_found : js_error := AxiosError "Request failed with status code 404".

(** The UI events of the page: the checkbox, edit and delete buttons of a
    row, the modal's four inputs, and its two buttons. *)
Inductive field : Type := FName | FCategory | FOfferPrice | FQuantity.

Definition field_key (f : field) : string :=
  match f with
  | FName => "name"
  | FCategory => "category"
  | FOfferPrice => "offerPrice"
  | FQuantity => "quantity"
  end.

Inductive ui_event : Type :=
| ToggleRow (i : nat)
| EditRow (i : nat)
| DeleteRow (i : nat)
| Input (f : field) (v : string)
| Cancel
| Save.

(** [products[i]], the product of row [i]. *)
Definition row (p : page) (i : nat) : option jval :=
  match products p with
  | JArr vs => vs !! i
  | _ => None
  end.

Section page_model.
  Context `{!ProductSchema} `{MediaHost M}.
  Variable json_parse : string → jres jval.
  Local Open Scope exn_scope.

  (** The Express router of [/api/product] (outside [src/]; from the spec's
      API table).  A body goes through [JSON.stringify] and
      [express.json()]; a path parameter is the URL segment, and an empty
      one matches no route. *)
Definition route_request (r : route) (data : obj) : exn (server M) js_error obj :=
    match r with
    | RList => productList (mkReq ∅ ∅ None)
    | RStock => changeStock (mkReq (wire data) ∅ None)
    | RDelete id =>
        if bool_decide (id = "") then exn_throw not_found
        else deleteProduct (mkReq ∅ {[ "id" := id ]} None)
    | RUpdate id =>
        if bool_decide (id = "") then exn_throw not_found
        else updateProduct json_parse [] (mkReq (wire data) {[ "id" := id ]} None)
    end.

  (** [const { data } = await axios.<method>(url, data)] *)
Definition send (r : route) (data : obj) : exn (world M page) js_error obj :=
    on_srv (route_request r data).

  (** [catch (error) { toast.error(error.message) }] *)
Definition client_catch (c : exn (world M page) js_error unit) : exn (world M page) js_error unit :=
    exn_catch c (λ e, on_ui (push_toast (ToastError (JStr (message e))))).

  (** [fetchProducts] of the application context (outside [src/]; from the
      spec): the list request, whose [products] replace the page's. *)
Definition fetchProducts : exn (world M page) js_error unit :=
    client_catch (
      data <- send RList ∅ ;;
      if truthy (get_prop data "success")
      then on_ui (set_products (get_prop data "products"))
      else on_ui (push_toast (ToastError (get_prop data "message")))).

  (** [toggleStock(id, inStock)] *)
Definition toggleStock (id inStock : jval) : exn (world M page) js_error unit :=
    client_catch (
      data <- send RStock (<["id" := id]> (<["inStock" := inStock]> ∅)) ;;
      if truthy (get_prop data "success")
      then fetchProducts ;;; on_ui (push_toast (ToastSuccess (get_prop data "message")))
      else on_ui (push_toast (ToastError (get_prop data "message")))).

  (** [deleteProduct(id)] *)
Definition deleteProduct (id : jval) : exn (world M page) js_error unit :=
    client_catch (
      data <- send (RDelete (to_js_string id)) ∅ ;;
      if truthy (get_prop data "success")
      then fetchProducts ;;; on_ui (push_toast (ToastSuccess (get_prop data "message")))
      else on_ui (push_toast (ToastError (get_prop data "message")))).

  (** [updateProduct()]: the modal's [editData] to
      [/api/product/update/${selectedProduct._id}]. *)
Definition updateProduct : exn (world M page) js_error unit :=
    client_catch (
      sel <- ui_gets selectedProduct ;;
      id <- exn_lift (read_prop sel "_id") ;;
      ed <- ui_gets editData ;;
      data <- send (RUpdate (to_js_string id)) ed ;;
      if truthy (get_prop data "success")
      then on_ui (push_toast (ToastSuccess (JStr "Product updated successfully!"))) ;;;
           fetchProducts ;;;
           on_ui (set_editing false)
      else on_ui (push_toast (ToastError (get_prop data "message")))).

  (** The checkbox: [() => toggleStock(product._id, !product.inStock)] *)
Definition onToggle (product : jval) : exn (world M page) js_error unit :=
    id <- exn_lift (read_prop product "_id") ;;
    st <- exn_lift (read_prop product "inStock") ;;
    toggleStock id (JBool (negb (truthy st))).

  (** [{name: product.name, category: product.category,
        offerPrice: product.offerPrice, quantity: product.quantity}] *)
Definition snapshot (product : jval) : jres obj :=
    name ← read_prop product "name";
    category ← read_prop product "category";
    offerPrice ← read_prop product "offerPrice";
    quantity ← read_prop product "quantity";
    mret (<["name" := name]> (<["category" := category]>
            (<["offerPrice" := offerPrice]> (<["quantity" := quantity]> ∅)))).

  (** The edit button: select the product, snapshot four of its fields,
      open the modal. *)
Definition onEdit (product : jval) : exn (world M page) js_error unit :=
    on_ui (set_selected product) ;;;
    ed <- exn_lift (snapshot product) ;;
    on_ui (set_edit_data ed) ;;;
    on_ui (set_editing true).

  (** The delete button: [() => deleteProduct(product._id)] *)
Definition onDelete (product : jval) : exn (world M page) js_error unit :=
    id <- exn_lift (read_prop product "_id") ;;
    deleteProduct id.

  (** A modal input: [setEditData({ ...editData, [f]: e.target.value })] *)
Definition onInput (f : field) (v : string) : exn (world M page) js_error unit :=
    on_ui (λ p, set_edit_data (<[field_key f := JStr v]> (editData p)) p).

  (** The cancel button: [() => setIsEditing(false)] *)
Definition onCancel : exn (world M page) js_error unit := on_ui (set_editing false).

  (** A row's control exists when the row does. *)
Definition on_row (i : nat) (h : jval → exn (world M page) js_error unit) : exn (world M page) js_error unit :=
    λ w, match row (ui w) i with Some p => h p w | None => (Ok tt, w) end.

  (** The modal's controls exist while [isEditing]. *)
Definition in_modal (c : exn (world M page) js_error unit) : exn (world M page) js_error unit :=
    λ w, if isEditing (ui w) then c w else (Ok tt, w).

Definition dispatch (ev : ui_event) : exn (world M page) js_error unit :=
    match ev with
    | ToggleRow i => on_row i onToggle
    | EditRow i => on_row i onEdit
    | DeleteRow i => on_row i onDelete
    | Input f v => in_modal (onInput f v)
    | Cancel => in_modal onCancel
    | Save => in_modal updateProduct
    end.

  (** A session: the events one after the other.  An exception a handler
      does not catch is reported by React and the page goes on. *)
Fixpoint run_events (evs : list ui_event) (w : world M page) : world M page :=
    match evs with
    | [] => w
    | ev :: evs' => run_events evs' (dispatch ev w).2
    end.
End page_model.

(** ** Rendering *)

(** One table row: the image, name, category, price (after the currency
    sign), the checkbox's [checked] and the stock left. *)
Record row_view := mkRow {
  cell_image : jval;
  cell_name : jval;
  cell_category : jval;
  cell_price : string * jval;
  cell_checked : bool;
  cell_stock : jval
}.

Definition render_row (currency : string) (product : jval) : jres row_view :=
  _ ← read_prop product "_id";
  im ← read_prop product "image";
  src ← read_index im 0;
  name ← read_prop product "name";
  category ← read_prop product "category";
  offerPrice ← read_prop product "offerPrice";
  inStock ← read_prop product "inStock";
  quantity ← read_prop product "quantity";
  mret (mkRow src name category (currency, offerPrice) (truthy inStock) quantity).

(** [products.map((product) => <tr ...>)] *)
Definition render_rows (currency : string) (p : page) : jres (list row_view) :=
  match products p with
  | JArr vs => mapM (render_row currency) vs
  | JUndefined => Err (TypeError "Cannot read properties of undefined (reading 'map')")
  | JNull => Err (TypeError "Cannot read properties of null (reading 'map')")
  | _ => Err (TypeError "products.map is not a function")
  end.

(** [{isEditing && (<div> ... </div>)}]: the values of the four inputs. *)
Definition render_modal (p : page) : option (list jval) :=
  if isEditing p then Some ((λ f, get_prop (editData p) f) <$> edit_fields) else None.

(** ** What the page's handlers do *)

Create HintDb page discriminated.

(** The list a refetch gives: every stored document with its [_id], in
    insertion order. *)
Definition listed (s : db) : jval := JArr ((λ kd, JObj (with_id kd.1 kd.2)) <$> abs s).

(** The page shows the collection as it is. *)
Definition fresh {M} (w : world M page) : Prop := products (ui w) = listed (db_of (srv w)).

(** The modal's data holds only the four fields it edits. *)
Definition edit_ok (e : obj) : Prop := map_Forall (λ f _, f ∈ edit_fields) e.

Lemma edit_ok_insert e k v : edit_ok e → k ∈ edit_fields → edit_ok (<[k := v]> e).
Proof. intros He Hk f x [[<- _]|[_ Hf]]%lookup_insert_Some; eauto. Qed.

(** The modal's data after the edit button of a row holding [d]. *)
Definition snap (d : obj) : obj :=
  <["name" := get_prop d "name"]> (<["category" := get_prop d "category"]>
    (<["offerPrice" := get_prop d "offerPrice"]> (<["quantity" := get_prop d "quantity"]> ∅))).

Lemma snap_ok d : edit_ok (snap d).
Proof.
  unfold snap. repeat apply edit_ok_insert; try set_solver.
  intros f v Hf. by rewrite lookup_empty in Hf.
Qed.

(** The snapshot, sent back unchanged, changes nothing of the product. *)
Lemma wire_snap_union d : wire (snap d) ∪ d = d.
Proof. unfold snap. repeat apply wire_copy_union. apply wire_empty_union. Qed.

Section relations.
  Context {M : Type}.
  Implicit Types w : world M page.

  (** A step that keeps the modal's data to its four fields and keeps every
      stored image list. *)
Definition img_rel w w' : Prop :=
    edit_ok (editData (ui w)) →
    edit_ok (editData (ui w')) ∧ keeps_prop "image" (db_of (srv w)) (db_of (srv w')).

#[export] Instance img_rel_preorder : PreOrder img_rel.
  Proof.
    split; [intros w Hok; split; [done|apply keeps_prop_refl]|].
    intros w1 w2 w3 H12 H23 Hok. destruct (H12 Hok) as [Hok2 K12].
    destruct (H23 Hok2) as [Hok3 K23]. split; [done|by eapply keeps_prop_trans].
  Qed.

End relations.



Lemma field_key_ok f : field_key f ∈ edit_fields.
Proof. destruct f; simpl; set_solver. Qed.

(** A property outside the four fields is absent from the modal's data,
    and from what the request carries of it. *)
Lemma wire_edit_None e k : edit_ok e → k ∉ edit_fields → wire e !! k = None.
Proof.
  intros He Hk. apply map_lookup_filter_None_2. left.
  destruct (e !! k) as [v|] eqn:E; [|done]. by apply He in E.
Qed.

Lemma snapshot_ok product ed : snapshot product = Ok ed → edit_ok ed.
Proof.
  unfold snapshot.
  destruct (read_prop product "name"), (read_prop product "category"),
    (read_prop product "offerPrice"), (read_prop product "quantity"); simpl; try discriminate.
  intros Hr. injection Hr as <-.
  repeat apply edit_ok_insert; try set_solver.
  intros f v Hf. by rewrite lookup_empty in Hf.
Qed.

#[export] Hint Resolve edit_ok_insert field_key_ok snapshot_ok : page.

Ltac run_page :=
  unfold on_ui, ui_gets, client_catch, send, reply in *;
  repeat progress (rewrite ?on_srv_run; run_exn; get_prop_simpl; rewrite ?server_eta, ?wire_empty;
                   repeat (rewrite wire_insert_def by done);
                   cbn [srv ui products isEditing selectedProduct editData toasts set_products
                        set_editing set_selected set_edit_data push_toast route_request truthy
                        body params files to_js_string] in *).

Section page_lemmas.
  Context `{!ProductSchema} `{MediaHost M} (json_parse : string → jres jval).
  Implicit Types w : world M page.

Lemma fetchProducts_run w :
    fetchProducts (M:=M) json_parse w =
      (Ok tt, mkWorld (srv w) (set_products (listed (db_of (srv w))) (ui w))).
  Proof.
    unfold fetchProducts. run_page. unfold productList. run_page.
    rewrite find_all_abs. run_page. unfold listed. by rewrite <- list_fmap_compose.
  Qed.

Lemma fetchProducts_img : exn_steps img_rel (fetchProducts (M:=M) json_parse).
  Proof. intros w Hok. rewrite fetchProducts_run. split; [done|apply keeps_prop_refl]. Qed.

Lemma on_ui_img f :
    (∀ p, edit_ok (editData p) → edit_ok (editData (f p))) → exn_steps img_rel (on_ui (M:=M) f).
  Proof. intros Hf w Hok. split; [by apply Hf|apply keeps_prop_refl]. Qed.

Lemma send_stock_img data : exn_steps img_rel (send (M:=M) json_parse RStock data).
  Proof.
    intros w Hok. unfold send. rewrite on_srv_run. split; [done|].
    apply changeStock_untouched. discriminate.
  Qed.

Lemma send_delete_img id data : exn_steps img_rel (send (M:=M) json_parse (RDelete id) data).
  Proof.
    intros w Hok. unfold send. rewrite on_srv_run. split; [done|]. simpl.
    case_bool_decide; [apply keeps_prop_refl|apply deleteProduct_untouched].
  Qed.

  (** The modal's data, sent as an update, names neither [productData] nor
      [image]. *)
Lemma send_update_img id w :
    img_rel w (send (M:=M) json_parse (RUpdate id) (editData (ui w)) w).2.
  Proof.
    intros Hok. unfold send. rewrite on_srv_run. split; [done|]. simpl.
    case_bool_decide; [apply keeps_prop_refl|].
    apply (updateProduct_untouched _ _ _ _ (wire (editData (ui w))));
      [|apply wire_edit_None; [done|set_solver]|by left].
    unfold product_data. simpl. unfold get_prop.
    rewrite wire_edit_None; [done|done|set_solver].
  Qed.

  (** What follows an answer: toasts, a refetch, closing the modal. *)
Local Ltac answer_img :=
    steps_tac; first [ apply fetchProducts_img | apply on_ui_img; intros ?; simpl; done ].

Lemma toggleStock_img id v : exn_steps img_rel (toggleStock (M:=M) json_parse id v).
  Proof.
    unfold toggleStock, client_catch.
    apply exn_steps_catch; [exact _|apply exn_steps_bind; [exact _|apply send_stock_img|]|];
      intros; answer_img.
  Qed.

Lemma deleteProduct_img id : exn_steps img_rel (deleteProduct (M:=M) json_parse id).
  Proof.
    unfold deleteProduct, client_catch.
    apply exn_steps_catch; [exact _|apply exn_steps_bind; [exact _|apply send_delete_img|]|];
      intros; answer_img.
  Qed.

Lemma updateProduct_img : exn_steps img_rel (updateProduct (M:=M) json_parse).
  Proof.
    unfold updateProduct, client_catch.
    match goal with |- context [exn_bind (send _ _ _) ?K] =>
      assert (HK : ∀ data, exn_steps img_rel (K data)) by (intros; cbv beta; answer_img);
      generalize dependent K end.
    intros K HK w. unfold ui_gets, exn_catch, exn_bind, exn_gets, exn_lift. cbv beta iota zeta.
    destruct (read_prop (selectedProduct (ui w)) "_id") as [id|e]; cbv beta iota zeta;
      [|by apply on_ui_img].
    pose proof (send_update_img (to_js_string id) w) as Hs.
    destruct (send json_parse (RUpdate (to_js_string id)) (editData (ui w)) w) as [[data|e] w1];
      cbn [snd] in Hs; [|etrans; [exact Hs|by apply on_ui_img]].
    specialize (HK data w1). destruct (K data w1) as [[u|e] w2]; cbn [snd] in *.
    - by etrans.
    - etrans; [exact Hs|]. etrans; [exact HK|]. by apply on_ui_img.
  Qed.

Lemma on_row_img i h : (∀ p, exn_steps img_rel (h p)) → exn_steps img_rel (on_row (M:=M) i h).
  Proof. intros Hh w. unfold on_row. destruct (row (ui w) i); [apply Hh|reflexivity]. Qed.

Lemma in_modal_img c : exn_steps img_rel c → exn_steps img_rel (in_modal (M:=M) c).
  Proof. intros Hc w. unfold in_modal. destruct (isEditing (ui w)); [apply Hc|reflexivity]. Qed.

Lemma dispatch_img ev : exn_steps img_rel (dispatch (M:=M) json_parse ev).
  Proof.
    destruct ev; simpl; try apply on_row_img; try apply in_modal_img; intros.
    - unfold onToggle. do 2 (apply exn_steps_lift_bind; [exact _|intros ? ?]). apply toggleStock_img.
    - unfold onEdit. apply exn_steps_bind; [exact _|apply on_ui_img; by intros|intros _].
      apply exn_steps_lift_bind; [exact _|intros ed Hed].
      apply exn_steps_bind; [exact _|apply on_ui_img; intros; simpl; eauto with page|intros _].
      apply on_ui_img. by intros.
    - unfold onDelete. apply exn_steps_lift_bind; [exact _|intros ? ?]. apply deleteProduct_img.
    - apply on_ui_img. intros p; simpl; eauto with page.
    - apply on_ui_img. by intros.
    - apply updateProduct_img.
  Qed.
  (** The modal's data, as the update reaches Mongoose. *)
Lemma strip_delete_wire_edit e : edit_ok e → strip_undefined (delete "_id" (wire e)) = wire e.
  Proof.
    intros He. rewrite delete_id; [apply strip_undefined_wire|].
    apply wire_edit_None; [done|set_solver].
  Qed.

Lemma product_data_edit (e : obj) id :
    edit_ok e → product_data json_parse (mkReq (wire e) {[ "id" := id ]} None) = Ok (JObj (wire e)).
  Proof.
    intros He. unfold product_data. simpl. unfold get_prop.
    rewrite wire_edit_None; [done|done|set_solver].
  Qed.

  (** The product of row [i] of a page showing the collection. *)
Lemma row_fresh w i k d :
    fresh w → abs (db_of (srv w)) !! i = Some (k, d) → row (ui w) i = Some (JObj (with_id k d)).
  Proof. unfold fresh, row, listed. intros -> Hi. by rewrite list_lookup_fmap, Hi. Qed.

  (** A click on the checkbox of row [i]. *)
Lemma toggle_row_run w i k d :
    fresh w → wf_db (db_of (srv w)) → abs (db_of (srv w)) !! i = Some (k, d) →
    let s := db_of (srv w) in
    let s' := mkDb (<[k := <["inStock" := JBool (negb (truthy (get_prop d "inStock")))]> d]> (docs s))
                   (order s) (next_oid s) in
    dispatch json_parse (ToggleRow i) w =
      (Ok tt, mkWorld (mkServer s' (media (srv w)) (logs (srv w)))
                      (push_toast (ToastSuccess (JStr "Stock Updated")) (set_products (listed s') (ui w)))).
  Proof.
    intros Hf Hwf Hi s s'. destruct (abs_lookup _ _ _ _ Hwf Hi) as [Hd Hk].
    simpl. unfold on_row. rewrite (row_fresh w i k d Hf Hi).
    unfold onToggle, with_id. cbn [read_prop]. get_prop_simpl. run_exn.
    unfold toggleStock. run_page.
    rewrite (changeStock_hit _ _ k d) by (cbn [body]; by get_prop_simpl). run_page.
    rewrite fetchProducts_run. run_page.
    rewrite strip_delete_single, update_one by done. done.
  Qed.

  (** A click on the delete button of row [i]. *)
Lemma delete_row_run w i k d :
    fresh w → wf_db (db_of (srv w)) → abs (db_of (srv w)) !! i = Some (k, d) →
    let s := db_of (srv w) in
    let s' := mkDb (delete k (docs s)) (filter (λ k', k' ≠ k) (order s)) (next_oid s) in
    dispatch json_parse (DeleteRow i) w =
      (Ok tt, mkWorld (mkServer s' (media (srv w)) (logs (srv w)))
         (push_toast (ToastSuccess (JStr "Product deleted successfully"))
            (set_products (listed s') (ui w)))).
  Proof.
    intros Hf Hwf Hi s s'. destruct (abs_lookup _ _ _ _ Hwf Hi) as [Hd Hk].
    simpl. unfold on_row. rewrite (row_fresh w i k d Hf Hi).
    unfold onDelete, with_id. cbn [read_prop]. get_prop_simpl. run_exn.
    unfold deleteProduct. run_page. rewrite bool_decide_false by apply render_oid_nonempty.
    run_page. rewrite (deleteProduct_hit _ _ k d) by (cbn [params]; by rewrite ?lookup_singleton_eq).
    run_page. rewrite fetchProducts_run. by run_page.
  Qed.

  (** A click on the edit button of row [i]. *)
Lemma edit_row_run w i k d :
    fresh w → abs (db_of (srv w)) !! i = Some (k, d) →
    dispatch json_parse (EditRow i) w =
      (Ok tt, mkWorld (srv w) (set_editing true (set_edit_data (snap d)
                                 (set_selected (JObj (with_id k d)) (ui w))))).
  Proof.
    intros Hf Hi. simpl. unfold on_row. rewrite (row_fresh w i k d Hf Hi).
    unfold onEdit, snapshot, with_id. run_page. cbn [read_prop]. by get_prop_simpl.
  Qed.

  (** Typing [v] into an input of the open modal. *)
Lemma input_run w f v :
    isEditing (ui w) = true →
    dispatch json_parse (Input f v) w =
      (Ok tt, mkWorld (srv w) (set_edit_data (<[field_key f := JStr v]> (editData (ui w))) (ui w))).
  Proof. intros He. simpl. unfold in_modal. rewrite He. unfold onInput. by run_page. Qed.

  (** A click on Save, the selected product being stored. *)
Lemma save_run w p k d :
    isEditing (ui w) = true → selectedProduct (ui w) = JObj p →
    p !! "_id" = Some (JStr (render_oid k)) → (k < oid_bound)%N →
    docs (db_of (srv w)) !! k = Some d → edit_ok (editData (ui w)) →
    validate_update (wire (editData (ui w))) = None →
    let s := db_of (srv w) in
    let s' := mkDb (<[k := wire (editData (ui w)) ∪ d]> (docs s)) (order s) (next_oid s) in
    dispatch json_parse Save w =
      (Ok tt, mkWorld (mkServer s' (media (srv w)) (logs (srv w)))
         (set_editing false (set_products (listed s')
            (push_toast (ToastSuccess (JStr "Product updated successfully!")) (ui w))))).
  Proof.
    intros He Hsel Hid Hk Hd Hok Hv s s'. simpl. unfold in_modal. rewrite He.
    assert (Hg : get_prop p "_id" = JStr (render_oid k)) by (unfold get_prop; by rewrite Hid).
    unfold updateProduct. run_page. rewrite Hsel. cbn [read_prop]. rewrite Hg. run_page.
    rewrite bool_decide_false by apply render_oid_nonempty.
    run_page. rewrite (updateProduct_hit json_parse [] _ _ (wire (editData (ui w))) k d);
      [|by apply product_data_edit|done|by cbn [params]; rewrite lookup_singleton_eq|done|done
       |by rewrite strip_delete_wire_edit].
    rewrite strip_delete_wire_edit by done. run_page.
    rewrite fetchProducts_run. run_page. done.
  Qed.
End page_lemmas.

(** ** The page's theorems *)

Section page_theorems.
  Context `{!ProductSchema} `{MediaHost M} (json_parse : string → jres jval).
  Implicit Types w : world M page.

  (** C13: no session on the list page changes the image list of any
      product: whatever the user clicks and types, every product stored
      afterwards was stored before, with the same [image]. *)
Theorem list_page_keeps_images evs w :
    edit_ok (editData (ui w)) →
    keeps_prop "image" (db_of (srv w)) (db_of (srv (run_events json_parse evs w))).
  Proof.
    revert w. induction evs as [|ev evs IH]; intros w Hok; simpl; [apply keeps_prop_refl|].
    destruct (dispatch_img json_parse ev w Hok) as [Hok' K]. eapply keeps_prop_trans; [exact K|by apply IH].
  Qed.

  (** C14: a click on the checkbox of row [i] stores the negation of the
      stock state the row shows and changes nothing else; the page then
      shows the collection as it is, and the toast "Stock Updated". *)
Theorem toggle_row_flips w i k d :
    fresh w → wf_db (db_of (srv w)) → abs (db_of (srv w)) !! i = Some (k, d) →
    let w' := (dispatch json_parse (ToggleRow i) w).2 in
    docs (db_of (srv w')) !! k = Some (<["inStock" := JBool (negb (truthy (get_prop d "inStock")))]> d) ∧
    (∀ k', k' ≠ k → docs (db_of (srv w')) !! k' = docs (db_of (srv w)) !! k') ∧
    order (db_of (srv w')) = order (db_of (srv w)) ∧
    fresh w' ∧
    toasts (ui w') = toasts (ui w) ++ [ToastSuccess (JStr "Stock Updated")].
  Proof.
    intros Hf Hwf Hi w'. unfold w'. rewrite (toggle_row_run json_parse w i k d Hf Hwf Hi). simpl.
    split_and!; [by rewrite lookup_insert_eq|intros; by rewrite lookup_insert_ne|done..].
  Qed.

  (** Two clicks on the checkbox of a row whose product holds a
      boolean stock state give back the collection exactly as it was. *)
Theorem toggle_row_twice w i k d b :
    fresh w → wf_db (db_of (srv w)) → abs (db_of (srv w)) !! i = Some (k, d) →
    d !! "inStock" = Some (JBool b) →
    db_of (srv (run_events json_parse [ToggleRow i; ToggleRow i] w)) = db_of (srv w) ∧
    fresh (run_events json_parse [ToggleRow i; ToggleRow i] w).
  Proof.
    intros Hf Hwf Hi Hb. destruct (abs_lookup _ _ _ _ Hwf Hi) as [Hd Hk].
    cbn [run_events]. rewrite (toggle_row_run json_parse w i k d Hf Hwf Hi). cbn [snd].
    assert (Hg : get_prop d "inStock" = JBool b) by (unfold get_prop; by rewrite Hb).
    rewrite Hg. set (d1 := <["inStock" := JBool (negb (truthy (JBool b)))]> d).
    assert (Hi1 : abs (mkDb (<[k := d1]> (docs (db_of (srv w)))) (order (db_of (srv w)))
                            (next_oid (db_of (srv w)))) !! i = Some (k, d1)).
    { unfold d1. rewrite <- update_one, abs_insert_present by done.
      by apply abs_update_lookup. }
    rewrite (toggle_row_run json_parse _ i k d1); [|unfold fresh; reflexivity|simpl; by eapply wf_db_insert_present|exact Hi1].
    cbn [snd srv db_of docs order next_oid]. split; [|unfold fresh; reflexivity].
    unfold d1, get_prop. rewrite lookup_insert_eq. simpl. rewrite negb_involutive.
    rewrite !insert_insert_eq, (insert_id d "inStock") by done. rewrite insert_id by done.
    by destruct (db_of (srv w)).
  Qed.

  (** C16: opening the modal of row [i], typing [v] into one of its inputs
      and saving changes that property of the stored product to [v] and
      nothing else of the collection; the modal closes and the page shows
      the collection as it is. *)
Theorem edit_field_and_save w i k d f v :
    fresh w → wf_db (db_of (srv w)) → abs (db_of (srv w)) !! i = Some (k, d) →
    validate_update (wire (editData (ui (run_events json_parse [EditRow i; Input f v] w)))) = None →
    let w' := run_events json_parse [EditRow i; Input f v; Save] w in
    docs (db_of (srv w')) = <[k := <[field_key f := JStr v]> d]> (docs (db_of (srv w))) ∧
    order (db_of (srv w')) = order (db_of (srv w)) ∧
    isEditing (ui w') = false ∧ fresh w'.
  Proof.
    intros Hf Hwf Hi Hv w'. destruct (abs_lookup _ _ _ _ Hwf Hi) as [Hd Hk].
    unfold w'. cbn [run_events] in *. rewrite (edit_row_run json_parse w i k d Hf Hi) in *.
    cbn [snd] in *. rewrite input_run in * by done. cbn [snd] in *.
    rewrite (save_run json_parse _ (with_id k d) k d); cbn [srv ui isEditing selectedProduct editData];
      [|done|done|by unfold with_id; rewrite lookup_insert_eq|done|done
       |apply edit_ok_insert; [apply snap_ok|apply field_key_ok]|done].
    cbn [snd srv ui db_of docs order next_oid isEditing set_editing]. split_and!; [|done|done|done].
    cbn [editData set_edit_data set_editing set_selected]. rewrite wire_insert_def by done. by rewrite <- insert_union_l, wire_snap_union.
  Qed.

  (** C15: a click on the delete button of row [i] removes that product, and
      only it, from the collection, which stays well formed; the page then
      shows the collection as it is and the toast "Product deleted
      successfully". *)
Theorem delete_row_removes w i k d :
    fresh w → wf_db (db_of (srv w)) → abs (db_of (srv w)) !! i = Some (k, d) →
    let w' := (dispatch json_parse (DeleteRow i) w).2 in
    abs (db_of (srv w')) = abs_delete k (abs (db_of (srv w))) ∧
    wf_db (db_of (srv w')) ∧ fresh w' ∧
    toasts (ui w') = toasts (ui w) ++ [ToastSuccess (JStr "Product deleted successfully")].
  Proof.
    intros Hf Hwf Hi w'. destruct (abs_lookup _ _ _ _ Hwf Hi) as [Hd Hk].
    unfold w'. rewrite (delete_row_run json_parse w i k d Hf Hwf Hi). cbn [snd srv ui db_of toasts].
    split_and!; [apply abs_delete_present| |done|done].
    pose proof (delete_doc_wf k (db_of (srv w)) Hwf) as Hw. unfold delete_doc in Hw.
    by rewrite Hd in Hw.
  Qed.

  (** C17: saving the modal when its product has been deleted meanwhile
      (by another tab, or another seller) changes nothing, keeps the modal
      open with what was typed, and shows the toast "Product not found". *)
Theorem save_product_gone w p k :
    isEditing (ui w) = true → selectedProduct (ui w) = JObj p →
    p !! "_id" = Some (JStr (render_oid k)) → (k < oid_bound)%N →
    docs (db_of (srv w)) !! k = None → edit_ok (editData (ui w)) →
    validate_update (wire (editData (ui w))) = None →
    dispatch json_parse Save w =
      (Ok tt, mkWorld (srv w) (push_toast (ToastError (JStr "Product not found")) (ui w))).
  Proof.
    intros He Hsel Hid Hk Hd Hok Hv. simpl. unfold in_modal. rewrite He.
    assert (Hg : get_prop p "_id" = JStr (render_oid k)) by (unfold get_prop; by rewrite Hid).
    unfold updateProduct. run_page. rewrite Hsel. cbn [read_prop]. rewrite Hg. run_page.
    rewrite bool_decide_false by apply render_oid_nonempty.
    unfold Controller.updateProduct, upload_if_any. run_page.
    rewrite product_data_edit by done. run_page.
    unfold param_id. cbn [params]. rewrite lookup_singleton_eq. simpl default.
    rewrite decide_False by (simpl; lia). run_page.
    rewrite find_by_id_and_update_miss by (rewrite ?strip_delete_wire_edit; done). run_page.
    by destruct w as [[] ?].
  Qed.
End page_theorems.

(** ** Witnesses *)

(** The page after it mounted and fetched the collection of [Controller]'s
    scenario: one product, "Milk", under identifier 0. *)
Definition demo_world : world (list string) page :=
  Eval vm_compute in (fetchProducts demo_parse (mkWorld demo_server1 initial_page)).2.

(** Toggle the stock, open the modal, change the offer price, save. *)
Definition demo_session : list ui_event :=
  [ToggleRow 0; EditRow 0; Input FOfferPrice "40"; Save].

(** The modal opened on the product, which is then deleted. *)
Definition demo_world_gone : world (list string) page :=
  Eval vm_compute in run_events demo_parse [EditRow 0; DeleteRow 0] demo_world.

Lemma list_page_keeps_images_witness :
  keeps_prop "image" (db_of (srv demo_world)) (db_of (srv (run_events demo_parse demo_session demo_world))).
Proof. apply list_page_keeps_images. decide_vm. Defined.

Lemma toggle_row_flips_witness :
  let w' := (dispatch demo_parse (ToggleRow 0) demo_world).2 in
  docs (db_of (srv w')) !! 0%N =
    Some (<["inStock" := JBool (negb (truthy (get_prop demo_stored "inStock")))]> demo_stored) ∧
  (∀ k', k' ≠ 0%N → docs (db_of (srv w')) !! k' = docs (db_of (srv demo_world)) !! k') ∧
  order (db_of (srv w')) = order (db_of (srv demo_world)) ∧
  fresh w' ∧
  toasts (ui w') = toasts (ui demo_world) ++ [ToastSuccess (JStr "Stock Updated")].
Proof.
  apply (toggle_row_flips demo_parse demo_world 0 0%N demo_stored);
    [vm_compute; reflexivity | unfold wf_db; decide_vm | vm_compute; reflexivity].
Defined.

Lemma toggle_row_twice_witness :
  db_of (srv (run_events demo_parse [ToggleRow 0; ToggleRow 0] demo_world)) = db_of (srv demo_world) ∧
  fresh (run_events demo_parse [ToggleRow 0; ToggleRow 0] demo_world).
Proof.
  apply (toggle_row_twice demo_parse demo_world 0 0%N demo_stored true);
    [vm_compute; reflexivity | unfold wf_db; decide_vm | vm_compute; reflexivity
    | vm_compute; reflexivity].
Defined.

Lemma delete_row_removes_witness :
  let w' := (dispatch demo_parse (DeleteRow 0) demo_world).2 in
  abs (db_of (srv w')) = abs_delete 0%N (abs (db_of (srv demo_world))) ∧
  wf_db (db_of (srv w')) ∧ fresh w' ∧
  toasts (ui w') = toasts (ui demo_world) ++ [ToastSuccess (JStr "Product deleted successfully")].
Proof.
  apply (delete_row_removes demo_parse demo_world 0 0%N demo_stored);
    [vm_compute; reflexivity | unfold wf_db; decide_vm | vm_compute; reflexivity].
Defined.

Lemma edit_field_and_save_witness :
  let w' := run_events demo_parse [EditRow 0; Input FOfferPrice "40"; Save] demo_world in
  docs (db_of (srv w')) =
    <[0%N := <[field_key FOfferPrice := JStr "40"]> demo_stored]> (docs (db_of (srv demo_world))) ∧
  order (db_of (srv w')) = order (db_of (srv demo_world)) ∧
  isEditing (ui w') = false ∧ fresh w'.
Proof.
  apply (edit_field_and_save demo_parse demo_world 0 0%N demo_stored FOfferPrice "40");
    [vm_compute; reflexivity | unfold wf_db; decide_vm | vm_compute; reflexivity
    | vm_compute; reflexivity].
Defined.

Lemma save_product_gone_witness :
  dispatch demo_parse Save demo_world_gone =
    (Ok tt, mkWorld (srv demo_world_gone)
              (push_toast (ToastError (JStr "Product not found")) (ui demo_world_gone))).
Proof.
  apply (save_product_gone demo_parse demo_world_gone (with_id 0 demo_stored) 0%N);
    [vm_compute; reflexivity | vm_compute; reflexivity | vm_compute; reflexivity
    | vm_compute; reflexivity | vm_compute; reflexivity | decide_vm | vm_compute; reflexivity].
Defined.

End ListPage.
