(* ===== verification/AddProduct.v ===== *)
(** * The product entry form

    [src/client/src/pages/seller/AddProduct.jsx], the form half of the
    component: its [useState] hooks ([form]), the handlers of its inputs,
    the four image slots ([onFile]), the barcode lookup
    ([handleBarcodeLookup]), the submission ([onSubmitHandler]) and the
    confirm dialog the lookup opens.  The submission builds the multipart
    payload the way the code does ([productData_of], [file_parts]), and
    [add_request] is what multer makes of it on the server, where
    [Controller.addProduct] handles it.  The events of the form keep an
    invariant proved once for every predicate the setters preserve
    ([run_form_keeps]): at most four image slots, and fields of the types
    [useState] gives them ([form_typed]).  The camera and decoder half of
    the component is [Scanner]. *)

From S2P Require Import Prelude JsValue ObjectId Json Store Upload Controller Client.

Module EntryForm.

(** A file the browser holds: an element of [e.target.files]. *)
Record blob := mkBlob { blob_name : string }.

(** An element of the [files] array: a hole (an index never written), the
    value [undefined] (a cancelled file dialog, or a hole that [[...files]]
    copied), or a file. *)
Inductive slot : Type :=
| Hole
| Undef
| Picked (b : blob).

Inductive toast : Type :=
| ToastSuccess (msg : jval)
| ToastError (msg : jval)
| ToastLoading (msg : string).

Record form := mkForm {
  files : list slot;
  name : jval;
  description : jval;
  category : jval;
  price : jval;
  offerPrice : jval;
  quantity : jval;
  barcode : jval;
  isScanning : bool;
  showConfirm : bool;
  toasts : list toast
}.

(** [useState([])], [useState("")] and [useState(false)] *)
Definition initial_form : form :=
  mkForm [] (JStr "") (JStr "") (JStr "") (JStr "") (JStr "") (JStr "") (JStr "") false false [].

Definition set_files l st := mkForm l (name st) (description st) (category st) (price st)
  (offerPrice st) (quantity st) (barcode st) (isScanning st) (showConfirm st) (toasts st).
Definition set_name v st := mkForm (files st) v (description st) (category st) (price st)
  (offerPrice st) (quantity st) (barcode st) (isScanning st) (showConfirm st) (toasts st).
Definition set_description v st := mkForm (files st) (name st) v (category st) (price st)
  (offerPrice st) (quantity st) (barcode st) (isScanning st) (showConfirm st) (toasts st).
Definition set_category v st := mkForm (files st) (name st) (description st) v (price st)
  (offerPrice st) (quantity st) (barcode st) (isScanning st) (showConfirm st) (toasts st).
Definition set_price v st := mkForm (files st) (name st) (description st) (category st) v
  (offerPrice st) (quantity st) (barcode st) (isScanning st) (showConfirm st) (toasts st).
Definition set_offerPrice v st := mkForm (files st) (name st) (description st) (category st)
  (price st) v (quantity st) (barcode st) (isScanning st) (showConfirm st) (toasts st).
Definition set_quantity v st := mkForm (files st) (name st) (description st) (category st)
  (price st) (offerPrice st) v (barcode st) (isScanning st) (showConfirm st) (toasts st).
Definition set_barcode v st := mkForm (files st) (name st) (description st) (category st)
  (price st) (offerPrice st) (quantity st) v (isScanning st) (showConfirm st) (toasts st).
Definition set_isScanning b st := mkForm (files st) (name st) (description st) (category st)
  (price st) (offerPrice st) (quantity st) (barcode st) b (showConfirm st) (toasts st).
Definition set_showConfirm b st := mkForm (files st) (name st) (description st) (category st)
  (price st) (offerPrice st) (quantity st) (barcode st) (isScanning st) b (toasts st).
Definition push_toast t st := mkForm (files st) (name st) (description st) (category st)
  (price st) (offerPrice st) (quantity st) (barcode st) (isScanning st) (showConfirm st)
  (toasts st ++ [t]).
(** [toast.dismiss()]: every toast shown goes. *)
Definition dismiss_all st := mkForm (files st) (name st) (description st) (category st)
  (price st) (offerPrice st) (quantity st) (barcode st) (isScanning st) (showConfirm st) [].

(** ** The image slots *)

(** [[...files]]: the spread copies a hole as [undefined]. *)
Definition spread_slots (l : list slot) : list slot :=
  (λ x, match x with Hole => Undef | _ => x end) <$> l.

(** [a[i] = x]: past the end the array grows, with holes before [i]. *)
Definition set_index (l : list slot) (i : nat) (x : slot) : list slot :=
  if decide (i < length l) then <[i := x]> l else l ++ replicate (i - length l) Hole ++ [x].

(** The [onChange] of the image input [index]:
    [updatedFiles = [...files]; updatedFiles[index] = e.target.files[0]]. *)
Definition onFile (index : nat) (picked : option blob) (st : form) : form :=
  set_files (set_index (spread_slots (files st)) index
               (match picked with Some b => Picked b | None => Undef end)) st.

(** The files of the slots, in slot order. *)
Definition picked (l : list slot) : list blob :=
  omap (λ x, match x with Picked b => Some b | _ => None end) l.

(** ** The submission *)

(** A part of the [FormData]. *)
Inductive part : Type :=
| TextPart (key value : string)
| FilePart (key : string) (b : blob).

(** [files.forEach((file) => formData.append("images", file))]: [forEach]
    skips holes, and [append] turns a value that is not a file into a
    string. *)
Definition file_parts (l : list slot) : list part :=
  omap (λ x, match x with
             | Hole => None
             | Undef => Some (TextPart "images" "undefined")
             | Picked b => Some (FilePart "images" b)
             end) l.

(** [description.split("\n")] *)
Definition js_split_lines (v : jval) : jres jval :=
  match v with
  | JStr s => Ok (JArr (JStr <$> split_on newline s))
  | JUndefined => Err (TypeError "Cannot read properties of undefined (reading 'split')")
  | JNull => Err (TypeError "Cannot read properties of null (reading 'split')")
  | _ => Err (TypeError "description.split is not a function")
  end.

(** [const productData = {name, description: description.split("\n"),
      category, price, offerPrice, quantity, barcode}] *)
Definition productData_of (st : form) : jres obj :=
  lines ← js_split_lines (description st);
  mret (<["name" := name st]> (<["description" := lines]> (<["category" := category st]>
         (<["price" := price st]> (<["offerPrice" := offerPrice st]>
           (<["quantity" := quantity st]> (<["barcode" := barcode st]> ∅))))))).

(** The HTML [required] attribute of the name, price, offer price and
    quantity inputs: the browser fires [submit] (and [requestSubmit()]
    submits) only when none of them is empty. *)
Definition filled (v : jval) : bool := negb (String.eqb (to_js_string v) "").

Definition form_valid (st : form) : bool :=
  filled (name st) && filled (price st) && filled (offerPrice st) && filled (quantity st).

(** ** What multer makes of the payload (the route is outside [src/]) *)

(** Repeated text fields become an array, as multer's [append-field]. *)
Definition append_field (b : obj) (k v : string) : obj :=
  match b !! k with
  | None => <[k := JStr v]> b
  | Some (JArr vs) => <[k := JArr (vs ++ [JStr v])]> b
  | Some x => <[k := JArr [x; JStr v]]> b
  end.

Definition multer_step (b : obj) (p : part) : obj :=
  match p with TextPart k v => append_field b k v | FilePart _ _ => b end.

Definition multer_body (ps : list part) : obj := foldl multer_step ∅ ps.

Section multer.
  (** Where multer's storage puts an uploaded file. *)
  Variable stored_path : blob → string.

Definition multer_files (ps : list part) : list file :=
    omap (λ p, match p with FilePart k b => Some (mkFile k (stored_path b)) | TextPart _ _ => None end) ps.

  (** [POST /api/product/add] with [upload.array("images")] *)
Definition add_request (ps : list part) : request :=
    mkReq (multer_body ps) ∅ (Some (multer_files ps)).
End multer.

(** ** The barcode lookup's helpers *)

Definition nullish (v : jval) : bool :=
  match v with JUndefined | JNull => true | _ => false end.

(** [v.replace(p, r)]: strings only. *)
Definition js_replace (v : jval) (p r : string) : jres jval :=
  match v with
  | JStr s => Ok (JStr (replace_first p r s))
  | _ => Err (TypeError "replace is not a function")
  end.

(** [product.categories_tags?.[0]?.replace("en:", "") || ""] *)
Definition first_category (product : jval) : jres jval :=
  tags ← read_prop product "categories_tags";
  t0 ← (if nullish tags then Ok JUndefined else read_index tags 0);
  c ← (if nullish t0 then Ok JUndefined else js_replace t0 "en:" "");
  mret (js_or c (JStr "")).

(** [data.status === 1] *)
Definition is_one (v : jval) : bool :=
  match v with JNum 1 => true | _ => false end.

(** The UI events of the form. *)
Inductive form_event : Type :=
| PickFile (index : nat) (f : option blob)
| TypeName (v : string)
| TypeDescription (v : string)
| SelectCategory (v : string)
| TypePrice (v : string)
| TypeOfferPrice (v : string)
| TypeQuantity (v : string)
| Add (ord : list nat)
| ConfirmEdit
| ConfirmSave (ord : list nat).

Section form_model.
  Context `{!ProductSchema} `{MediaHost M} `{!JsonCodec}.
  (** multer's storage, the categories of the select, and the Open Food
      Facts API: [fetch(url).then(res => res.json())] for a code. *)
  Variable stored_path : blob → string.
  Variable categories : list string.
  Variable off_api : string → jres jval.
  Local Open Scope exn_scope.

Definition on_form (f : form → form) : exn (world M form) js_error unit := on_ui f.

  (** [catch (err) { toast.error(err.message) }] *)
Definition form_catch (c : exn (world M form) js_error unit) : exn (world M form) js_error unit :=
    exn_catch c (λ e, on_form (push_toast (ToastError (JStr (message e))))).

  (** The resets after a product was added. *)
Definition reset_form (st : form) : form :=
    set_barcode (JStr "") (set_files [] (set_quantity (JStr "") (set_offerPrice (JStr "")
      (set_price (JStr "") (set_category (JStr "") (set_description (JStr "")
        (set_name (JStr "") st))))))).

  (** [onSubmitHandler]; [ord] is the order in which the server's uploads
      complete. *)
Definition onSubmitHandler (ord : list nat) : exn (world M form) js_error unit :=
    form_catch (
      st <- ui_gets id ;;
      pd <- exn_lift (productData_of st) ;;
      let fd := TextPart "productData" (json_stringify (JObj pd)) :: file_parts (files st) in
      data <- on_srv (addProduct json_parse ord (add_request stored_path fd)) ;;
      if truthy (get_prop data "success")
      then on_form (push_toast (ToastSuccess (get_prop data "message"))) ;;; on_form reset_form
      else on_form (push_toast (ToastError (get_prop data "message")))).

  (** The form's [submit] event, which the browser fires only for a valid
      form. *)
Definition submit (ord : list nat) : exn (world M form) js_error unit := λ w,
    if form_valid (ui w) then onSubmitHandler ord w else (Ok tt, w).

  (** [handleBarcodeLookup(code)] *)
Definition handleBarcodeLookup (code : string) : exn (world M form) js_error unit :=
    exn_catch (
      on_form (push_toast (ToastLoading "Fetching product info...")) ;;;
      data <- exn_lift (off_api code) ;;
      on_form dismiss_all ;;;
      status <- exn_lift (read_prop data "status") ;;
      if is_one status then
        product <- exn_lift (read_prop data "product") ;;
        n <- exn_lift (read_prop product "product_name") ;;
        on_form (set_name (js_or n (JStr ""))) ;;;
        g <- exn_lift (read_prop product "generic_name") ;;
        on_form (set_description (js_or g (JStr ""))) ;;;
        c <- exn_lift (first_category product) ;;
        on_form (set_category c) ;;;
        on_form (set_price (JStr "")) ;;;
        on_form (set_offerPrice (JStr "")) ;;;
        on_form (set_quantity (JNum 1)) ;;;
        on_form (set_showConfirm true)
      else on_form (push_toast (ToastError (JStr "No product info found for this barcode"))))
    (λ _, on_form dismiss_all ;;;
          on_form (push_toast (ToastError (JStr "Error fetching product details")))).

  (** The handler React runs for each event; a control that is not on the
      page does nothing. *)
Definition dispatch_form (ev : form_event) : exn (world M form) js_error unit := λ w,
    match ev with
    | PickFile i f => if decide (i < 4) then on_form (onFile i f) w else (Ok tt, w)
    | TypeName v => on_form (set_name (JStr v)) w
    | TypeDescription v => on_form (set_description (JStr v)) w
    | SelectCategory v =>
        if decide (v ∈ "" :: categories) then on_form (set_category (JStr v)) w else (Ok tt, w)
    | TypePrice v => on_form (set_price (JStr v)) w
    | TypeOfferPrice v => on_form (set_offerPrice (JStr v)) w
    | TypeQuantity v => on_form (set_quantity (JStr v)) w
    | Add ord => submit ord w
    | ConfirmEdit =>
        if showConfirm (ui w) then on_form (set_showConfirm false) w else (Ok tt, w)
    | ConfirmSave ord =>
        if showConfirm (ui w)
        then (on_form (set_showConfirm false) ;;; submit ord) w else (Ok tt, w)
    end.

Fixpoint run_form (evs : list form_event) (w : world M form) : world M form :=
    match evs with
    | [] => w
    | ev :: evs' => run_form evs' (dispatch_form ev w).2
    end.
End form_model.

(** ** Lemmas on the payload *)

Lemma set_index_length_le l i x n : i < n → length l ≤ n → length (set_index l i x) ≤ n.
Proof.
  unfold set_index. case_decide.
  - rewrite length_insert. lia.
  - rewrite !length_app, length_replicate. simpl. lia.
Qed.

Lemma onFile_files_le i f st : i < 4 → length (files st) ≤ 4 → length (files (onFile i f st)) ≤ 4.
Proof. intros Hi Hl. apply set_index_length_le; [done|]. unfold spread_slots. by rewrite length_fmap. Qed.

Lemma picked_length l : length (picked l) ≤ length l.
Proof. induction l as [|[] l IH]; simpl; lia. Qed.

Lemma multer_files_file_parts sp l :
  multer_files sp (file_parts l) = (λ b, mkFile "images" (sp b)) <$> picked l.
Proof. induction l as [|[] l IH]; simpl; by rewrite ?IH. Qed.

(** The image parts leave the [productData] field alone. *)
Lemma multer_body_file_parts b l :
  foldl multer_step b (file_parts l) !! "productData" = b !! "productData".
Proof.
  revert b. induction l as [|x l IH]; intros b; [done|].
  destruct x; simpl; rewrite IH; [done| |done].
  unfold multer_step, append_field. destruct (b !! "images") as [[]|]; by rewrite lookup_insert_ne.
Qed.

Lemma add_request_productData sp s l :
  get_prop (body (add_request sp (TextPart "productData" s :: file_parts l))) "productData" = JStr s.
Proof.
  unfold add_request, multer_body, get_prop. simpl.
  rewrite multer_body_file_parts. unfold append_field. by rewrite lookup_empty, lookup_insert_eq.
Qed.

Lemma add_request_files sp s l :
  Controller.files (add_request sp (TextPart "productData" s :: file_parts l)) =
    Some ((λ b, mkFile "images" (sp b)) <$> picked l).
Proof. simpl. by rewrite multer_files_file_parts. Qed.

(** The metadata has no [_id]. *)
Lemma productData_of_id st pd : productData_of st = Ok pd → pd !! "_id" = None.
Proof.
  unfold productData_of. destruct (js_split_lines (description st)); simpl; [|done].
  intros Hr. injection Hr as <-. by rewrite !lookup_insert_ne.
Qed.

(** Run a handler of the form on a world: unfold the monad, the lifts and
    the reads of object literals. *)
Ltac run_add :=
  unfold on_form, on_ui, ui_gets, form_catch, reply in *;
  repeat progress (rewrite ?on_srv_run; run_exn; get_prop_simpl; rewrite ?server_eta;
                   cbn [srv ui truthy spread id] in *).

(** At most four slots: one per image input. *)
Definition slots_ok (st : form) : Prop := length (files st) ≤ 4.

(** The fields [productData] is built from hold values [JSON.stringify]
    prints as they are, and the description is a string, so that
    [description.split] can run. *)
Definition is_jstr (v : jval) : bool := match v with JStr _ => true | _ => false end.
Definition form_typed (st : form) : bool :=
  is_jstr (description st) &&
  forallb json_plain [name st; category st; price st; offerPrice st; quantity st; barcode st].

Lemma json_plain_lines l : json_plain (JArr (JStr <$> l)) = true.
Proof. by induction l. Qed.

Lemma productData_of_typed st :
  form_typed st = true → ∃ pd, productData_of st = Ok pd ∧ json_record pd.
Proof.
  destruct st as [fs n [| | ? | ? | s | ? | ?] c p o q b sc cf ts]; unfold form_typed; simpl; try done.
  rewrite !andb_true_iff. intros (Hn & Hc & Hp & Ho & Hq & Hb & _).
  eexists; split; [reflexivity|].
  repeat apply json_record_insert; auto using json_plain_lines with gs.
Qed.

Section form_lemmas.
  Context `{!ProductSchema} `{MediaHost M} `{!JsonCodec}.
  Variable stored_path : blob → string.
  Variable categories : list string.
  Variable off_api : string → jres jval.
  Implicit Types w : world M form.

  (** The files a submission uploads. *)
Let images (st : form) : list file := (λ b, mkFile "images" (stored_path b)) <$> picked (files st).

  (** A valid form whose uploads succeed and whose document the schema
      accepts. *)
Lemma submit_run_ok ord w pd urls m' :
    form_valid (ui w) = true → productData_of (ui w) = Ok pd → json_record pd →
    promise_all_upload ord (images (ui w)) (media (srv w)) = (Ok urls, m') →
    docs (db_of (srv w)) !! (next_oid (db_of (srv w)) `mod` oid_bound)%N = None →
    validate_doc (delete "_id" (<["image" := url_array urls]> pd ∪ schema_defaults)) = None →
    let s := db_of (srv w) in
    let k := (next_oid s `mod` oid_bound)%N in
    let d := delete "_id" (<["image" := url_array urls]> pd ∪ schema_defaults) in
    dispatch_form stored_path categories (Add ord) w =
      (Ok tt, mkWorld (mkServer (mkDb (<[k := d]> (docs s)) (order s ++ [k]) (next_oid s + 1)%N)
                                m' (logs (srv w)))
                      (reset_form (push_toast (ToastSuccess (JStr "Product Added")) (ui w)))).
  Proof.
    intros Hv Hpd Hrec Hup Hfree Hval s k d.
    simpl. unfold submit. rewrite Hv. unfold onSubmitHandler. run_add. rewrite Hpd. run_add.
    rewrite (addProduct_run_ok json_parse ord _ (srv w) (JObj pd) (images (ui w)) urls m'); last first.
    - done.
    - done.
    - by eapply productData_of_id.
    - done.
    - by rewrite add_request_files.
    - rewrite add_request_productData. unfold parse_arg. cbn [to_js_string].
      by apply json_parse_stringify.
    - by run_add.
  Qed.

  (** A property of the form that every update the form's handlers make
      keeps is kept by every event, and by every sequence of events. *)
Section form_keeps.
  Variable Q : form → Prop.
  Hypothesis Q_toast : ∀ t st, Q st → Q (push_toast t st).
  Hypothesis Q_reset : ∀ st, Q st → Q (reset_form st).
  Hypothesis Q_confirm : ∀ b st, Q st → Q (set_showConfirm b st).
  Hypothesis Q_text : ∀ v st, Q st →
    Q (set_name (JStr v) st) ∧ Q (set_description (JStr v) st) ∧ Q (set_category (JStr v) st) ∧
    Q (set_price (JStr v) st) ∧ Q (set_offerPrice (JStr v) st) ∧ Q (set_quantity (JStr v) st).
  Hypothesis Q_file : ∀ i f st, i < 4 → Q st → Q (onFile i f st).

Lemma onSubmitHandler_keeps ord : exn_keeps (λ w, Q (ui w)) (onSubmitHandler stored_path (M:=M) ord).
  Proof.
    unfold onSubmitHandler, form_catch, on_form, ui_gets. keeps_tac;
      first [apply on_srv_keeps_ui | apply on_ui_keeps; auto].
  Qed.

Lemma dispatch_form_keeps ev : exn_keeps (λ w, Q (ui w)) (dispatch_form stored_path categories (M:=M) ev).
  Proof.
    intros w Hw. destruct ev; simpl; unfold submit, on_form, on_ui, exn_bind, exn_modify;
      repeat case_decide; repeat case_match; simpl; try done;
      try (by apply Q_file); try (by apply Q_text); try (by apply onSubmitHandler_keeps).
    - by apply Q_confirm.
    - apply onSubmitHandler_keeps. simpl. by apply Q_confirm.
    - by apply Q_confirm.
  Qed.

Lemma run_form_keeps evs w : Q (ui w) → Q (ui (run_form stored_path categories evs w)).
  Proof.
    revert w. induction evs as [|ev evs IH]; intros w Hw; simpl; [done|].
    apply IH. by apply dispatch_form_keeps.
  Qed.
End form_keeps.

  (** The four image inputs keep the array to four slots. *)
Lemma run_form_slots evs w : slots_ok (ui w) → slots_ok (ui (run_form stored_path categories evs w)).
  Proof.
    apply run_form_keeps; unfold slots_ok; intros; simpl; try lia; try (by apply onFile_files_le).
  Qed.

  (** The events of the form keep its fields typed. *)
Lemma run_form_typed evs w :
    form_typed (ui w) = true → form_typed (ui (run_form stored_path categories evs w)) = true.
  Proof.
    apply (run_form_keeps (λ st, form_typed st = true)); intros; repeat split;
      match goal with st : form |- _ => destruct st as [? ? [] ? ? ? ? ? ? ? ?] end;
      unfold form_typed in *; simpl in *; rewrite ?andb_true_iff in *; naive_solver.
  Qed.

  (** The form after a lookup that found a product. *)
Definition lookup_fill (p : obj) (c : jval) (st : form) : form :=
    set_showConfirm true (set_quantity (JNum 1) (set_offerPrice (JStr "") (set_price (JStr "")
      (set_category c (set_description (js_or (get_prop p "generic_name") (JStr ""))
        (set_name (js_or (get_prop p "product_name") (JStr ""))
          (dismiss_all (push_toast (ToastLoading "Fetching product info...") st)))))))).

Lemma lookup_found_run code w data p c :
    off_api code = Ok data → read_prop data "status" = Ok (JNum 1) →
    read_prop data "product" = Ok (JObj p) → first_category (JObj p) = Ok c →
    handleBarcodeLookup off_api code w = (Ok tt, mkWorld (srv w) (lookup_fill p c (ui w))).
  Proof.
    intros Hd Hs Hp Hc. unfold handleBarcodeLookup. run_add.
    rewrite Hd. run_add. rewrite Hs. run_add. rewrite Hp. run_add. cbn [read_prop]. run_add.
    rewrite Hc. by run_add.
  Qed.
End form_lemmas.

(** ** The form's theorems *)

Section form_theorems.
  Context `{!ProductSchema} `{MediaHost M} `{!JsonCodec}.
  Variable stored_path : blob → string.
  Variable categories : list string.
  Variable off_api : string → jres jval.
  Implicit Types w : world M form.

  (** C18: submitting a valid form whose uploads succeed (in any completion
      order) adds exactly one product: the form's fields, the description
      split into lines, and the URLs of the files of the image slots, one
      per file and in slot order; the form is then reset and shows
      "Product Added". *)
Theorem add_stores_form ord w pd urls m' :
    form_valid (ui w) = true → productData_of (ui w) = Ok pd → json_record pd →
    ord ≡ₚ seq 0 (length (picked (files (ui w)))) →
    promise_all_upload ord ((λ b, mkFile "images" (stored_path b)) <$> picked (files (ui w)))
      (media (srv w)) = (Ok urls, m') →
    docs (db_of (srv w)) !! (next_oid (db_of (srv w)) `mod` oid_bound)%N = None →
    validate_doc (delete "_id" (<["image" := url_array urls]> pd ∪ schema_defaults)) = None →
    wf_db (db_of (srv w)) →
    let w' := (dispatch_form stored_path categories (Add ord) w).2 in
    (∃ k d, abs (db_of (srv w')) = abs (db_of (srv w)) ++ [(k, d)] ∧
            d !! "image" = Some (url_array urls) ∧
            ∀ p, p ≠ "image" → p ≠ "_id" → d !! p = (pd ∪ schema_defaults) !! p) ∧
    length urls = length (picked (files (ui w))) ∧
    ui w' = reset_form (push_toast (ToastSuccess (JStr "Product Added")) (ui w)).
  Proof.
    intros Hv Hpd Hrec Hperm Hup Hfree Hval Hwf w'. unfold w'.
    rewrite (submit_run_ok stored_path categories ord w pd urls m') by done. cbn [snd srv ui db_of].
    destruct (added_doc_fields (JObj pd) urls) as [Himg Hother].
    assert (Hp : ord ≡ₚ seq 0 (length ((λ b, mkFile "images" (stored_path b)) <$> picked (files (ui w)))))
      by by rewrite length_fmap.
    split_and!; [|rewrite (upload_batch_length _ _ _ _ _ Hp Hup); apply length_fmap|done].
    eexists _, _. split_and!; [by apply abs_insert_fresh|exact Himg|exact Hother].
  Qed.

  (** C19: when an upload of the submission fails, the product is not
      added, the form keeps everything the seller entered, and the toast
      shows the failure's message. *)
Theorem add_upload_failure_keeps_form ord w pd e m' :
    form_valid (ui w) = true → productData_of (ui w) = Ok pd → json_record pd →
    promise_all_upload ord ((λ b, mkFile "images" (stored_path b)) <$> picked (files (ui w)))
      (media (srv w)) = (Err e, m') →
    dispatch_form stored_path categories (Add ord) w =
      (Ok tt, mkWorld (mkServer (db_of (srv w)) m' (logs (srv w) ++ [message e]))
                      (push_toast (ToastError (JStr (message e))) (ui w))).
  Proof.
    intros Hv Hpd Hrec Hup. simpl. unfold submit. rewrite Hv. unfold onSubmitHandler.
    run_add. rewrite Hpd. run_add. unfold addProduct.
    rewrite add_request_productData. unfold parse_arg. cbn [to_js_string].
    rewrite json_parse_stringify by done. run_add.
    rewrite add_request_files. run_add. rewrite Hup. by run_add.
  Qed.

  (** C20: whatever the seller does on the form, a submission sends at
      most four images: the array of image slots never grows past the four
      inputs. *)
Theorem at_most_four_images evs w :
    length (files (ui w)) ≤ 4 →
    length (multer_files stored_path
              (file_parts (files (ui (run_form stored_path categories evs w))))) ≤ 4.
  Proof.
    intros Hw. rewrite multer_files_file_parts, length_fmap.
    etrans; [apply picked_length|]. by apply run_form_slots.
  Qed.

  (** C21: whatever the seller types, picks or confirms, the form's fields
      keep the types the initial [useState("")] gives them: the description
      stays a string and every other field of [productData] a value
      [JSON.stringify] prints as it is, so building [productData] never throws
      and the payload is a JSON record the server parses back. *)
Theorem form_fields_typed evs w :
    form_typed (ui w) = true →
    form_typed (ui (run_form stored_path categories evs w)) = true ∧
    ∃ pd, productData_of (ui (run_form stored_path categories evs w)) = Ok pd ∧ json_record pd.
  Proof.
    intros Hw. pose proof (run_form_typed stored_path categories off_api evs w Hw) as Ht.
    split; [done|]. by apply productData_of_typed.
  Qed.

  (** The description travels as lines: the lines the form sends,
      joined with newlines, are the text typed; and a text made of lines
      without newlines is sent as exactly those lines. *)
Theorem description_lines_roundtrip s :
    (∃ lines, js_split_lines (JStr s) = Ok (JArr (JStr <$> lines)) ∧ join_on newline lines = s) ∧
    ∀ lines, lines ≠ [] → Forall (λ x, has_char newline x = false) lines →
      js_split_lines (JStr (join_on newline lines)) = Ok (JArr (JStr <$> lines)).
  Proof.
    split.
    - exists (split_on newline s). split; [done|apply join_split_on].
    - intros lines Hne Hall. simpl. by rewrite split_join_on.
  Qed.

  (** C22: a lookup that finds the product fills the name and the
      description (or leaves them empty), takes the category from the first
      tag without its "en:" prefix, empties both prices, sets the quantity
      to 1 and opens the confirm dialog; the image slots and the barcode
      stay, and nothing is sent to the server. *)
Theorem lookup_fills_form code w data p t tags :
    off_api code = Ok data → read_prop data "status" = Ok (JNum 1) →
    read_prop data "product" = Ok (JObj p) →
    p !! "categories_tags" = Some (JArr (JStr ("en:" ++ t) :: tags)) → t ≠ "" →
    let w' := (handleBarcodeLookup off_api code w).2 in
    name (ui w') = js_or (get_prop p "product_name") (JStr "") ∧
    description (ui w') = js_or (get_prop p "generic_name") (JStr "") ∧
    category (ui w') = JStr t ∧ price (ui w') = JStr "" ∧ offerPrice (ui w') = JStr "" ∧
    quantity (ui w') = JNum 1 ∧ showConfirm (ui w') = true ∧
    files (ui w') = files (ui w) ∧ barcode (ui w') = barcode (ui w) ∧ srv w' = srv w.
  Proof.
    intros Hd Hs Hp Htags Ht w'. unfold w'.
    rewrite (lookup_found_run off_api code w data p (JStr t)); [done..|].
    unfold first_category. cbn [read_prop]. unfold get_prop at 1. rewrite Htags. simpl.
    rewrite Nat.sub_0_r, substring_0_length. destruct t; [done|reflexivity].
  Qed.

  (** C23: "No, Save Directly" right after a lookup that found the product
      sends nothing: the lookup empties the price and offer-price inputs,
      which are required, so [requestSubmit()] does not submit; the dialog
      closes and the server is untouched. *)
Theorem save_directly_after_lookup code w data p c ord :
    off_api code = Ok data → read_prop data "status" = Ok (JNum 1) →
    read_prop data "product" = Ok (JObj p) → first_category (JObj p) = Ok c →
    let w1 := (handleBarcodeLookup off_api code w).2 in
    showConfirm (ui w1) = true ∧
    dispatch_form stored_path categories (ConfirmSave ord) w1 =
      (Ok tt, mkWorld (srv w) (set_showConfirm false (ui w1))).
  Proof.
    intros Hd Hs Hp Hc w1. unfold w1.
    rewrite (lookup_found_run off_api code w data p c) by done. split; [done|].
    simpl. unfold submit, on_form, on_ui, exn_bind, exn_modify. simpl.
    unfold form_valid. simpl. by rewrite andb_false_r.
  Qed.

  (** C24: a lookup that fails (the request or its JSON) or finds nothing
      leaves the form as it was and shows one error toast, after dismissing
      the loading toast. *)
Theorem lookup_failure_keeps_form code w :
    (∀ e, off_api code = Err e →
       handleBarcodeLookup off_api code w =
         (Ok tt, mkWorld (srv w) (push_toast (ToastError (JStr "Error fetching product details"))
                                   (dismiss_all (push_toast (ToastLoading "Fetching product info...") (ui w)))))) ∧
    (∀ data st, off_api code = Ok data → read_prop data "status" = Ok st → is_one st = false →
       handleBarcodeLookup off_api code w =
         (Ok tt, mkWorld (srv w) (push_toast (ToastError (JStr "No product info found for this barcode"))
                                   (dismiss_all (push_toast (ToastLoading "Fetching product info...") (ui w)))))).
  Proof.
    split.
    - intros e Hd. unfold handleBarcodeLookup. run_add. rewrite Hd. by run_add.
    - intros data st Hd Hs Hn. unfold handleBarcodeLookup. run_add. rewrite Hd. run_add.
      rewrite Hs. run_add. rewrite Hn. by run_add.
  Qed.
End form_theorems.


(** ** Witnesses

    The examples run the form next to the example schema, the demo image
    host and the JSON codec of [Json]; multer stores a file under
    [uploads/], and the Open Food Facts stand-in knows one product. *)

Definition demo_path (b : blob) : string := "uploads/" ++ blob_name b.
Definition demo_categories : list string := ["Dairy"; "Vegetables"].

Definition demo_product : obj :=
  <["product_name" := JStr "Milk"]> (<["generic_name" := JStr "Fresh milk"]>
  (<["categories_tags" := JArr [JStr "en:dairies"; JStr "en:milks"]]> ∅)).

Definition demo_off (code : string) : jres jval :=
  if String.eqb code "3017620422003"
  then Ok (JObj (<["status" := JNum 1]> (<["product" := JObj demo_product]> ∅)))
  else if String.eqb code "0000000000000" then Ok (JObj (<["status" := JNum 0]> ∅))
  else Err (TypeError "Failed to fetch").

Definition demo_entry (second : string) : form :=
  mkForm [Picked (mkBlob "front.png"); Picked (mkBlob second)] (JStr "Milk")
    (JStr ("Fresh" ++ String newline "1 litre")) (JStr "Dairy") (JStr "50") (JStr "45")
    (JStr "10") (JStr "") false false [].

Definition demo_page (second : string) : world (list string) form :=
  mkWorld demo_server0 (demo_entry second).

Definition demo_pd : obj :=
  Eval vm_compute in match productData_of (demo_entry "back.png") with Ok pd => pd | Err _ => ∅ end.

Definition demo_upload_error : js_error :=
  Eval vm_compute in
    match (promise_all_upload [0; 1]
             ((λ b, mkFile "images" (demo_path b)) <$> picked (files (demo_entry "broken.png"))) []).1
    with Err e => e | Ok _ => TypeError "" end.

Lemma add_stores_form_witness :
  let w' := (dispatch_form demo_path demo_categories (Add [1; 0]) (demo_page "back.png")).2 in
  (∃ k d, abs (db_of (srv w')) = abs (db_of (srv (demo_page "back.png"))) ++ [(k, d)] ∧
          d !! "image" = Some (url_array [front_url; back_url]) ∧
          ∀ p, p ≠ "image" → p ≠ "_id" → d !! p = (demo_pd ∪ schema_defaults) !! p) ∧
  length [front_url; back_url] = length (picked (files (demo_entry "back.png"))) ∧
  ui w' = reset_form (push_toast (ToastSuccess (JStr "Product Added")) (demo_entry "back.png")).
Proof.
  apply (add_stores_form demo_path demo_categories [1; 0] (demo_page "back.png") demo_pd
           [front_url; back_url] [front_url; back_url]);
    [reflexivity | vm_compute; reflexivity | decide_vm | decide_vm | vm_compute; reflexivity
    | vm_compute; reflexivity | vm_compute; reflexivity | apply wf_db_empty].
Defined.

Lemma add_upload_failure_keeps_form_witness :
  dispatch_form demo_path demo_categories (Add [0; 1]) (demo_page "broken.png") =
    (Ok tt, mkWorld (mkServer empty_db [front_url] [message demo_upload_error])
                    (push_toast (ToastError (JStr (message demo_upload_error))) (demo_entry "broken.png"))).
Proof.
  apply (add_upload_failure_keeps_form demo_path demo_categories [0; 1] (demo_page "broken.png")
           demo_pd demo_upload_error [front_url]);
    [reflexivity | vm_compute; reflexivity | decide_vm | vm_compute; reflexivity].
Defined.

Lemma at_most_four_images_witness :
  length (multer_files demo_path (file_parts (files (ui (run_form demo_path demo_categories
    [PickFile 3 (Some (mkBlob "side.png")); PickFile 4 (Some (mkBlob "extra.png")); PickFile 1 None]
    (demo_page "back.png")))))) ≤ 4.
Proof. apply at_most_four_images. simpl. lia. Defined.

Lemma form_fields_typed_witness :
  let evs := [TypeName "Milk"; TypeDescription ("Fresh" ++ String newline "1 litre");
              PickFile 0 (Some (mkBlob "front.png")); SelectCategory "Dairy"] in
  let w := mkWorld demo_server0 initial_form in
  form_typed (ui (run_form demo_path demo_categories evs w)) = true ∧
  ∃ pd, productData_of (ui (run_form demo_path demo_categories evs w)) = Ok pd ∧ json_record pd.
Proof. cbv zeta. apply (form_fields_typed demo_path demo_categories demo_off). reflexivity. Defined.

Lemma description_lines_roundtrip_witness :
  js_split_lines (JStr (join_on newline ["Fresh"; "1 litre"])) = Ok (JArr (JStr <$> ["Fresh"; "1 litre"])).
Proof. apply (proj2 (description_lines_roundtrip "") ["Fresh"; "1 litre"]); [done | decide_vm]. Defined.

Lemma lookup_fills_form_witness :
  let w' := (handleBarcodeLookup demo_off "3017620422003" (demo_page "back.png")).2 in
  name (ui w') = js_or (get_prop demo_product "product_name") (JStr "") ∧
  description (ui w') = js_or (get_prop demo_product "generic_name") (JStr "") ∧
  category (ui w') = JStr "dairies" ∧ price (ui w') = JStr "" ∧ offerPrice (ui w') = JStr "" ∧
  quantity (ui w') = JNum 1 ∧ showConfirm (ui w') = true ∧
  files (ui w') = files (ui (demo_page "back.png")) ∧
  barcode (ui w') = barcode (ui (demo_page "back.png")) ∧ srv w' = srv (demo_page "back.png").
Proof.
  apply (lookup_fills_form demo_off "3017620422003" (demo_page "back.png")
           (JObj (<["status" := JNum 1]> (<["product" := JObj demo_product]> ∅))) demo_product
           "dairies" [JStr "en:milks"]);
    [reflexivity | reflexivity | reflexivity | reflexivity | done].
Defined.

Lemma save_directly_after_lookup_witness :
  let w1 := (handleBarcodeLookup demo_off "3017620422003" (demo_page "back.png")).2 in
  showConfirm (ui w1) = true ∧
  dispatch_form demo_path demo_categories (ConfirmSave [0; 1]) w1 =
    (Ok tt, mkWorld (srv (demo_page "back.png")) (set_showConfirm false (ui w1))).
Proof.
  apply (save_directly_after_lookup demo_path demo_categories demo_off "3017620422003"
           (demo_page "back.png") (JObj (<["status" := JNum 1]> (<["product" := JObj demo_product]> ∅)))
           demo_product (JStr "dairies") [0; 1]);
    [reflexivity | reflexivity | reflexivity | vm_compute; reflexivity].
Defined.

Lemma lookup_failure_keeps_form_witness :
  handleBarcodeLookup demo_off "0000000000000" (demo_page "back.png") =
    (Ok tt, mkWorld demo_server0 (push_toast (ToastError (JStr "No product info found for this barcode"))
              (dismiss_all (push_toast (ToastLoading "Fetching product info...") (demo_entry "back.png"))))).
Proof.
  apply (proj2 (lookup_failure_keeps_form demo_off "0000000000000" (demo_page "back.png"))
           (JObj (<["status" := JNum 0]> ∅)) (JNum 0)); reflexivity.
Defined.

End EntryForm.
