(* ===== verification/Scanner.v ===== *)
(** * The barcode scanner

    The camera half of [src/client/src/pages/seller/AddProduct.jsx]: the
    [useEffect] on [isScanning] (lines 26-61), [stopCamera] (64-69), the
    Start and Stop buttons (287-329), the [getUserMedia] promise and the
    decoder's callback.  The state ([cam]) is the page of [EntryForm] with
    its server, the [stream] state, what the browser holds (the camera
    requests not yet answered, the streams whose tracks are live, the
    decode loops running on the reader) and what React holds: whether the component
    is mounted, and the render whose effect ran last, with the [stream]
    value its closures see.

    Closures are the point: [stopCamera] reads [stream] from the render
    that created it.  The effect's cleanup, the [.then] callback and the
    decoder's callback were created by the render whose effect ran, so they
    see that render's [stream] ([eff_stream], or the value a request or the
    decode loop carries); the Stop button's handler is created by the last
    render and sees the current [stream].

    Each event is one [step] (the form's own events included); after it
    React renders and, when [isScanning] changed, runs the previous
    effect's cleanup and then the effect ([commit]).  The invariant
    [scan_inv] holds in every reachable state (by induction on the steps);
    the theorems use it to show what the closures stop and what they
    leave running. *)

From S2P Require Import Prelude JsValue ObjectId Json Store Upload Controller Client AddProduct.

Module Scanner.
Import EntryForm.

Record cam (M : Type) := mkCam {
  page : world M form;
  stream : option N;
  eff_on : bool;
  eff_stream : option N;
  pending : list (N * option N);
  live : list N;
  decoders : list (option N);
  next_id : N;
  mounted : bool
}.
Arguments mkCam {M} _ _ _ _ _ _ _ _ _.
Arguments page {M} _.
Arguments stream {M} _.
Arguments eff_on {M} _.
Arguments eff_stream {M} _.
Arguments pending {M} _.
Arguments live {M} _.
Arguments decoders {M} _.
Arguments next_id {M} _.
Arguments mounted {M} _.

Section model.
  Context `{!ProductSchema} `{MediaHost M} `{!JsonCodec}.
  Variable stored_path : blob → string.
  Variable categories : list string.
  Variable off_api : string → jres jval.
  Implicit Types c : cam M.

Definition scanning c : bool := isScanning (ui (page c)).

Definition with_page (w : world M form) c : cam M :=
    mkCam w (stream c) (eff_on c) (eff_stream c) (pending c) (live c) (decoders c) (next_id c) (mounted c).
Definition on_page (f : form → form) c : cam M :=
    with_page (mkWorld (srv (page c)) (f (ui (page c)))) c.

  (** A state update of the component; React drops it once unmounted. *)
Definition set_state (f : form → form) c : cam M := if mounted c then on_page f c else c.

  (** [setStream(ms)] *)
Definition set_stream (s : N) c : cam M :=
    if mounted c then mkCam (page c) (Some s) (eff_on c) (eff_stream c) (pending c) (live c)
                            (decoders c) (next_id c) (mounted c)
    else c.

  (** [track.stop()] for every track of the stream [x] names, if any. *)
Definition stop_tracks (x : option N) (l : list N) : list N :=
    match x with Some s => filter (λ t, t ≠ s) l | None => l end.

  (** [stopCamera], as the closure that sees [stream = x]:
      [codeReader.current.reset(); if (stream) stream.getTracks().forEach(t => t.stop())] *)
Definition stopCamera (x : option N) c : cam M :=
    mkCam (page c) (stream c) (eff_on c) (eff_stream c) (pending c) (stop_tracks x (live c))
          [] (next_id c) (mounted c).

  (** The effect of the render with [isScanning = on] and [stream = x]:
      [if (isScanning && videoRef.current) navigator.mediaDevices.getUserMedia(...)]
      (the video element is rendered exactly when [isScanning]). *)
Definition run_effect c : cam M :=
    let on := scanning c in
    mkCam (page c) (stream c) on (stream c)
          (if on then pending c ++ [(next_id c, stream c)] else pending c)
          (live c) (decoders c) (if on then next_id c + 1 else next_id c)%N (mounted c).

  (** After an event: render, and when [isScanning] changed, the previous
      effect's cleanup ([stopCamera] of its render) then the new effect. *)
Definition commit c : cam M :=
    if mounted c && negb (Bool.eqb (scanning c) (eff_on c))
    then run_effect (stopCamera (eff_stream c) c) else c.

  (** Start Scanning: [() => setIsScanning(true)] *)
Definition onStart c : cam M := set_state (set_isScanning true) c.

  (** Stop: [() => { stopCamera(); setIsScanning(false); }], the closure of
      the last render. *)
Definition onStop c : cam M := set_state (set_isScanning false) (stopCamera (stream c) c).

Definition remove_request (r : N) c : cam M :=
    mkCam (page c) (stream c) (eff_on c) (eff_stream c) (filter (λ p, p.1 ≠ r) (pending c))
          (live c) (decoders c) (next_id c) (mounted c).

  (** [decodeFromVideoDevice(...)]: one more decode loop on the reader. *)
Definition start_decoder (x : option N) c : cam M :=
    mkCam (page c) (stream c) (eff_on c) (eff_stream c) (pending c) (live c) (decoders c ++ [x])
          (next_id c) (mounted c).

Definition add_live (s : N) c : cam M :=
    mkCam (page c) (stream c) (eff_on c) (eff_stream c) (pending c) (live c ++ [s])
          (decoders c) (next_id c) (mounted c).

  (** [.catch((err) => { toast.error(...); setIsScanning(false); })] *)
Definition camera_failed c : cam M :=
    set_state (set_isScanning false)
      (on_page (push_toast (ToastError (JStr "Camera access denied or unavailable"))) c).

  (** The request [r] of a render that saw [stream = x] is granted:
      [setStream(mediaStream); videoRef.current.srcObject = mediaStream;
       videoRef.current.play(); codeReader.current.decodeFromVideoDevice(...)].
      The video element exists only while mounted and scanning; without it
      the assignment throws and the [.catch] runs. *)
Definition onGrant (r : N) (x : option N) c : cam M :=
    let c1 := set_stream r (add_live r (remove_request r c)) in
    if mounted c && scanning c then start_decoder x c1 else camera_failed c1.

  (** The request [r] is refused. *)
Definition onDeny (r : N) c : cam M := camera_failed (remove_request r c).

  (** The decoder's callback with a result, created by a render that saw
      [stream = x]: [setBarcode(code); toast.success(...);
      handleBarcodeLookup(code); setIsScanning(false); stopCamera()]. *)
Definition onDecode (x : option N) (code : string) c : cam M :=
    let c1 := set_state (set_barcode (JStr code)) c in
    let c2 := set_state (push_toast (ToastSuccess (JStr ("Detected Barcode: " ++ code)%string))) c1 in
    let c3 := with_page (handleBarcodeLookup off_api code (page c2)).2 c2 in
    stopCamera x (set_state (set_isScanning false) c3).

  (** The component goes away: the last effect's cleanup runs. *)
Definition unmount c : cam M :=
    let c1 := stopCamera (eff_stream c) c in
    mkCam (page c1) (stream c1) (eff_on c1) (eff_stream c1) (pending c1) (live c1)
          (decoders c1) (next_id c1) false.

Inductive step : cam M → cam M → Prop :=
| StepStart c : mounted c = true → scanning c = false → step c (commit (onStart c))
| StepStop c : mounted c = true → scanning c = true → step c (commit (onStop c))
| StepGrant c r x : (r, x) ∈ pending c → step c (commit (onGrant r x c))
| StepDeny c r x : (r, x) ∈ pending c → step c (commit (onDeny r c))
| StepDecode c x code : x ∈ decoders c → step c (commit (onDecode x code c))
| StepUnmount c : mounted c = true → step c (unmount c)
| StepForm c ev : mounted c = true →
    step c (commit (with_page (dispatch_form stored_path categories ev (page c)).2 c)).

  (** The component as it mounts next to the server [s]: its state is
      [initial_form], [stream] is [null], and its first effect ran with
      [isScanning = false] and did nothing. *)
Definition initial (s : server M) : cam M :=
    mkCam (mkWorld s initial_form) None false None [] [] [] 0%N true.

Definition reachable (s : server M) (c : cam M) : Prop := rtc step (initial s) c.
(** ** The invariant of the scanner

    The stream values the live closures can see ([captured]) are streams
    granted before; a request not yet answered names a stream nobody has
    seen.  While a decode loop runs, the component is mounted with a
    scanning effect, and the current stream is live and not among the
    values the effect's cleanup or a loop's callback would stop. *)

Definition captured c : list (option N) :=
    eff_stream c :: stream c :: (snd <$> pending c) ++ decoders c.

Record scan_inv c : Prop := {
    inv_nodup : NoDup (fst <$> pending c);
    inv_pending r x : (r, x) ∈ pending c → (r < next_id c)%N ∧ Some r ∉ captured c;
    inv_fresh s : Some s ∈ captured c → (s < next_id c)%N;
    inv_dec : decoders c ≠ [] → mounted c = true ∧ eff_on c = true;
    inv_live s : decoders c ≠ [] → stream c = Some s →
      s ∈ live c ∧ eff_stream c ≠ Some s ∧ Some s ∉ decoders c
}.

  (** The last render's effect ran: React commits after every event. *)
Definition synced c : Prop := mounted c = true → eff_on c = scanning c.

(** ** Lemmas *)

Lemma stop_tracks_sub x l : stop_tracks x l ⊆ l.
  Proof. destruct x; simpl; [|done]. intros t. rewrite list_elem_of_filter. naive_solver. Qed.

Lemma stop_tracks_keep x l s : s ∈ l → x ≠ Some s → s ∈ stop_tracks x l.
  Proof. destruct x; simpl; [|done]. rewrite list_elem_of_filter. naive_solver. Qed.

Lemma stop_tracks_drop s l : s ∉ stop_tracks (Some s) l.
  Proof. simpl. rewrite list_elem_of_filter. naive_solver. Qed.

Lemma with_page_inv w c : scan_inv c → scan_inv (with_page w c).
  Proof. by destruct 1; constructor. Qed.

Lemma on_page_inv f c : scan_inv c → scan_inv (on_page f c).
  Proof. apply with_page_inv. Qed.

Lemma set_state_inv f c : scan_inv c → scan_inv (set_state f c).
  Proof. unfold set_state. destruct (mounted c); auto using on_page_inv. Qed.

Lemma camera_failed_inv c : scan_inv c → scan_inv (camera_failed c).
  Proof. intros. by apply set_state_inv, on_page_inv. Qed.

Lemma stopCamera_inv x c : scan_inv c → scan_inv (stopCamera x c).
  Proof.
    destruct 1 as [Hn Hp Hf Hd Hl]. constructor; cbn; try done.
    - intros r y Hr. destruct (Hp r y Hr). split; [done|]. unfold captured in *. set_solver.
    - intros s Hs. apply Hf. unfold captured in *. set_solver.
  Qed.

#[local] Hint Resolve with_page_inv on_page_inv set_state_inv camera_failed_inv stopCamera_inv : scan.

Lemma run_effect_captured c : captured (run_effect c) ⊆ captured c.
  Proof. unfold captured, run_effect. cbn. destruct (scanning c); rewrite ?fmap_app; set_solver. Qed.

Lemma run_effect_inv c : scan_inv c → decoders c = [] → scan_inv (run_effect c).
  Proof.
    intros [Hn Hp Hf Hd Hl] Hz. pose proof (run_effect_captured c) as Hc.
    unfold run_effect, captured in *. destruct (scanning c); cbn in *;
      constructor; unfold captured; cbn; rewrite ?Hz in *; try done.
    - rewrite fmap_app. apply NoDup_app. split_and!; [done| |apply NoDup_singleton].
      intros r Hr Hr2. cbn in Hr2. apply list_elem_of_singleton in Hr2 as ->.
      apply list_elem_of_fmap in Hr as [[r' y] [Hr' Hr]]. simpl in Hr'. subst r'.
      destruct (Hp _ _ Hr) as [Hlt _]. lia.
    - intros r x [Hr|Hr%list_elem_of_singleton]%elem_of_app.
      + destruct (Hp _ _ Hr) as [Hlt Hni]. split; [lia|]. set_solver.
      + simplify_eq. split; [lia|]. intros Hin. apply Hc, Hf in Hin. lia.
    - intros s Hs. apply Hc, Hf in Hs. lia.
    - intros r x Hr. destruct (Hp _ _ Hr) as [Hlt Hni]. split; [done|]. set_solver.
    - intros s Hs. by apply Hc, Hf in Hs.
  Qed.

Lemma commit_inv c : scan_inv c → scan_inv (commit c) ∧ synced (commit c).
  Proof.
    intros Hi. unfold commit, synced. destruct (mounted c) eqn:Hm; simpl; [|by rewrite Hm].
    destruct (Bool.eqb (scanning c) (eff_on c)) eqn:He; simpl.
    - split; [done|]. intros _. symmetry. by apply Bool.eqb_prop.
    - split; [|done]. apply run_effect_inv; [by apply stopCamera_inv|done].
  Qed.

Lemma remove_request_nodup r (l : list (N * option N)) :
    NoDup (fst <$> l) → NoDup (fst <$> filter (λ p, p.1 ≠ r) l).
  Proof. intros. eapply sublist_NoDup; [done|]. apply fmap_sublist, sublist_filter. Qed.

Lemma remove_request_snd r (l : list (N * option N)) :
    (snd <$> filter (λ p, p.1 ≠ r) l) ⊆ snd <$> l.
  Proof. apply sublist_subseteq, fmap_sublist, sublist_filter. Qed.

(** Hide the requests' lists behind variables so that [set_solver] only
    sees membership in opaque lists. *)
Ltac hide_requests HL :=
  try match goal with
  | |- context [snd <$> filter (λ p : N * option N, p.1 ≠ ?r) ?l] =>
      let L := fresh "L" in
      pose proof (remove_request_snd r l) as HL;
      set (L := snd <$> filter (λ p : N * option N, p.1 ≠ r) l) in *; clearbody L
  end;
  repeat match goal with
  | H : context [snd <$> pending ?c] |- _ =>
      let P := fresh "P" in set (P := snd <$> pending c) in *; clearbody P
  end.

Lemma notin_sub {A} (y z : A) (K K' : list A) : y ∉ K → y ≠ z → K' ⊆ z :: K → y ∉ K'.
  Proof. set_solver. Qed.

Lemma bound_captured (K K' : list (option N)) n r :
    (∀ s, Some s ∈ K → (s < n)%N) → (r < n)%N → K' ⊆ Some r :: K → ∀ s, Some s ∈ K' → (s < n)%N.
  Proof. intros HK Hr Hsub s Hs. apply Hsub, elem_of_cons in Hs as [[= ->]|Hs]; auto. Qed.

(** The requests that stay pending after one is answered, and the bound
    on the captured values. *)
Ltac grant_sub Hx :=
  let HL := fresh "HL" in hide_requests HL; clear - HL Hx; set_solver.
Ltac grant_pending Hp Hx r :=
  let r' := fresh "r" in let x' := fresh "x" in
  intros r' x' [Hne Hr']%list_elem_of_filter; simpl in Hne;
  destruct (Hp _ _ Hr') as [? Hni']; split; [done|];
  apply (notin_sub _ (Some r) _ _ Hni'); [intros [= ?]; exact (Hne ltac:(done))|grant_sub Hx].
Ltac grant_fresh Hf Hlt Hx :=
  eapply bound_captured; [exact Hf|exact Hlt|grant_sub Hx].

(** What a granted request does to the camera's fields. *)
Lemma onGrant_fields r x c :
    pending (onGrant r x c) = filter (λ p, p.1 ≠ r) (pending c) ∧
    live (onGrant r x c) = live c ++ [r] ∧
    stream (onGrant r x c) = (if mounted c then Some r else stream c) ∧
    decoders (onGrant r x c) = (if mounted c && scanning c then decoders c ++ [x] else decoders c) ∧
    eff_stream (onGrant r x c) = eff_stream c ∧ eff_on (onGrant r x c) = eff_on c ∧
    next_id (onGrant r x c) = next_id c ∧ mounted (onGrant r x c) = mounted c.
  Proof.
    unfold onGrant, camera_failed, set_state, set_stream.
    destruct (mounted c) eqn:Hm, (scanning c); cbn; rewrite ?Hm; cbn; rewrite ?Hm; by split_and!.
  Qed.

Lemma onGrant_inv r x c : scan_inv c → synced c → (r, x) ∈ pending c → scan_inv (onGrant r x c).
  Proof.
    intros [Hn Hp Hf Hd Hl] Hs Hr. destruct (Hp _ _ Hr) as [Hlt Hni].
    assert (Hx : x ∈ captured c) by (unfold captured; set_solver).
    unfold captured, synced in *.
    destruct (onGrant_fields r x c) as (Ep & El & Es & Ed & Ee & Eo & En & Em).
    constructor; unfold captured; rewrite ?Ep, ?El, ?Es, ?Ed, ?Ee, ?Eo, ?En, ?Em;
      destruct (mounted c) eqn:Hm; try destruct (scanning c) eqn:Hsc; simpl;
      try first [by apply remove_request_nodup | grant_pending Hp Hx r | grant_fresh Hf Hlt Hx].
    - intros _. split; [done|]. by apply Hs.
    - exact Hd.
    - exact Hd.
    - exact Hd.
    - intros s' _ [= <-]. clear - Hni Hx. split_and!; set_solver.
    - intros s' Hne. exfalso. destruct (Hd Hne) as [_ He]. rewrite Hs in He by done. congruence.
    - intros s' Hne Hst. destruct (Hl s' Hne Hst) as (?&?&?). split_and!; set_solver.
    - intros s' Hne Hst. destruct (Hl s' Hne Hst) as (?&?&?). split_and!; set_solver.
  Qed.

Lemma remove_request_inv r c : scan_inv c → scan_inv (remove_request r c).
  Proof.
    intros [Hn Hp Hf Hd Hl]. unfold captured in *.
    constructor; unfold captured; cbn [pending stream eff_stream decoders next_id remove_request];
      [by apply remove_request_nodup| | |done|done].
    - intros r' x' [_ Hr']%list_elem_of_filter. destruct (Hp _ _ Hr') as [? Hni'].
      split; [done|]. let HL := fresh "HL" in hide_requests HL. clear - HL Hni'. set_solver.
    - intros s Hs. apply Hf. revert Hs. let HL := fresh "HL" in hide_requests HL. clear - HL. set_solver.
  Qed.

Lemma unmount_inv c : scan_inv c → scan_inv (unmount c).
  Proof. intros Hi. destruct (stopCamera_inv (eff_stream c) c Hi). by constructor. Qed.

#[local] Hint Resolve remove_request_inv unmount_inv : scan.

  (** Every event keeps the invariant, and React's commit brings the
      effect up to date. *)
Lemma step_inv c c' : scan_inv c → synced c → step c c' → scan_inv c' ∧ synced c'.
  Proof.
    intros Hi Hs Hst. destruct Hst; try apply commit_inv.
    - by apply set_state_inv.
    - unfold onStop. auto with scan.
    - by apply onGrant_inv.
    - by apply camera_failed_inv, remove_request_inv.
    - unfold onDecode. auto 10 with scan.
    - split; [by apply unmount_inv|]. by intros ?.
    - by apply with_page_inv.
  Qed.

Lemma reachable_inv s c : reachable s c → scan_inv c ∧ synced c.
  Proof.
    unfold reachable. assert (scan_inv (initial s) ∧ synced (initial s)) as Hi0.
    { split; [|done]. constructor; cbn; try done; [constructor|set_solver|set_solver]. }
    revert Hi0. generalize (initial s). intros c0 Hi0 Hr. revert Hi0.
    induction Hr as [|c1 c2 c3 Hst _ IH]; intros [Hi Hs]; [done|]. by apply IH, (step_inv c1).
  Qed.

(** ** What one event does to the camera *)

  (** The render after an event that changed [isScanning]: the previous
      effect's cleanup stops the stream it saw and resets the reader. *)
Lemma commit_cleanup c :
    mounted c = true → scanning c ≠ eff_on c →
    live (commit c) = stop_tracks (eff_stream c) (live c) ∧ decoders (commit c) = [] ∧
    stream (commit c) = stream c ∧ scanning (commit c) = scanning c ∧
    mounted (commit c) = true ∧ page (commit c) = page c.
  Proof.
    intros Hm Hne. unfold commit. rewrite Hm.
    destruct (Bool.eqb (scanning c) (eff_on c)) eqn:He; [by apply Bool.eqb_prop in He|]. done.
  Qed.

  (** The render after an event that left [isScanning] as the last effect
      saw it, or after the component went away, runs no effect. *)
Lemma commit_quiet c : (mounted c = true → scanning c = eff_on c) → commit c = c.
  Proof.
    intros Hq. unfold commit. destruct (mounted c); [|done].
    by rewrite (Hq eq_refl), Bool.eqb_reflx.
  Qed.

Lemma onDecode_fields x code c :
    mounted c = true →
    live (onDecode x code c) = stop_tracks x (live c) ∧ decoders (onDecode x code c) = [] ∧
    stream (onDecode x code c) = stream c ∧ scanning (onDecode x code c) = false ∧
    mounted (onDecode x code c) = true ∧ eff_on (onDecode x code c) = eff_on c ∧
    eff_stream (onDecode x code c) = eff_stream c.
  Proof. intros Hm. unfold onDecode, set_state. cbn. repeat (rewrite Hm; cbn). by split_and!. Qed.

Lemma onStop_fields c :
    mounted c = true →
    live (onStop c) = stop_tracks (stream c) (live c) ∧ decoders (onStop c) = [] ∧
    scanning (onStop c) = false ∧ mounted (onStop c) = true ∧ eff_on (onStop c) = eff_on c ∧
    eff_stream (onStop c) = eff_stream c.
  Proof. intros Hm. unfold onStop, set_state. cbn. repeat (rewrite Hm; cbn). by split_and!. Qed.

  (** Once the component is gone, nothing stops a stream: only the answers
      to its camera requests are left, and they start no decoder. *)
Lemma unmounted_step c c' :
    mounted c = false → decoders c = [] → step c c' →
    mounted c' = false ∧ decoders c' = [] ∧ live c ⊆ live c'.
  Proof.
    intros Hm Hd Hst. destruct Hst as [| |c r x Hr|c r x Hr|c x code Hx| |];
      rewrite ?Hm in *; try congruence.
    - destruct (onGrant_fields r x c) as (_&El&_&Ed&_&_&_&Em).
      rewrite commit_quiet; [|by rewrite Em, Hm].
      rewrite Em, El, Ed, Hm, Hd. split_and!; [done|done|set_solver].
    - unfold onDeny, camera_failed, set_state. cbn. rewrite Hm. cbn.
      rewrite commit_quiet; cbn; [|congruence]. by rewrite Hd.
    - rewrite Hd in Hx. set_solver.
  Qed.

Lemma unmounted_steps c c' :
    mounted c = false → decoders c = [] → rtc step c c' → live c ⊆ live c'.
  Proof.
    intros Hm Hd Hr. induction Hr as [|c1 c2 c3 Hst _ IH]; [done|].
    destruct (unmounted_step c1 c2) as (?&?&?); [done..|]. etrans; [done|]. by apply IH.
  Qed.

  (** An idle scanner in a state that satisfies the invariant runs no
      decode loop. *)
Lemma idle_decoders c : scan_inv c → synced c → scanning c = false → decoders c = [].
  Proof.
    intros Hi Hs Hsc. destruct (decoders c) eqn:Hd; [done|]. exfalso.
    destruct (inv_dec c Hi) as [Hm Hon]; [by rewrite Hd|]. rewrite Hs in Hon by done. congruence.
  Qed.

  (** The Stop button, and the render after it. *)
Lemma onStop_commit c :
    mounted c = true →
    live (commit (onStop c)) ⊆ stop_tracks (stream c) (live c) ∧
    decoders (commit (onStop c)) = [] ∧ scanning (commit (onStop c)) = false.
  Proof.
    intros Hm. destruct (onStop_fields c Hm) as (El & Ed & Es & Em & _ & _).
    destruct (decide (scanning (onStop c) = eff_on (onStop c))) as [Heq|Hne].
    - rewrite commit_quiet by done. by rewrite El, Ed, Es.
    - destruct (commit_cleanup (onStop c)) as (El' & Ed' & _ & Es' & _); [done..|].
      rewrite El', Ed', Es', El. split_and!; [apply stop_tracks_sub|done..].
  Qed.

(** ** The scanner's theorems *)

(** C25: A barcode decoded while the camera streams does not stop the
    camera: the decoder's [stopCamera] sees the [stream] of the render that
    started the scan, which predates the grant, and the cleanup of that
    render's effect sees the same stale value.  After the callback and the
    render it causes, the scanner is idle, the decode loops are reset, and
    the granted stream's tracks are still live. *)
Theorem decode_leaves_camera_on s c x code st :
    reachable s c → x ∈ decoders c → stream c = Some st →
    st ∈ live (commit (onDecode x code c)) ∧ scanning (commit (onDecode x code c)) = false ∧
    decoders (commit (onDecode x code c)) = [] ∧ mounted (commit (onDecode x code c)) = true.
  Proof.
    intros Hr Hx Hst. destruct (reachable_inv s c Hr) as [Hi _].
    assert (Hne : decoders c ≠ []) by (intros Hd0; rewrite Hd0 in Hx; set_solver).
    destruct (inv_dec c Hi Hne) as [Hm Hon].
    destruct (inv_live c Hi st Hne Hst) as (Hl & He & Hd).
    destruct (onDecode_fields x code c Hm) as (El & _ & _ & Es & Em & Eo & Ee).
    destruct (commit_cleanup (onDecode x code c)) as (El' & Ed' & _ & Es' & Em' & _);
      [done|by rewrite Es, Eo, Hon|].
    rewrite El', Ed', Es', Em', El, Es, Ee. split_and!; [|done..].
    apply stop_tracks_keep; [apply stop_tracks_keep; [done|intros ->; set_solver]|done].
  Qed.

(** C26: A page left while the camera streams leaks the camera for good:
    the unmount cleanup sees the stale [stream] of the effect's render, and
    no later event (the only ones left are answers to camera requests)
    stops the granted stream's tracks. *)
Theorem unmount_while_scanning_leaks s c x st c' :
    reachable s c → x ∈ decoders c → stream c = Some st → rtc step (unmount c) c' →
    st ∈ live c'.
  Proof.
    intros Hr Hx Hst Hsteps. destruct (reachable_inv s c Hr) as [Hi _].
    assert (Hne : decoders c ≠ []) by (intros Hd0; rewrite Hd0 in Hx; set_solver).
    destruct (inv_live c Hi st Hne Hst) as (Hl & He & _).
    pose proof (unmounted_steps (unmount c) c' eq_refl eq_refl Hsteps) as Hsub.
    apply Hsub. cbn. by apply stop_tracks_keep.
  Qed.

(** C27: One click on Stop brings a scanning scanner back to idle: the
    Stop handler is created by the last render and sees the current
    [stream], so from every state where the page is shown and scanning, the
    Stop step leads, after its render, to a state where [isScanning] is
    false, no decode loop runs, and the tracks of the stream the page holds
    are stopped. *)
Theorem stop_returns_to_idle c :
    mounted c = true → scanning c = true →
    step c (commit (onStop c)) ∧ scanning (commit (onStop c)) = false ∧
    decoders (commit (onStop c)) = [] ∧ ∀ st, stream c = Some st → st ∉ live (commit (onStop c)).
  Proof.
    intros Hm Hsc. destruct (onStop_commit c Hm) as (Hl & Hd & Hs).
    split_and!; [by constructor|done|done|].
    intros st Hst Hin. apply Hl in Hin. rewrite Hst in Hin. revert Hin. apply stop_tracks_drop.
  Qed.

(** C28: No decode loop runs while the scanner is idle: in every state the
    page can reach, [isScanning = false] means the reader was reset. *)
Theorem idle_scanner_has_no_decoder s c :
    reachable s c → scanning c = false → decoders c = [].
  Proof. intros Hr Hsc. destruct (reachable_inv s c Hr) as [Hi Hs]. by apply idle_decoders. Qed.

(** C29: A camera request answered after the user pressed Stop leaves the
    camera on and reports a failure: the grant stores the stream and its
    tracks are live, but the video element is gone, so the assignment to
    [videoRef.current.srcObject] throws and the [.catch] shows "Camera
    access denied or unavailable". *)
Theorem grant_after_stop_reports_denied s c r x :
    reachable s c → mounted c = true → scanning c = false → (r, x) ∈ pending c →
    r ∈ live (commit (onGrant r x c)) ∧ stream (commit (onGrant r x c)) = Some r ∧
    decoders (commit (onGrant r x c)) = [] ∧ scanning (commit (onGrant r x c)) = false ∧
    last (toasts (ui (page (commit (onGrant r x c))))) =
      Some (ToastError (JStr "Camera access denied or unavailable")).
  Proof.
    intros Hr Hm Hsc Hp. destruct (reachable_inv s c Hr) as [Hi Hs].
    assert (Hd : decoders c = []) by by apply idle_decoders.
    unfold onGrant, camera_failed, set_state, set_stream, on_page.
    rewrite Hm, Hsc. cbn. rewrite Hm. cbn. rewrite commit_quiet.
    - cbn. rewrite Hd, last_app. split_and!; [set_solver|done..].
    - cbn. intros _. rewrite Hs by done. unfold scanning. by rewrite <- Hsc.
  Qed.

(** C30: The Start button can be pressed again while a camera request is
    unanswered.  From every state the page can reach where it is shown and
    idle, the clicks Start, Stop, Start and the grants of the two requests
    (the second first) are a run of the page, after which two decode loops
    run on the reader at once, and the stream of the second request
    granted is the page's [stream] while the tracks of both streams are
    live: the first one granted is lost. *)
Theorem two_decode_loops s c :
    reachable s c → mounted c = true → scanning c = false →
    let n := next_id c in
    let c3 := commit (onStart (commit (onStop (commit (onStart c))))) in
    let c5 := commit (onGrant n (stream c) (commit (onGrant (n + 1) (stream c) c3))) in
    rtc step c c5 ∧ decoders c5 = [stream c; stream c] ∧ stream c5 = Some n ∧
    n ∈ live c5 ∧ (n + 1)%N ∈ live c5.
  Proof.
    intros Hr Hm Hsc. destruct (reachable_inv s c Hr) as [Hi Hs].
    pose proof (idle_decoders c Hi Hs Hsc) as Hd. pose proof (Hs Hm) as Heo. rewrite Hsc in Heo.
    destruct c as [pg st eo es pe lv dc ni mt]; unfold scanning in *; cbn in Hm, Heo, Hd, Hsc |- *.
    subst. split_and!.
    2-5: cbn; rewrite ?Hsc; cbn; rewrite ?Hsc; cbn; try done; set_solver.
    eapply rtc_l; [apply StepStart; [reflexivity|by cbn]|].
    eapply rtc_l; [apply StepStop; reflexivity|].
    eapply rtc_l; [apply StepStart; reflexivity|].
    eapply rtc_l; [apply (StepGrant _ (ni + 1) st); cbn; rewrite ?Hsc; cbn; set_solver|].
    apply rtc_once. apply (StepGrant _ ni st). cbn; rewrite ?Hsc; cbn.
    apply list_elem_of_filter. split; [cbn; lia|]. set_solver.
  Qed.

End model.


(** ** Witnesses

    A session on the demo page: Start, the camera granted, and what may
    follow. *)

Definition demo_start : cam (list string) := commit (onStart (initial demo_server0)).
Definition demo_scanning : cam (list string) := commit (onGrant 0 None demo_start).
Definition demo_stopped : cam (list string) := commit (onStop demo_start).
Definition demo_decoded : cam (list string) :=
  commit (onDecode demo_off None "3017620422003" demo_scanning).

Lemma demo_scanning_reachable : reachable demo_path demo_categories demo_off demo_server0 demo_scanning.
Proof.
  unfold reachable, demo_scanning, demo_start. eapply rtc_l; [apply StepStart; reflexivity|].
  eapply rtc_l; [apply StepGrant with (r := 0%N) (x := None); cbn; set_solver|]. apply rtc_refl.
Qed.

Lemma demo_stopped_reachable : reachable demo_path demo_categories demo_off demo_server0 demo_stopped.
Proof.
  unfold reachable, demo_stopped, demo_start. eapply rtc_l; [apply StepStart; reflexivity|].
  eapply rtc_l; [apply StepStop; reflexivity|]. apply rtc_refl.
Qed.

Lemma demo_decoded_reachable : reachable demo_path demo_categories demo_off demo_server0 demo_decoded.
Proof.
  eapply rtc_r; [apply demo_scanning_reachable|].
  unfold demo_decoded. apply StepDecode. cbn. set_solver.
Qed.

Lemma decode_leaves_camera_on_witness :
  0%N ∈ live demo_decoded ∧ scanning demo_decoded = false ∧ decoders demo_decoded = [] ∧
  mounted demo_decoded = true.
Proof.
  apply (decode_leaves_camera_on demo_path demo_categories demo_off demo_server0 demo_scanning None
           "3017620422003" 0); [apply demo_scanning_reachable | cbn; set_solver | reflexivity].
Defined.

Lemma unmount_while_scanning_leaks_witness : 0%N ∈ live (unmount demo_scanning).
Proof.
  apply (unmount_while_scanning_leaks demo_path demo_categories demo_off demo_server0 demo_scanning
           None 0 (unmount demo_scanning));
    [apply demo_scanning_reachable | cbn; set_solver | reflexivity | apply rtc_refl].
Defined.

Lemma stop_returns_to_idle_witness :
  step demo_path demo_categories demo_off demo_scanning (commit (onStop demo_scanning)) ∧
  scanning (commit (onStop demo_scanning)) = false ∧ decoders (commit (onStop demo_scanning)) = [] ∧
  ∀ st, stream demo_scanning = Some st → st ∉ live (commit (onStop demo_scanning)).
Proof. apply stop_returns_to_idle; reflexivity. Defined.

Lemma idle_scanner_has_no_decoder_witness : decoders demo_decoded = [].
Proof.
  apply (idle_scanner_has_no_decoder demo_path demo_categories demo_off demo_server0);
    [apply demo_decoded_reachable | reflexivity].
Defined.

Lemma grant_after_stop_reports_denied_witness :
  0%N ∈ live (commit (onGrant 0 None demo_stopped)) ∧
  stream (commit (onGrant 0 None demo_stopped)) = Some 0%N ∧
  decoders (commit (onGrant 0 None demo_stopped)) = [] ∧
  scanning (commit (onGrant 0 None demo_stopped)) = false ∧
  last (toasts (ui (page (commit (onGrant 0 None demo_stopped))))) =
    Some (ToastError (JStr "Camera access denied or unavailable")).
Proof.
  apply (grant_after_stop_reports_denied demo_path demo_categories demo_off demo_server0);
    [apply demo_stopped_reachable | reflexivity | reflexivity | cbn; set_solver].
Defined.

(** After a first session was stopped with its request unanswered. *)
Lemma two_decode_loops_witness :
  let c := demo_stopped in
  let n := next_id c in
  let c3 := commit (onStart (commit (onStop (commit (onStart c))))) in
  let c5 := commit (onGrant n (stream c) (commit (onGrant (n + 1) (stream c) c3))) in
  rtc (step demo_path demo_categories demo_off) c c5 ∧ decoders c5 = [stream c; stream c] ∧
  stream c5 = Some n ∧ n ∈ live c5 ∧ (n + 1)%N ∈ live c5.
Proof.
  cbv zeta. apply (two_decode_loops demo_path demo_categories demo_off demo_server0 demo_stopped);
    [apply demo_stopped_reachable | reflexivity | reflexivity].
Defined.

End Scanner.
